(** * astrbot_platform_wxipad: a shallow embedding of the adapter

    The development follows the Python sources of the plugin:

    - [Py]          the fragment of Python's data model the code relies on
                    (unicode strings, JSON values, exceptions);
    - [Normalizer]  [WechatPlatformAdapter.convert_message];
    - [Session]     [ipad855Client.check_online] and [check_login_status];
    - [Transport]   [ipad855Client.start_polling], [keepalive] and
                    [WechatPlatformAdapter.terminate];
    - [Dispatcher]  [WechatEvent.send_with_client] and the [post_*] calls.

    Definitions first, statements afterwards. *)

From Stdlib Require Import ZArith NArith Lia Strings.String Strings.Ascii.
From Stdlib Require Import Floats.SpecFloat.
From stdpp Require Import base option list gmap.

#[local] Open Scope Z_scope.
#[local] Set Warnings "-register-all".

(* ===================================================================== *)
(** * Python values                                                       *)
(* ===================================================================== *)

Module Py.

(** A Python [str] is a sequence of unicode code points. *)
Definition pystr : Type := list N.

(** ** Literals

    Source literals are UTF-8; [py] decodes a Rocq string literal (a byte
    sequence) into the code points Python sees. *)

Fixpoint utf8_go (pending : nat) (acc : N) (bs : list N) : pystr :=
  match bs with
  | [] => []
  | b :: bs' =>
      match pending with
      | S k =>
          let acc' := (acc * 64 + b mod 64)%N in
          match k with
          | O => acc' :: utf8_go 0 0%N bs'
          | S _ => utf8_go k acc' bs'
          end
      | O =>
          if (b <? 128)%N then b :: utf8_go 0 0%N bs'
          else if (b <? 224)%N then utf8_go 1 (b mod 32)%N bs'
          else if (b <? 240)%N then utf8_go 2 (b mod 16)%N bs'
          else utf8_go 3 (b mod 8)%N bs'
      end
  end.

Fixpoint bytes_of_string (s : string) : list N :=
  match s with
  | EmptyString => []
  | String c s' => N_of_ascii c :: bytes_of_string s'
  end.

Definition py (s : string) : pystr := utf8_go 0 0%N (bytes_of_string s).

(** The line feed has no spelling inside a Rocq string literal. *)
Definition LF : N := 10%N.

(** ** [str] methods *)

Fixpoint str_startswith (p s : pystr) : bool :=
  match p, s with
  | [], _ => true
  | _ :: _, [] => false
  | a :: p', b :: s' => (a =? b)%N && str_startswith p' s'
  end.

(** [s.find(sub)], with [None] for Python's [-1]. *)
Fixpoint str_find (sub s : pystr) : option nat :=
  if str_startswith sub s then Some O
  else match s with
       | [] => None
       | _ :: s' => S <$> str_find sub s'
       end.

(** [sub in s] for two strings. *)
Definition str_contains (sub s : pystr) : bool :=
  match str_find sub s with Some _ => true | None => false end.

(** [s.split(sep, maxsplit)] for a non-empty [sep]: cut at the leftmost
    occurrence, at most [fuel] times.  The separators of the source are
    all non-empty literals, so the [ValueError] of an empty separator is
    out of reach. *)
Fixpoint split_fuel (fuel : nat) (sep s : pystr) : list pystr :=
  match fuel with
  | O => [s]
  | S fuel' =>
      match str_find sep s with
      | None => [s]
      | Some i => take i s :: split_fuel fuel' sep (drop (i + length sep) s)
      end
  end.

(** [maxsplit = None] is Python's default [-1]: every occurrence cuts, and
    a string of length [n] holds at most [n] of them. *)
Definition str_split (sep : pystr) (maxsplit : option nat) (s : pystr)
  : list pystr :=
  split_fuel (default (length s) maxsplit) sep s.

(** [str.isspace] on one code point: the unicode white space that
    [str.strip()] removes. *)
Definition isspace (c : N) : bool :=
  ((9 <=? c) && (c <=? 13) || (28 <=? c) && (c <=? 32)
   || (c =? 133) || (c =? 160) || (c =? 5760)
   || (8192 <=? c) && (c <=? 8202)
   || (c =? 8232) || (c =? 8233) || (c =? 8239) || (c =? 8287)
   || (c =? 12288))%N.

Fixpoint str_lstrip (s : pystr) : pystr :=
  match s with
  | [] => []
  | c :: s' => if isspace c then str_lstrip s' else s
  end.

Definition str_rstrip (s : pystr) : pystr := rev (str_lstrip (rev s)).

Definition str_strip (s : pystr) : pystr := str_rstrip (str_lstrip s).

(** ** Values produced by [json.loads] *)

Inductive pyval : Type :=
| PNone
| PBool (b : bool)
| PInt (z : Z)
| PFloat (f : spec_float)
| PStr (s : pystr)
| PList (l : list pyval)
| PDict (d : list (pystr * pyval)).

(** [a == b] on two strings. *)
Fixpoint pystr_eqb (a b : pystr) : bool :=
  match a, b with
  | [], [] => true
  | x :: a', y :: b' => (x =? y)%N && pystr_eqb a' b'
  | _, _ => false
  end.

(** A float equals an int when its exact value does. *)
Definition float_eq_Z (f : spec_float) (k : Z) : bool :=
  match f with
  | S754_zero _ => k =? 0
  | S754_finite s m e =>
      let sm := if s then Z.neg m else Z.pos m in
      if 0 <=? e then sm * 2 ^ e =? k
      else (sm mod 2 ^ (- e) =? 0) && (sm / 2 ^ (- e) =? k)
  | S754_infinity _ | S754_nan => false
  end.

(** [v == k] for an int literal [k]; [bool] is a subtype of [int]. *)
Definition eq_int (v : pyval) (k : Z) : bool :=
  match v with
  | PInt z => z =? k
  | PBool b => (if b then 1 else 0) =? k
  | PFloat f => float_eq_Z f k
  | _ => false
  end.

(** [v == s] for a string [s]. *)
Definition eq_str (v : pyval) (s : pystr) : bool :=
  match v with
  | PStr t => pystr_eqb t s
  | _ => false
  end.

Fixpoint assoc (k : pystr) (d : list (pystr * pyval)) : option pyval :=
  match d with
  | [] => None
  | (k', v) :: d' => if pystr_eqb k' k then Some v else assoc k d'
  end.

(** ** Exceptions *)

Inductive exn : Type :=
| AttributeError
| TypeError
| IndexError
| KeyError
| UnboundLocalError
| ValueError (msg : pystr)
| FileNotFoundError
| TimeoutError
| ConnectionClosed
| ClientError.

Inductive res (A : Type) : Type :=
| Ok (a : A)
| Raise (e : exn).
Arguments Ok {A} a.
Arguments Raise {A} e.

Definition and_then {A B} (r : res A) (k : A -> res B) : res B :=
  match r with
  | Ok a => k a
  | Raise e => Raise e
  end.

Notation "'let?' x ':=' r 'in' k" := (and_then r (fun x => k))
  (at level 10, x name, r at level 100, k at level 200).

(** [d.get(k, dflt)]: only a dict has the method. *)
Definition dict_get (d : pyval) (k : pystr) (dflt : pyval) : res pyval :=
  match d with
  | PDict kv => Ok (default dflt (assoc k kv))
  | _ => Raise AttributeError
  end.

(** [d[k]] for a string key. *)
Definition subscript (d : pyval) (k : pystr) : res pyval :=
  match d with
  | PDict kv => match assoc k kv with Some v => Ok v | None => Raise KeyError end
  | _ => Raise TypeError
  end.

(** [k in v] for a string [k]: substring of a string, key of a dict,
    element of a list; the other JSON values are not containers. *)
Definition py_in (k : pystr) (v : pyval) : res bool :=
  match v with
  | PStr s => Ok (str_contains k s)
  | PDict kv => Ok (match assoc k kv with Some _ => true | None => false end)
  | PList l => Ok (existsb (fun x => eq_str x k) l)
  | _ => Raise TypeError
  end.

(** [v.split(sep, maxsplit)] and [v.strip()]: only a [str] has them. *)
Definition py_split (v : pyval) (sep : pystr) (maxsplit : option nat)
  : res (list pystr) :=
  match v with
  | PStr s => Ok (str_split sep maxsplit s)
  | _ => Raise AttributeError
  end.

(** [l[i]] on a list. *)
Definition list_index {A} (l : list A) (i : nat) : res A :=
  match l !! i with Some x => Ok x | None => Raise IndexError end.

(** [a, b = l]. *)
Definition unpack2 {A} (l : list A) : res (A * A) :=
  match l with
  | [a; b] => Ok (a, b)
  | _ => Raise (ValueError [])
  end.

End Py.

Import Py.

(* ===================================================================== *)
(** * Effects: state, exceptions, logging                                 *)
(* ===================================================================== *)

Module Eff.

(** A computation over a store [St] that returns or raises. *)
Definition M (St A : Type) : Type := St -> res A * St.

Definition ret {St A} (a : A) : M St A := fun s => (Ok a, s).

Definition bind {St A B} (m : M St A) (k : A -> M St B) : M St B :=
  fun s =>
    match m s with
    | (Ok a, s') => k a s'
    | (Raise e, s') => (Raise e, s')
    end.

Definition raise {St A} (e : exn) : M St A := fun s => (Raise e, s).

Definition lift {St A} (r : res A) : M St A := fun s => (r, s).

Definition get {St} : M St St := fun s => (Ok s, s).

Definition modify {St} (f : St -> St) : M St unit := fun s => (Ok tt, f s).

(** [try: body except Exception as e: handler e]. *)
Definition try_except {St A} (body : M St A) (handler : exn -> M St A)
  : M St A :=
  fun s =>
    match body s with
    | (Ok a, s') => (Ok a, s')
    | (Raise e, s') => handler e s'
    end.

(** [try: body finally: fin]; an exception of [fin] replaces the outcome
    of [body]. *)
Definition try_finally {St A} (body : M St A) (fin : M St unit) : M St A :=
  fun s =>
    match body s with
    | (r, s') =>
        match fin s' with
        | (Ok _, s'') => (r, s'')
        | (Raise e, s'') => (Raise e, s'')
        end
    end.

Module Notations.
Notation "'let*' x ':=' m 'in' k" := (bind m (fun x => k))
  (at level 10, x name, m at level 100, k at level 200).
End Notations.

(** ** The logger *)

Inductive level : Type := DEBUG | INFO | WARNING | ERROR.

(** What a message interpolates. *)
Inductive log_arg : Type :=
| LVal (v : pyval)
| LStr (s : pystr)
| LExn (e : exn).

Record log_entry : Type := Log {
  lvl : level;
  msg : pystr;
  args : list log_arg
}.

End Eff.

Import Eff Eff.Notations.

(* ===================================================================== *)
(** * wechat_adapter.py: message normalisation                            *)
(* ===================================================================== *)

Module Normalizer.

Inductive MessageType : Type := GROUP_MESSAGE | FRIEND_MESSAGE.

Record MessageMember : Type := {
  user_id : pyval;
  nickname : pystr
}.

(** The adapter only ever builds [Plain] components on the inbound path. *)
Inductive component : Type := Plain (text : pyval).

Record AstrBotMessage : Type := {
  type : MessageType;
  self_id : pystr;
  message_id : pyval;
  timestamp : pyval;
  sender : MessageMember;
  message : list component;
  message_str : pystr;
  session_id : pyval;
  group_id : option pyval;
  raw_message : pyval
}.

(** The literals of [convert_message]. *)
Definition AT_MARKER : pystr := Eval vm_compute in py "在群聊中@了你".
Definition COLON : pystr := [58%N].
Definition COLON_LF : pystr := [58%N; LF].
Definition CHATROOM : pystr := Eval vm_compute in py "@chatroom".

Definition logger (l : level) (m : string) (a : list log_arg)
  : M (list log_entry) unit :=
  modify (fun logs => logs ++ [Log l (py m) a]).

Section Convert.

(** [str(v)] as an f-string renders a value that is not a [str]. *)
Variable format_value : pyval -> pystr.
(** [self.wxid], the adapter's own identity. *)
Variable wxid : pystr.
(** [int(time.time())] at the call. *)
Variable now : Z.

Definition fstr (v : pyval) : pystr :=
  match v with PStr s => s | _ => format_value v end.

(** Lines 153-164: the [if]/[elif] chain binds [nickname] and
    [actual_content], or neither. *)
Definition group_rules (push_content raw_content : pyval)
  : res (option (pystr * pystr)) :=
  let? mentioned := py_in AT_MARKER push_content in
  if mentioned : bool then
    let? ps := py_split push_content AT_MARKER None in
    let? p0 := list_index ps 0 in
    let? rs := py_split raw_content COLON_LF None in
    let? r1 := list_index rs 1 in
    Ok (Some (str_strip p0, r1))
  else
    let? colon := py_in COLON push_content in
    if colon : bool then
      let? ps := py_split push_content COLON (Some 1%nat) in
      let? nc := unpack2 ps in
      Ok (Some (str_strip (fst nc), snd nc))
    else
      let? colon_lf := py_in COLON_LF raw_content in
      if colon_lf : bool then
        let? rs := py_split raw_content COLON_LF (Some 1%nat) in
        let? nc := unpack2 rs in
        Ok (Some (str_strip (fst nc), snd nc))
      else Ok None.

(** The body of the [try] block, lines 131-190. *)
Definition convert_body (data : pyval)
  : M (list log_entry) (option AstrBotMessage) :=
  let* fu := lift (dict_get data (py "from_user_name") (PDict [])) in
  let* from_user := lift (dict_get fu (py "str") (PStr [])) in
  let* is_group := lift (py_in CHATROOM from_user) in
  let* msg_id := lift (dict_get data (py "msg_id") (PStr [])) in
  let* create_time := lift (dict_get data (py "create_time") (PInt now)) in
  if is_group : bool then
    let* push_content := lift (dict_get data (py "push_content") (PDict [])) in
    let* ct := lift (dict_get data (py "content") (PDict [])) in
    let* raw_content := lift (dict_get ct (py "str") (PStr [])) in
    let* bound := lift (group_rules push_content raw_content) in
    (* line 167: [nickname.strip()] reads the local *)
    let* nc := match bound with
               | Some nc => ret nc
               | None => raise UnboundLocalError
               end in
    let nick := str_strip (fst nc) in
    let actual_content := snd nc in
    let* rs := lift (py_split raw_content COLON_LF None) in
    let* uid := lift (list_index rs 0) in
    let abm := {|
      type := GROUP_MESSAGE;
      self_id := wxid;
      message_id := msg_id;
      timestamp := create_time;
      sender := {| user_id := PStr uid; nickname := nick |};
      message := [] ++ [Plain (PStr actual_content)];
      message_str := nick ++ py ": " ++ actual_content;
      session_id := from_user;
      group_id := Some from_user;
      raw_message := data |} in
    let* _ := logger DEBUG "转换后的消息" [] in
    ret (match message abm with [] => None | _ :: _ => Some abm end)
  else
    if eq_str from_user wxid then ret None
    else
      let* push_content := lift (dict_get data (py "push_content") (PStr [])) in
      let* ps := lift (py_split push_content COLON None) in
      let* p0 := lift (list_index ps 0) in
      let nick := str_strip p0 in
      let* ct := lift (dict_get data (py "content") (PDict [])) in
      let* content := lift (dict_get ct (py "str") (PStr [])) in
      let abm := {|
        type := FRIEND_MESSAGE;
        self_id := wxid;
        message_id := msg_id;
        timestamp := create_time;
        sender := {| user_id := from_user; nickname := nick |};
        message := [] ++ [Plain content];
        message_str := nick ++ py ": " ++ fstr content;
        session_id := from_user;
        group_id := None;
        raw_message := data |} in
      let* _ := logger DEBUG "转换后的消息" [] in
      ret (match message abm with [] => None | _ :: _ => Some abm end).

(** [convert_message]: the [try] with its [except Exception]. *)
Definition convert_message (data : pyval)
  : M (list log_entry) (option AstrBotMessage) :=
  try_except (convert_body data)
    (fun e =>
       let* _ := logger ERROR "消息转换失败" [LExn e; LVal data] in
       ret None).

End Convert.

End Normalizer.

(* ===================================================================== *)
(** * client.py: the login status calls                                   *)
(* ===================================================================== *)

Module Session.

(** The two status endpoints of the control API. *)
Inductive endpoint : Type := GetLoginStatus | CheckLoginStatus.

(** What [session.get] followed by [resp.json()] gives: the request fails,
    or a response arrives with its status and what the body decodes to. *)
Inductive http_result : Type :=
| NetError
| Response (status : Z) (json : res pyval).

Record client : Type := {
  login_status : bool;
  requests : list endpoint;
  logs : list log_entry
}.

Definition logger (l : level) (m : string) (a : list log_arg)
  : M client unit :=
  modify (fun c => {| login_status := login_status c;
                      requests := requests c;
                      logs := logs c ++ [Log l (py m) a] |}).

Definition set_login_status (b : bool) : M client unit :=
  modify (fun c => {| login_status := b;
                      requests := requests c;
                      logs := logs c |}).

(** [except ValueError] lets every other exception through. *)
Definition is_ValueError (e : exn) : bool :=
  match e with ValueError _ => true | _ => false end.

Definition try_except_ValueError {St A} (body : M St A)
    (handler : exn -> M St A) : M St A :=
  try_except body
    (fun e => if is_ValueError e then handler e else raise e).

Section Calls.

(** The backend's answer on each endpoint during one call. *)
Variable backend : endpoint -> http_result.

(** [async with session.get(...) as resp]. *)
Definition http_get (ep : endpoint) : M client (Z * res pyval) :=
  let* _ := modify (fun c => {| login_status := login_status c;
                          requests := requests c ++ [ep];
                          logs := logs c |}) in
  match backend ep with
  | NetError => raise ClientError
  | Response status body => ret (status, body)
  end.

(** [check_online], lines 257-303. *)
Definition check_online : M client bool :=
  try_except
    (let* resp := http_get GetLoginStatus in
     if negb (fst resp =? 200) then
       let* _ := logger ERROR "检查在线状态失败，状态码" [LVal (PInt (fst resp))] in
       ret false
     else
       try_except_ValueError
         (let* json_blob := lift (snd resp) in
          let* has_code := lift (py_in (py "Code") json_blob) in
          if negb has_code then
            let* _ := logger ERROR "响应中没有 Code 字段" [] in ret false
          else
            let* code := lift (subscript json_blob (py "Code")) in
            if negb (eq_int code 200) then
              let* error_text :=
                lift (dict_get json_blob (py "Text") (PStr (py "未知错误"))) in
              let* _ := logger ERROR "检查在线状态失败" [LVal error_text] in
              ret false
            else
              let* has_data := lift (py_in (py "Data") json_blob) in
              let* has_state :=
                if has_data : bool then
                  let* d := lift (subscript json_blob (py "Data")) in
                  lift (py_in (py "loginState") d)
                else ret false in
              if has_state : bool then
                let* d := lift (subscript json_blob (py "Data")) in
                let* login_state := lift (subscript d (py "loginState")) in
                if eq_int login_state 1 then
                  let* expiry := lift (dict_get d (py "expiryTime") (PStr [])) in
                  let* _ := logger INFO "授权到期时间" [LVal expiry] in
                  let* err := lift (dict_get d (py "loginErrMsg") (PStr [])) in
                  let* _ := logger INFO "{}" [LVal err] in
                  let* online := lift (dict_get d (py "onlineTime") (PStr [])) in
                  let* _ := logger INFO "{}" [LVal online] in
                  let* total := lift (dict_get d (py "totalOnline") (PStr [])) in
                  let* _ := logger INFO "{}" [LVal total] in
                  let* _ := set_login_status true in
                  ret true
                else
                  let* _ := logger ERROR "账号不在线，状态码" [LVal login_state] in
                  ret false
              else
                let* _ := logger ERROR "响应中没有 loginState 字段" [] in
                ret false)
         (fun e =>
            let* _ := logger ERROR "解析响应 JSON 失败" [LExn e] in ret false))
    (fun e =>
       let* _ := logger ERROR "检查在线状态时发生错误" [LExn e] in ret false).

(** [check_login_status], lines 173-232. *)
Definition check_login_status : M client bool :=
  try_except
    (let* resp := http_get CheckLoginStatus in
     if negb (fst resp =? 200) then
       let* _ := logger ERROR "检查登录状态失败，状态码" [LVal (PInt (fst resp))] in
       ret false
     else
       try_except_ValueError
         (let* json_blob := lift (snd resp) in
          let* has_code := lift (py_in (py "Code") json_blob) in
          if negb has_code then
            let* _ := logger ERROR "响应中没有 Code 字段" [] in ret false
          else
            let* code := lift (subscript json_blob (py "Code")) in
            if negb (eq_int code 200) then
              (* the scan check failed: ask for the real online state *)
              let* online := check_online in
              if online : bool then ret true
              else
                let* error_text :=
                  lift (dict_get json_blob (py "Text") (PStr (py "未知错误"))) in
                ret false
            else
              let* has_data := lift (py_in (py "Data") json_blob) in
              if negb has_data then
                let* _ := logger ERROR "响应中没有 Data 字段" [] in ret false
              else
                let* data := lift (subscript json_blob (py "Data")) in
                let* state := lift (dict_get data (py "state") (PInt (-1))) in
                if eq_int state 0 then
                  let* eff := lift (dict_get data (py "effective_time") (PInt 0)) in
                  let* _ := logger INFO "等待扫描二维码... 有效期剩余" [LVal eff] in
                  ret false
                else if eq_int state 1 then
                  let* _ := logger INFO "二维码已扫描，请在手机上确认登录" [] in
                  ret false
                else if eq_int state 2 then
                  let* _ := logger INFO "ipad微信登录成功" [] in
                  ret true
                else
                  let* _ := logger ERROR "未知的登录状态" [LVal state] in
                  ret false)
         (fun e =>
            let* _ := logger ERROR "解析响应 JSON 失败" [LExn e] in ret false))
    (fun e =>
       let* _ := logger ERROR "检查登录状态时发生错误" [LExn e] in ret false).

End Calls.

End Session.

(* ===================================================================== *)
(** * client.py: the stream connection                                    *)
(* ===================================================================== *)

Module Transport.

(** A text frame either renders a JSON value or it does not; [json.loads]
    tells the two apart. *)
Inductive frame : Type :=
| Json (value : pyval)
| Malformed (text : pystr).

Definition json_loads (message : frame) : res pyval :=
  match message with
  | Json v => Ok v
  | Malformed t => Raise (ValueError t)
  end.

(** How [await asyncio.wait_for(websocket.recv(), timeout=30)] ends. *)
Inductive recv_result : Type :=
| RecvTimeout
| RecvMessage (message : frame)
| RecvClosed.

(** The points at which the event loop resumes one of the coroutines. *)
Inductive event : Type :=
| ConnectDone (ok : bool)
| RecvDone (r : recv_result)
| KeepaliveTick (ping_ok : bool)
| BackoffDone
| ShutdownSet.

(** Where [start_polling] is suspended. *)
Inductive pc : Type :=
| Connecting
| Reading (conn : nat)
| Backoff
| Stopped.

(** The keepalive task of the current connection. *)
Inductive task : Type :=
| NoTask
| Sleeping
| Finished
| Cancelled.

(** What the coroutines do to the outside. *)
Inductive action : Type :=
| Connect (url : pystr)
| Opened (conn : nat)
| Closed (conn : nat)
| Ping (conn : nat)
| Dispatch (json_message : pyval)
| Sleep (seconds : Z)
| Logged (entry : log_entry).

Record state : Type := {
  shutdown_event : bool;
  at_ : pc;
  keepalive_task : task;
  open_conns : list nat;
  next_conn : nat;
  trace : list action
}.

Definition goto (p : pc) (s : state) : state :=
  {| shutdown_event := shutdown_event s; at_ := p;
     keepalive_task := keepalive_task s; open_conns := open_conns s;
     next_conn := next_conn s; trace := trace s |}.

Definition set_task (t : task) (s : state) : state :=
  {| shutdown_event := shutdown_event s; at_ := at_ s;
     keepalive_task := t; open_conns := open_conns s;
     next_conn := next_conn s; trace := trace s |}.

Definition emit (a : action) (s : state) : state :=
  {| shutdown_event := shutdown_event s; at_ := at_ s;
     keepalive_task := keepalive_task s; open_conns := open_conns s;
     next_conn := next_conn s; trace := trace s ++ [a] |}.

Definition set_shutdown (s : state) : state :=
  {| shutdown_event := true; at_ := at_ s;
     keepalive_task := keepalive_task s; open_conns := open_conns s;
     next_conn := next_conn s; trace := trace s |}.

Definition logger (l : level) (m : string) (a : list log_arg) (s : state)
  : state :=
  emit (Logged (Log l (py m) a)) s.

(** Entering [async with websockets.connect(...)]: a fresh connection. *)
Definition open_conn (s : state) : state :=
  emit (Opened (next_conn s))
    {| shutdown_event := shutdown_event s; at_ := at_ s;
       keepalive_task := keepalive_task s;
       open_conns := next_conn s :: open_conns s;
       next_conn := S (next_conn s); trace := trace s |}.

(** Leaving the [async with]: the connection is closed. *)
Definition close_conn (c : nat) (s : state) : state :=
  emit (Closed c)
    {| shutdown_event := shutdown_event s; at_ := at_ s;
       keepalive_task := keepalive_task s;
       open_conns := filter (fun x => x ≠ c) (open_conns s);
       next_conn := next_conn s; trace := trace s |}.

(** [keepalive_task.cancel()] does nothing to a task that has ended. *)
Definition cancel (s : state) : state :=
  match keepalive_task s with
  | Sleeping => set_task Cancelled s
  | _ => s
  end.

Section Polling.

Variable ws_url : pystr.
Variable token : pystr.
(** [self.on_message_received]: returns, or raises. *)
Variable on_message_received : pyval -> res unit.

(** Line 70, the head of the reconnect loop. *)
Definition outer_loop (s : state) : state :=
  if shutdown_event s then goto Stopped s
  else goto Connecting (emit (Connect (ws_url ++ py "?key=" ++ token)) s).

(** Lines 92-93 and the end of the [async with]. *)
Definition leave (c : nat) (s : state) : state :=
  close_conn c (cancel s).

(** Lines 95-98, [except Exception as e]. *)
Definition on_error (e : exn) (s : state) : state :=
  let s := logger ERROR "WebSocket连接错误" [LExn e] s in
  if shutdown_event s then outer_loop s
  else goto Backoff (emit (Sleep 5) s).

(** Line 84, the head of the read loop on connection [c]. *)
Definition read_loop (c : nat) (s : state) : state :=
  if shutdown_event s then outer_loop (leave c s)
  else goto (Reading c) s.

(** Lines 86-89, the body of the inner [try]. *)
Definition read_body (r : recv_result) (s : state) : res unit * state :=
  match r with
  | RecvTimeout => (Raise TimeoutError, s)
  | RecvClosed => (Raise ConnectionClosed, s)
  | RecvMessage message =>
      match json_loads message with
      | Raise e => (Raise e, s)
      | Ok json_message =>
          let s := logger DEBUG "格式化后的消息" [LVal json_message] s in
          (on_message_received json_message, emit (Dispatch json_message) s)
      end
  end.

(** One resumption of a coroutine.  An event that no coroutine is
    waiting for leaves the state as it is. *)
Definition step (s : state) (ev : event) : state :=
  match ev, at_ s with
  | ShutdownSet, _ => set_shutdown s
  | ConnectDone true, Connecting =>
      let c := next_conn s in
      let s := open_conn s in
      let s := logger DEBUG "WebSocket连接成功建立" [] s in
      (* line 81: the task is created and first runs at the next await *)
      let s := set_task Sleeping s in
      read_loop c s
  | ConnectDone false, Connecting => on_error ConnectionClosed s
  | RecvDone r, Reading c =>
      match read_body r s with
      | (Ok _, s) => read_loop c s
      | (Raise TimeoutError, s) => read_loop c s
      | (Raise e, s) => on_error e (leave c s)
      end
  | KeepaliveTick ping_ok, Reading c =>
      match keepalive_task s with
      | Sleeping =>
          let s := emit (Ping c) s in
          if ping_ok then
            let s := logger DEBUG "发送WebSocket心跳包" [] s in
            if shutdown_event s then set_task Finished s else s
          else
            let s := logger WARNING "心跳发送失败" [LExn ConnectionClosed] s in
            set_task Finished s
      | _ => s
      end
  | BackoffDone, Backoff => outer_loop s
  | _, _ => s
  end.

Definition run (s : state) (evs : list event) : state :=
  fold_left step evs s.

(** Calling [start_polling] on a fresh client. *)
Definition start_polling (shutdown : bool) : state :=
  outer_loop {| shutdown_event := shutdown; at_ := Stopped;
                keepalive_task := NoTask; open_conns := [];
                next_conn := 0; trace := [] |}.

End Polling.

(** ** [WechatPlatformAdapter.terminate] *)

Record adapter : Type := {
  ws : option nat;
  client : state;
  adapter_log : list log_entry
}.

Section Terminate.

(** Whether [await self.ws.close()] returns. *)
Variable ws_close : nat -> res unit.

Definition terminate (a : adapter) : adapter :=
  let cl := set_shutdown (client a) in
  let lg :=
    match ws a with
    | Some w =>
        match ws_close w with
        | Ok _ => adapter_log a
        | Raise e =>
            adapter_log a ++ [Log ERROR (py "关闭WebSocket连接时出错") [LExn e]]
        end
    | None => adapter_log a
    end in
  {| ws := None; client := cl;
     adapter_log := lg ++ [Log INFO (py "微信平台适配器已终止") []] |}.

(** What a caller can observe of the adapter apart from its log. *)
Definition observable (a : adapter) : option nat * state :=
  (ws a, client a).

End Terminate.

End Transport.

(* ===================================================================== *)
(** * wechat_event.py and client.py: outbound dispatch                    *)
(* ===================================================================== *)

Module Dispatcher.

(** The parts of a [MessageChain].  [Record_] is the framework's [Record]
    (a voice recording); [Image] and [Record_] carry what
    [convert_to_file_path()] gives. *)
Inductive comp : Type :=
| Plain (text : pystr)
| At (qq name : pystr)
| Image (file : res pystr)
| Record_ (file : res pystr)
| Emoji (md5 md5_len cdnurl : pystr)
| Other (type : pystr).

(** One call of the control API. *)
Record request : Type := Post {
  url : pystr;
  payload : pyval
}.

Record world : Type := {
  fs : gmap (list N) (list N);
  calls : list request;
  logs : list log_entry;
  uuids : nat
}.

Definition set_fs (f : gmap (list N) (list N)) (w : world) : world :=
  {| fs := f; calls := calls w; logs := logs w; uuids := uuids w |}.

Definition logger (l : level) (m : string) (a : list log_arg)
  : M world unit :=
  modify (fun w => {| fs := fs w; calls := calls w;
                      logs := logs w ++ [Log l (py m) a];
                      uuids := uuids w |}).

(** [open(path, 'rb').read()]. *)
Definition read_file (path : pystr) : M world (list N) :=
  fun w =>
    match fs w !! path with
    | Some bytes => (Ok bytes, w)
    | None => (Raise FileNotFoundError, w)
    end.

(** [os.path.exists]: the empty path names nothing. *)
Definition path_exists (f : gmap (list N) (list N)) (path : pystr) : bool :=
  match path with
  | [] => false
  | _ :: _ => match f !! path with Some _ => true | None => false end
  end.

(** Lines 126-131: [if f and os.path.exists(f): os.remove(f)], any error
    swallowed. *)
Fixpoint cleanup (paths : list pystr) : M world unit :=
  match paths with
  | [] => ret tt
  | f :: rest =>
      let* w := get in
      let* _ :=
        if negb (pystr_eqb f []) && path_exists (fs w) f
        then modify (set_fs (delete f (fs w)))
        else ret tt in
      cleanup rest
  end.

(** [sep.join(l)]. *)
Fixpoint str_join (sep : pystr) (l : list pystr) : pystr :=
  match l with
  | [] => []
  | [x] => x
  | x :: rest => x ++ sep ++ str_join sep rest
  end.

(** [p.rfind(c)] for one character, [-1] when absent. *)
Fixpoint rfind_from (c : N) (s : pystr) (i : Z) (last : Z) : Z :=
  match s with
  | [] => last
  | x :: s' => rfind_from c s' (i + 1) (if (x =? c)%N then i else last)
  end.

Definition str_rfind (c : N) (s : pystr) : Z := rfind_from c s 0 (-1).

(** [os.path.splitext] of [posixpath]: the extension starts at the last
    dot of the last path component, leading dots apart. *)
Definition splitext (p : pystr) : pystr * pystr :=
  let sepIndex := str_rfind 47%N p in
  let dotIndex := str_rfind 46%N p in
  if sepIndex <? dotIndex then
    let name := take (Z.to_nat (dotIndex - (sepIndex + 1)))
                     (drop (Z.to_nat (sepIndex + 1)) p) in
    if existsb (fun x => negb (x =? 46)%N) name
    then (take (Z.to_nat dotIndex) p, drop (Z.to_nat dotIndex) p)
    else (p, [])
  else (p, []).

Section Client.

Variable base_url : pystr.
Variable token : pystr.
(** Whether the [n]-th POST of a run (and reading its JSON answer)
    returns or raises. *)
Variable net : nat -> res unit.
(** [base64.b64encode(b).decode()]. *)
Variable b64encode : list N -> pystr.
(** [str.lower]. *)
Variable lower : pystr -> pystr.
(** [str(uuid.uuid4())], one per draw. *)
Variable uuid4 : nat -> pystr.
(** [str(e)] of an exception that carries no message of the source. *)
Variable describe : exn -> pystr.

Definition str_exn (e : exn) : pystr :=
  match e with
  | ValueError m => m
  | _ => describe e
  end.

Definition fresh_uuid : M world pystr :=
  fun w => (Ok (uuid4 (uuids w)),
            {| fs := fs w; calls := calls w; logs := logs w;
               uuids := S (uuids w) |}).

(** [async with session.post(url, json=payload)] and [resp.json()]. *)
Definition http_post (path : string) (body : pyval) : M world unit :=
  fun w =>
    (net (length (calls w)),
     {| fs := fs w;
        calls := calls w
                 ++ [Post (base_url ++ py path ++ py "?key=" ++ token) body];
        logs := logs w; uuids := uuids w |}).

(** [post_text], lines 356-383. *)
Definition post_text (to_wxid content ats : pystr) : M world unit :=
  let payload :=
    PDict [(py "MsgItem",
            PList [PDict [
              (py "AtWxIDList", PList (PStr <$> str_split [44%N] None ats));
              (py "ImageContent", PStr []);
              (py "MsgType", PInt 0);
              (py "TextContent", PStr content);
              (py "ToUserName", PStr to_wxid)]])] in
  let* _ := http_post "/message/SendTextMessage" payload in
  logger DEBUG "发送消息结果" [].

(** [post_image], lines 386-413. *)
Definition post_image (to_wxid image_url : pystr) : M world unit :=
  let payload :=
    PDict [(py "MsgItem",
            PList [PDict [
              (py "AtWxIDList", PList [PStr (py "string")]);
              (py "ImageContent", PStr image_url);
              (py "MsgType", PInt 0);
              (py "TextContent", PStr []);
              (py "ToUserName", PStr to_wxid)]])] in
  let* _ := http_post "/message/SendImageNewMessage" payload in
  logger DEBUG "发送图片结果" [].

(** [post_voice], lines 416-437.  The payload is built from the literal
    [1]; the [VoiceFormat] argument is not read. *)
Definition post_voice (to_wxid voicedata : pystr) (VoiceFormat : Z)
  : M world unit :=
  let payload :=
    PDict [(py "ToUserName", PStr to_wxid);
           (py "VoiceData", PStr voicedata);
           (py "VoiceFormat", PInt 1);
           (py "VoiceSecond,", PInt 0)] in
  let* _ := http_post "/message/SendVoice" payload in
  logger DEBUG "发送语音结果" [].

(** The [Record] branch of [send_with_client], lines 92-131. *)
Definition send_record (to_wxid : pystr) (file : res pystr)
  : M world unit :=
  let* record_path := lift file in
  let* u := fresh_uuid in
  let silk_path := py "data/temp/" ++ u ++ py ".silk" in
  try_finally
    (try_except
       (let ext := lower (snd (splitext record_path)) in
        let* encoded :=
          if pystr_eqb ext (py ".mp3") then
            let* mp3_data := read_file record_path in
            ret (py "data:audio/mpeg;base64," ++ b64encode mp3_data, 2)
          else if pystr_eqb ext (py ".wav") then
            let* silk_data := read_file silk_path in
            ret (py "data:audio/wav;base64," ++ b64encode silk_data, 1)
          else raise (ValueError (py "不支持的音频格式: " ++ ext)) in
        let* _ := logger INFO "语音文件格式转换完成"
                    [LStr record_path; LStr ext] in
        post_voice to_wxid (fst encoded) (snd encoded))
       (fun e =>
          let* _ := logger ERROR "语音处理失败" [LExn e] in
          post_text to_wxid (py "语音处理错误: " ++ str_exn e) []))
    (cleanup [record_path; silk_path]).

(** One iteration of the second loop, lines 74-137. *)
Definition send_comp (to_wxid : pystr) (ats ats_names : list pystr)
    (c : comp) : M world unit :=
  match c with
  | Plain text =>
      match ats with
      | [] => post_text to_wxid text []
      | _ :: _ =>
          let ats_names_str := py "@" ++ str_join (py " @") ats_names in
          post_text to_wxid (ats_names_str ++ py " " ++ text)
            (str_join [44%N] ats)
      end
  | Image file =>
      let* img_path := lift file in
      let* bytes := read_file img_path in
      post_image to_wxid (b64encode bytes)
  | Record_ file => send_record to_wxid file
  | Emoji _ _ _ =>
      (* the client has no [post_emoji] *)
      raise AttributeError
  | At _ _ => ret tt
  | Other t => logger DEBUG "ipad 忽略" [LStr t]
  end.

Fixpoint for_each {A} (f : A -> M world unit) (l : list A) : M world unit :=
  match l with
  | [] => ret tt
  | x :: rest => let* _ := f x in for_each f rest
  end.

Definition at_ids (chain : list comp) : list pystr :=
  omap (fun c => match c with At qq _ => Some qq | _ => None end) chain.

Definition at_names (chain : list comp) : list pystr :=
  omap (fun c => match c with At _ name => Some name | _ => None end) chain.

(** [send_with_client], lines 61-137. *)
Definition send_with_client (chain : list comp) (to_wxid : pystr)
  : M world unit :=
  match to_wxid with
  | [] => logger ERROR "无法获取到 to_wxid。" []
  | _ :: _ =>
      for_each (send_comp to_wxid (at_ids chain) (at_names chain)) chain
  end.

End Client.

End Dispatcher.

(* ===================================================================== *)
(** * wechat_adapter.py: the inbound glue                                 *)
(* ===================================================================== *)

Module Adapter.

Import Normalizer.

(** What the adapter does besides logging. *)
Inductive effect : Type :=
| Slept (seconds : Z)
| OpenRedbag (data : pyval)
| Committed (message_str : pystr) (message_obj : AstrBotMessage)
    (session_id : pyval).

Record st : Type := {
  logs : list log_entry;
  effects : list effect
}.

Definition logger (l : level) (m : string) (a : list log_arg) : M st unit :=
  modify (fun s => {| logs := logs s ++ [Log l (py m) a];
                      effects := effects s |}).

Definition perform (e : effect) : M st unit :=
  modify (fun s => {| logs := logs s; effects := effects s ++ [e] |}).

(** A computation that only logs, run inside the adapter. *)
Definition with_logs {A} (m : M (list log_entry) A) : M st A :=
  fun s =>
    match m (logs s) with
    | (r, l) => (r, {| logs := l; effects := effects s |})
    end.

Section Inbound.

Variable format_value : pyval -> pystr.
Variable wxid : pystr.
Variable now : Z.
(** [self.redbag_enabled] and [self.redbag_interval]. *)
Variable redbag_enabled : bool.
Variable redbag_interval : Z.
(** [component.text] of a [Plain] built from a value, as the right
  operand of [+=] on a [str]. *)
Variable plain_text : pyval -> res pystr.

(** [is_text_message], lines 110-123.  [open_redbag] catches whatever it
  raises; its call is kept as an effect. *)
Definition is_text_message (data : pyval) : M st (option AstrBotMessage) :=
let* msg_type := lift (dict_get data (py "msg_type") (PStr [])) in
if eq_int msg_type 49 then
  if redbag_enabled then
    let* _ := if 0 <=? redbag_interval
              then perform (Slept redbag_interval)
              else ret tt in
    let* _ := perform (OpenRedbag data) in
    ret None
  else ret None
else
  with_logs (convert_message format_value wxid now data).

(** The loop of [handle_msg], lines 206-217, on the components the
  adapter builds. *)
Fixpoint components_text (acc : pystr) (l : list component) : res pystr :=
match l with
| [] => Ok acc
| Plain v :: rest =>
    let? t := plain_text v in
    components_text (acc ++ t) rest
end.

(** [handle_msg], lines 197-230. *)
Definition handle_msg (message : AstrBotMessage) : M st unit :=
let* message_str := lift (components_text [] (Normalizer.message message)) in
perform (Committed message_str message (Normalizer.session_id message)).

(** [on_received], the closure of [run], lines 82-88. *)
Definition on_received (data : pyval) : M st unit :=
let* abm := is_text_message data in
match abm with
| None => logger DEBUG "消息转换结果为None，忽略处理" []
| Some abm => handle_msg abm
end.

End Inbound.

(** [bool(v)]. *)
Definition truthy (v : pyval) : bool :=
  match v with
  | PNone => false
  | PBool b => b
  | PInt z => negb (z =? 0)
  | PFloat (S754_zero _) => false
  | PFloat _ => true
  | PStr s => match s with [] => false | _ :: _ => true end
  | PList l => match l with [] => false | _ :: _ => true end
  | PDict d => match d with [] => false | _ :: _ => true end
  end.

(** The recipient that [WechatEvent.send] computes, lines 140-141 of
    wechat_event.py: [a or b] evaluates [b] only when [a] is falsy. *)
Definition reply_target (raw_message : pyval) : res pyval :=
  let? to_wxid := dict_get raw_message (py "to_wxid") PNone in
  if truthy to_wxid then Ok to_wxid
  else
    let? fu := dict_get raw_message (py "from_user_name") (PDict []) in
    dict_get fu (py "str") PNone.


Section Outbound.

Variable base_url : pystr.
Variable token : pystr.
Variable net : nat -> res unit.
Variable b64encode : list N -> pystr.
Variable lower : pystr -> pystr.
Variable uuid4 : nat -> pystr.
Variable describe : exn -> pystr.


End Outbound.

End Adapter.

(* ===================================================================== *)
(** * client.py: logging in and out                                       *)
(* ===================================================================== *)

Module Login.

Import Session.

(** The constants of [__init__], lines 46-47. *)
Definition login_check_interval : Z := 5.
Definition login_timeout : Z := 300.

Record st : Type := {
  client : Session.client;
  posts : list pystr;
  qr_code_data : option pyval;
  sleeps : list Z
}.

(** A computation of the status calls, run on the client. *)
Definition on_client {A} (m : M Session.client A) : M st A :=
  fun s =>
    match m (client s) with
    | (r, c) => (r, {| client := c; posts := posts s;
                       qr_code_data := qr_code_data s;
                       sleeps := sleeps s |})
    end.

Definition logger (l : level) (m : string) (a : list log_arg) : M st unit :=
  on_client (Session.logger l m a).

Definition set_login_status (b : bool) : M st unit :=
  on_client (Session.set_login_status b).

Definition set_qr_code_data (v : pyval) : M st unit :=
  modify (fun s => {| client := client s; posts := posts s;
                      qr_code_data := Some v; sleeps := sleeps s |}).

Definition sleep (seconds : Z) : M st unit :=
  modify (fun s => {| client := client s; posts := posts s;
                      qr_code_data := qr_code_data s;
                      sleeps := sleeps s ++ [seconds] |}).

(** [async with session.post(path)] and what it answers. *)
Definition http_post (path : string) (answer : http_result)
  : M st (Z * res pyval) :=
  let* _ := modify (fun s => {| client := client s;
                                posts := posts s ++ [py path];
                                qr_code_data := qr_code_data s;
                                sleeps := sleeps s |}) in
  match answer with
  | NetError => raise ClientError
  | Response status body => ret (status, body)
  end.

Section Environment.

(** The backend when [check_and_login] first asks for the online state,
  its answer to the QR request, and the backend during the [k]-th scan
  check. *)
Variable first_check : endpoint -> http_result.
Variable qr_answer : http_result.
Variable poll : nat -> endpoint -> http_result.
(** [(datetime.now() - start_time).seconds] at the head of the [k]-th
  round, and whether [shutdown_event] is set when the round reads it. *)
Variable elapsed : nat -> Z.
Variable shutdown : nat -> bool.

(** The [while True] of lines 148-163, from round [k] on; [None] when the
  rounds allowed are used up. *)
Fixpoint poll_loop (fuel : nat) (k : nat) : M st (option bool) :=
match fuel with
| O => ret None
| S fuel' =>
    if login_timeout <? elapsed k then
      let* _ := logger ERROR "登录超时" [] in
      ret (Some false)
    else
      let* login_status := on_client (check_login_status (poll k)) in
      if login_status : bool then
        let* _ := set_login_status true in
        let* _ := logger INFO "ipad微信登录成功" [] in
        ret (Some true)
      else if shutdown k then
        let* _ := logger INFO "适配器关闭，退出登录" [] in
        ret (Some false)
      else
        let* _ := sleep login_check_interval in
        poll_loop fuel' (S k)
end.

(** [check_and_login], lines 101-170. *)
Definition check_and_login (fuel : nat) : M st (option bool) :=
try_except
  (let* online := on_client (check_online first_check) in
   if online : bool then
     let* _ := set_login_status true in
     ret (Some true)
   else
     let* _ := logger WARNING "设备不在线，正在获取登录二维码..." [] in
     let* resp := http_post "/login/GetLoginQrCodeNewX" qr_answer in
     if negb (fst resp =? 200) then
       let* _ := logger ERROR "获取登录二维码失败，状态码"
                   [LVal (PInt (fst resp))] in
       ret (Some false)
     else
       try_except_ValueError
         (let* json_blob := lift (snd resp) in
          let* has_code := lift (py_in (py "Code") json_blob) in
          if negb has_code then
            let* _ := logger ERROR "响应中没有 Code 字段" [] in
            ret (Some false)
          else
            let* code := lift (subscript json_blob (py "Code")) in
            if negb (eq_int code 200) then
              let* error_text :=
                lift (dict_get json_blob (py "Text")
                        (PStr (py "未知错误"))) in
              let* _ := logger ERROR "获取登录二维码失败"
                          [LVal error_text] in
              ret (Some false)
            else
              let* has_data := lift (py_in (py "Data") json_blob) in
              let* has_url :=
                if has_data : bool then
                  let* d := lift (subscript json_blob (py "Data")) in
                  lift (py_in (py "QrCodeUrl") d)
                else ret false in
              if negb has_url then
                let* _ := logger ERROR "响应中没有 QrCodeUrl 字段" [] in
                ret (Some false)
              else
                let* d := lift (subscript json_blob (py "Data")) in
                let* url := lift (subscript d (py "QrCodeUrl")) in
                let* _ := set_qr_code_data url in
                let* _ := logger INFO "请使用微信扫描以下二维码登录"
                            [LVal url] in
                let* txt := lift (dict_get d (py "Txt") (PStr [])) in
                let* _ := logger INFO "提示" [LVal txt] in
                poll_loop fuel 0)
         (fun e =>
            let* _ := logger ERROR "解析响应 JSON 失败" [LExn e] in
            ret (Some false)))
  (fun e =>
     let* _ := logger ERROR "检查在线状态或获取二维码时发生错误"
                 [LExn e] in
     ret (Some false)).

End Environment.

(** [logout], lines 235-254. *)
Definition logout (answer : http_result) : M st bool :=
  try_except
    (let* resp := http_post "/login/Logout" answer in
     let* json_blob := lift (snd resp) in
     let* code := lift (subscript json_blob (py "Code")) in
     if negb (eq_int code 0) then
       let* _ := logger ERROR "登出失败" [LVal json_blob] in
       ret false
     else
       let* _ := set_login_status false in
       let* _ := logger INFO "登出成功" [] in
       ret true)
    (fun e =>
       let* _ := logger ERROR "登出时发生错误" [LExn e] in
       ret false).

End Login.

(* ===================================================================== *)
(** * Vocabulary of the statements                                        *)
(* ===================================================================== *)

Import Normalizer.

Arguments py : simpl never.

(** The accessors of [convert_message] on the frame, in source order:
    channel, push text and raw content of a frame on which all of them
    return. *)
Definition frame_fields (data : pyval) (push_default : pyval)
  : res (pyval * pyval * pyval) :=
  let? fu := dict_get data (py "from_user_name") (PDict []) in
  let? from_user := dict_get fu (py "str") (PStr []) in
  let? push_content := dict_get data (py "push_content") push_default in
  let? ct := dict_get data (py "content") (PDict []) in
  let? raw_content := dict_get ct (py "str") (PStr []) in
  Ok (from_user, push_content, raw_content).

(** A group frame on which none of the three tests of lines 153-161
    holds. *)
Definition no_rule_matches (data : pyval) : bool :=
  match frame_fields data (PDict []) with
  | Ok (from_user, push_content, raw_content) =>
      match py_in CHATROOM from_user, py_in AT_MARKER push_content,
            py_in COLON push_content, py_in COLON_LF raw_content with
      | Ok true, Ok false, Ok false, Ok false => true
      | _, _, _, _ => false
      end
  | Raise _ => false
  end.


(** [s.partition(sep)[0]]: what precedes the first separator, the whole
    string when there is none. *)
Definition before_first (sep s : pystr) : pystr :=
  match str_find sep s with
  | Some i => take i s
  | None => s
  end.

(** ** Sample frames *)

Definition group_frame (push raw : pystr) : pyval :=
  PDict [(py "msg_type", PInt 1);
         (py "msg_id", PInt 42);
         (py "create_time", PInt 1700000000);
         (py "from_user_name", PDict [(py "str", PStr (py "12345@chatroom"))]);
         (py "push_content", PStr push);
         (py "content", PDict [(py "str", PStr raw)])].

Definition direct_frame (from_user push content : pystr) : pyval :=
  PDict [(py "msg_type", PInt 1);
         (py "msg_id", PInt 43);
         (py "create_time", PInt 1700000000);
         (py "from_user_name", PDict [(py "str", PStr from_user)]);
         (py "push_content", PStr push);
         (py "content", PDict [(py "str", PStr content)])].

Definition no_format : pyval -> pystr := fun _ => [].

Definition bot_wxid : pystr := Eval vm_compute in py "wxid_bot".

(** Scenario A: a mention in a group. *)
Definition scenario_A : pyval :=
  group_frame (py "Alice在群聊中@了你") (py "alice_id:" ++ LF :: py "hello").

(** A mention whose raw content carries no [":\n"]. *)
Definition mention_without_delimiter : pyval :=
  group_frame (py "Alice在群聊中@了你") (py "hello").

(** Scenario B with a bare raw content. *)
Definition colon_without_delimiter : pyval :=
  group_frame (py "Bob: hi there") (py "hi there").

(** A group frame that no rule reads. *)
Definition unmatched_frame : pyval :=
  group_frame (py "hello") (py "hi").

(** Scenario C, and the same with a blank before the colon. *)
Definition scenario_C : pyval :=
  direct_frame (py "carol_id") (py "Carol: yo") (py "yo").


(** ** Sample backends *)

Definition fresh_client : Session.client :=
  {| Session.login_status := false; Session.requests := [];
     Session.logs := [] |}.

(** The scan check answers with the unknown state 3 while the account is
    in fact online. *)
Definition backend_state3_online (ep : Session.endpoint)
  : Session.http_result :=
  match ep with
  | Session.CheckLoginStatus =>
      Session.Response 200
        (Ok (PDict [(py "Code", PInt 200);
                    (py "Data", PDict [(py "state", PInt 3)])]))
  | Session.GetLoginStatus =>
      Session.Response 200
        (Ok (PDict [(py "Code", PInt 200);
                    (py "Data", PDict [(py "loginState", PInt 1)])]))
  end.

(** The scan check answers with a failure code while the account is
    online. *)
Definition backend_failure_online (ep : Session.endpoint)
  : Session.http_result :=
  match ep with
  | Session.CheckLoginStatus =>
      Session.Response 200
        (Ok (PDict [(py "Code", PInt 300); (py "Text", PStr (py "expired"))]))
  | Session.GetLoginStatus =>
      Session.Response 200
        (Ok (PDict [(py "Code", PInt 200);
                    (py "Data", PDict [(py "loginState", PInt 1)])]))
  end.

(** The scan check answers with the confirmed state. *)
Definition backend_confirmed (ep : Session.endpoint)
  : Session.http_result :=
  match ep with
  | Session.CheckLoginStatus =>
      Session.Response 200
        (Ok (PDict [(py "Code", PInt 200);
                    (py "Data", PDict [(py "state", PInt 2)])]))
  | Session.GetLoginStatus => Session.NetError
  end.

(** A computation of the client that sends no request. *)
Definition keeps_requests {A} (m : M Session.client A) : Prop :=
  forall c, Session.requests (snd (m c)) = Session.requests c.

(** The client once a request to [ep] is on record. *)
Definition requested (ep : Session.endpoint) (c : Session.client)
  : Session.client :=
  {| Session.login_status := Session.login_status c;
     Session.requests := Session.requests c ++ [ep];
     Session.logs := Session.logs c |}.

(** ** Sample runs of the transport *)

Definition sample_url : pystr := Eval vm_compute in py "ws://host/ws/GetSyncMsg".
Definition sample_token : pystr := Eval vm_compute in py "k".

(** A handler that takes every message. *)
Definition accept_all : pyval -> res unit := fun _ => Ok tt.

Definition sample_step : Transport.state -> Transport.event -> Transport.state :=
  Transport.step sample_url sample_token accept_all.

(** The client right after its first connection is established. *)
Definition connected : Transport.state :=
  sample_step (Transport.start_polling sample_url sample_token false)
    (Transport.ConnectDone true).

(** What holds of the connections between two resumptions. *)
Definition conn_inv (s : Transport.state) : Prop :=
  match Transport.at_ s with
  | Transport.Reading c => Transport.open_conns s = [c]
  | _ => Transport.open_conns s = []
  end.

Definition has_sleep (t : list Transport.action) : bool :=
  existsb (fun a => match a with Transport.Sleep _ => true | _ => false end) t.

(** An adapter whose [ws] was set. *)
Definition sample_adapter : Transport.adapter :=
  {| Transport.ws := Some 7%nat;
     Transport.client := connected;
     Transport.adapter_log := [] |}.

(** ** Sample dispatches *)

Definition sample_base_url : pystr := Eval vm_compute in py "http://host:8848".

(** Every call of the backend returns. *)
Definition net_up : nat -> res unit := fun _ => Ok tt.

(** A stand-in for the encoder: the bytes themselves. *)
Definition plain_b64 : list N -> pystr := fun b => b.

(** [str.lower] on ASCII text. *)
Definition ascii_lower (s : pystr) : pystr :=
  (fun c => if ((65 <=? c) && (c <=? 90))%N then (c + 32)%N else c) <$> s.

Definition sample_uuid4 (n : nat) : pystr := py "uuid-" ++ [(48 + N.of_nat n)%N].

Definition no_describe : exn -> pystr := fun _ => [].

Definition sample_send (chain : list Dispatcher.comp) (to_wxid : pystr)
  : M Dispatcher.world unit :=
  Dispatcher.send_with_client sample_base_url sample_token net_up plain_b64
    ascii_lower sample_uuid4 no_describe chain to_wxid.

(** A temp directory that holds one recording. *)
Definition world_with (path : pystr) : Dispatcher.world :=
  {| Dispatcher.fs := {[ path := [1; 2; 3]%N ]};
     Dispatcher.calls := [];
     Dispatcher.logs := [];
     Dispatcher.uuids := 0 |}.

(** The [VoiceFormat] fields of the voice calls made, and the URLs of all
    calls made. *)
Definition voice_formats (w : Dispatcher.world) : list pyval :=
  omap (fun r => assoc (py "VoiceFormat")
                   match Dispatcher.payload r with
                   | PDict kv => kv
                   | _ => []
                   end)
       (Dispatcher.calls w).

Definition urls (w : Dispatcher.world) : list pystr :=
  Dispatcher.url <$> Dispatcher.calls w.


(* ===================================================================== *)
(** * Further vocabulary                                                  *)
(* ===================================================================== *)

(** What scenario C is normalised to. *)
Definition scenario_C_message : AstrBotMessage :=
  {| type := FRIEND_MESSAGE;
     self_id := bot_wxid;
     message_id := PInt 43;
     timestamp := PInt 1700000000;
     sender := {| user_id := PStr (py "carol_id"); nickname := py "Carol" |};
     message := [Normalizer.Plain (PStr (py "yo"))];
     message_str := py "Carol: yo";
     session_id := PStr (py "carol_id");
     group_id := None;
     raw_message := scenario_C |}.

(** The entry that [convert_message] logs on success. *)
Definition converted_entry : log_entry := Log DEBUG (py "转换后的消息") [].

(** A string that neither starts nor ends with white space. *)
Definition trimmed (s : pystr) : Prop :=
  match s with [] => True | c :: _ => isspace c = false end
  /\ match rev s with [] => True | c :: _ => isspace c = false end.


(** ** Reading a trace of the transport *)

(** The connection that a state is reading from. *)
Definition current_conn (s : Transport.state) : option nat :=
  match Transport.at_ s with
  | Transport.Reading c => Some c
  | _ => None
  end.

(** A trace is well bracketed when a connection is opened only while
    none is open, closed only while it is the open one, pinged only
    while it is the open one, and a message is dispatched only while
    some connection is open.  The scan gives the connection left open. *)
Fixpoint bracketed (cur : option nat) (t : list Transport.action)
  : option (option nat) :=
  match t with
  | [] => Some cur
  | Transport.Opened c :: t' =>
      match cur with
      | None => bracketed (Some c) t'
      | Some _ => None
      end
  | Transport.Closed c :: t' =>
      match cur with
      | Some c' => if Nat.eqb c c' then bracketed None t' else None
      | None => None
      end
  | Transport.Ping c :: t' =>
      match cur with
      | Some c' => if Nat.eqb c c' then bracketed cur t' else None
      | None => None
      end
  | Transport.Dispatch _ :: t' =>
      match cur with
      | Some _ => bracketed cur t'
      | None => None
      end
  | _ :: t' => bracketed cur t'
  end.

(** The messages handed to the handler, and the connection attempts and
    backoffs, in a trace. *)
Definition dispatched (t : list Transport.action) : list pyval :=
  omap (fun a => match a with Transport.Dispatch v => Some v | _ => None end) t.

Definition attempts (t : list Transport.action) : list Transport.action :=
  omap (fun a => match a with
                 | Transport.Connect _ | Transport.Sleep _ => Some a
                 | _ => None
                 end) t.

(** The well-formed frames among the events. *)
Definition json_frames (evs : list Transport.event) : list pyval :=
  omap (fun ev => match ev with
                  | Transport.RecvDone
                      (Transport.RecvMessage (Transport.Json v)) => Some v
                  | _ => None
                  end) evs.

(** An event that resumes [start_polling] where it is suspended. *)
Definition resumes (s : Transport.state) (ev : Transport.event) : bool :=
  match Transport.at_ s, ev with
  | Transport.Connecting, Transport.ConnectDone _ => true
  | Transport.Reading _, Transport.RecvDone _ => true
  | Transport.Backoff, Transport.BackoffDone => true
  | _, _ => false
  end.

(** Whether [on_received] returns on a frame, for use as the handler of
    the stream. *)
Definition received_outcome (format_value : pyval -> pystr) (wxid : pystr)
    (now : Z) (redbag_enabled : bool) (redbag_interval : Z)
    (plain_text : pyval -> res pystr) (data : pyval) : res unit :=
  fst (Adapter.on_received format_value wxid now redbag_enabled
         redbag_interval plain_text data
         {| Adapter.logs := []; Adapter.effects := [] |}).

(** What holds of a client of the stream between two resumptions: the
    connections agree with where it is suspended, its trace is well
    bracketed and leaves the current connection open, and the keepalive
    task sleeps only while a connection is read. *)
Definition trace_inv (s : Transport.state) : Prop :=
  conn_inv s
  /\ bracketed None (Transport.trace s) = Some (current_conn s)
  /\ (current_conn s = None ->
      Transport.keepalive_task s <> Transport.Sleeping).

(** ** Logging in *)

(** What the scan check answers on a backend. *)
Definition poll_answer (backend : Session.endpoint -> Session.http_result)
  : bool :=
  match fst (Session.check_login_status backend fresh_client) with
  | Ok true => true
  | _ => false
  end.

(** What the online check answers on a backend. *)
Definition online_answer (backend : Session.endpoint -> Session.http_result)
  : bool :=
  match fst (Session.check_online backend fresh_client) with
  | Ok true => true
  | _ => false
  end.

(** The QR code that an answer to the QR request carries, if any: the
    answer is 200 with an object whose [Code] is 200 and whose [Data] is
    an object with a [QrCodeUrl]. *)
Definition qr_code_of (answer : Session.http_result) : option pyval :=
  match answer with
  | Session.Response 200 (Ok (PDict kv)) =>
      match assoc (py "Code") kv, assoc (py "Data") kv with
      | Some code, Some (PDict d) =>
          if eq_int code 200 then assoc (py "QrCodeUrl") d else None
      | _, _ => None
      end
  | _ => None
  end.

Definition fresh_login : Login.st :=
  {| Login.client := fresh_client; Login.posts := [];
     Login.qr_code_data := None; Login.sleeps := [] |}.

(** The account is offline and nothing is scanned. *)
Definition backend_idle (ep : Session.endpoint) : Session.http_result :=
  match ep with
  | Session.CheckLoginStatus =>
      Session.Response 200
        (Ok (PDict [(py "Code", PInt 200);
                    (py "Data", PDict [(py "state", PInt 0)])]))
  | Session.GetLoginStatus =>
      Session.Response 200
        (Ok (PDict [(py "Code", PInt 200);
                    (py "Data", PDict [(py "loginState", PInt 0)])]))
  end.

(** A good answer to the QR request. *)
Definition qr_issued : Session.http_result :=
  Session.Response 200
    (Ok (PDict [(py "Code", PInt 200);
                (py "Data", PDict [(py "QrCodeUrl", PStr (py "http://qr"));
                                   (py "Txt", PStr (py "scan me"))])])).

(** Nothing for two rounds, then the scan is confirmed. *)
Definition poll_confirmed_at_2 (k : nat) : Session.endpoint -> Session.http_result :=
  match k with
  | 2%nat => backend_confirmed
  | _ => backend_idle
  end.

(** ** Outbound calls *)


(** The call that [post_text] makes. *)
Definition text_call (base_url token to_wxid content : pystr)
    (ats : list pystr) : Dispatcher.request :=
  Dispatcher.Post
    (base_url ++ py "/message/SendTextMessage" ++ py "?key=" ++ token)
    (PDict [(py "MsgItem",
             PList [PDict [
               (py "AtWxIDList", PList (PStr <$> ats));
               (py "ImageContent", PStr []);
               (py "MsgType", PInt 0);
               (py "TextContent", PStr content);
               (py "ToUserName", PStr to_wxid)]])]).

(** The call that [post_image] makes. *)
Definition image_call (base_url token to_wxid image : pystr)
  : Dispatcher.request :=
  Dispatcher.Post
    (base_url ++ py "/message/SendImageNewMessage" ++ py "?key=" ++ token)
    (PDict [(py "MsgItem",
             PList [PDict [
               (py "AtWxIDList", PList [PStr (py "string")]);
               (py "ImageContent", PStr image);
               (py "MsgType", PInt 0);
               (py "TextContent", PStr []);
               (py "ToUserName", PStr to_wxid)]])]).

(** The call that [post_voice] makes. *)
Definition voice_call (base_url token to_wxid voicedata : pystr)
  : Dispatcher.request :=
  Dispatcher.Post
    (base_url ++ py "/message/SendVoice" ++ py "?key=" ++ token)
    (PDict [(py "ToUserName", PStr to_wxid);
            (py "VoiceData", PStr voicedata);
            (py "VoiceFormat", PInt 1);
            (py "VoiceSecond,", PInt 0)]).

(** The temporary file of the [n]-th draw. *)
Definition silk_path_of (uuid4 : nat -> pystr) (n : nat) : pystr :=
  py "data/temp/" ++ uuid4 n ++ py ".silk".


(** A backend whose first call fails and whose later calls return. *)
Definition net_first_down : nat -> res unit :=
  fun n => match n with O => Raise ClientError | S _ => Ok tt end.

(** A mention, a text, an emoji and a text that is never reached. *)
Definition emoji_chain : list Dispatcher.comp :=
  [Dispatcher.Plain (py "hi");
   Dispatcher.Emoji (py "md5") (py "3") (py "http://cdn/e");
   Dispatcher.Plain (py "after")].

Definition empty_world : Dispatcher.world :=
  {| Dispatcher.fs := ∅;
     Dispatcher.calls := [];
     Dispatcher.logs := [];
     Dispatcher.uuids := 0 |}.

(** ** The guarded block of a voice part *)

Section RecordBlock.

Variable base_url : pystr.
Variable token : pystr.
Variable net : nat -> res unit.
Variable b64encode : list N -> pystr.
Variable lower : pystr -> pystr.
Variable describe : exn -> pystr.

(** The world after the draw of the temporary name. *)
Definition drawn (w : Dispatcher.world) : Dispatcher.world :=
  {| Dispatcher.fs := Dispatcher.fs w;
     Dispatcher.calls := Dispatcher.calls w;
     Dispatcher.logs := Dispatcher.logs w;
     Dispatcher.uuids := S (Dispatcher.uuids w) |}.

(** The [try] block of the [Record] branch with its handler, lines
    96-124, as [send_record] runs it under the [finally]. *)
Definition record_block (to_wxid record_path silk_path : pystr)
  : M Dispatcher.world unit :=
  try_except
    (let ext := lower (snd (Dispatcher.splitext record_path)) in
     let* encoded :=
       if pystr_eqb ext (py ".mp3") then
         let* mp3_data := Dispatcher.read_file record_path in
         ret (py "data:audio/mpeg;base64," ++ b64encode mp3_data, 2)
       else if pystr_eqb ext (py ".wav") then
         let* silk_data := Dispatcher.read_file silk_path in
         ret (py "data:audio/wav;base64," ++ b64encode silk_data, 1)
       else raise (ValueError (py "不支持的音频格式: " ++ ext)) in
     let* _ := Dispatcher.logger INFO "语音文件格式转换完成"
                 [LStr record_path; LStr ext] in
     Dispatcher.post_voice base_url token net to_wxid
       (fst encoded) (snd encoded))
    (fun e =>
       let* _ := Dispatcher.logger ERROR "语音处理失败" [LExn e] in
       Dispatcher.post_text base_url token net to_wxid
         (py "语音处理错误: " ++ Dispatcher.str_exn describe e) []).

End RecordBlock.

(* ===================================================================== *)
(** * Facts about the string primitives                                   *)
(* ===================================================================== *)

Section StrFacts.

Implicit Types s sep : pystr.

Lemma pystr_eqb_eq s t : pystr_eqb s t = true <-> s = t.
Proof.
  revert t; induction s as [|x s IH]; intros [|y t]; simpl;
    try (split; [discriminate | congruence]); [easy|].
  rewrite andb_true_iff, N.eqb_eq, IH. split.
  - intros [-> ->]; reflexivity.
  - intros [= -> ->]; auto.
Qed.

Lemma pystr_eqb_refl s : pystr_eqb s s = true.
Proof. apply pystr_eqb_eq; reflexivity. Qed.


(** A non-empty separator is not found in the empty string. *)
Lemma str_find_nonempty c sep s i :
  str_find (c :: sep) s = Some i -> s <> [].
Proof. destruct s; [discriminate | discriminate]. Qed.

Lemma split_fuel_not_found n sep s :
  str_find sep s = None -> split_fuel n sep s = [s].
Proof. intros H. destruct n; simpl; [|rewrite H]; reflexivity. Qed.

(** Without the separator, [split] gives the string back. *)
Lemma str_split_not_found sep m s :
  str_find sep s = None -> str_split sep m s = [s].
Proof. apply split_fuel_not_found. Qed.

(** One occurrence only: the two sides of it. *)
Lemma str_split_once c sep s i :
  str_find (c :: sep) s = Some i ->
  str_find (c :: sep) (drop (i + length (c :: sep)) s) = None ->
  str_split (c :: sep) None s = [take i s; drop (i + length (c :: sep)) s].
Proof.
  intros Hi Hrest. unfold str_split. simpl default.
  destruct s as [|x s]; [discriminate|].
  cbn [length split_fuel]. rewrite Hi.
  f_equal. apply split_fuel_not_found. exact Hrest.
Qed.

(** With [maxsplit=1] the rest is kept whole. *)
Lemma str_split_max1 sep s i :
  str_find sep s = Some i ->
  str_split sep (Some 1%nat) s = [take i s; drop (i + length sep) s].
Proof. intros Hi. unfold str_split; simpl. rewrite Hi. reflexivity. Qed.

(** The first field of a split is what precedes the first separator. *)
Lemma str_split_head c sep s :
  str_split (c :: sep) None s !! 0%nat
  = Some (match str_find (c :: sep) s with
          | Some i => take i s
          | None => s
          end).
Proof.
  unfold str_split. simpl default.
  destruct s as [|x s]; [reflexivity|].
  cbn [length split_fuel].
  destruct (str_find (c :: sep) (x :: s)); reflexivity.
Qed.

Lemma str_contains_find sub s :
  str_contains sub s = true <-> exists i, str_find sub s = Some i.
Proof.
  unfold str_contains. destruct (str_find sub s) as [i|]; split.
  - eauto.
  - reflexivity.
  - discriminate.
  - intros [i Hi]; discriminate.
Qed.

Lemma str_contains_false sub s :
  str_contains sub s = false <-> str_find sub s = None.
Proof.
  unfold str_contains. destruct (str_find sub s); split;
    congruence.
Qed.

(** ** [strip] is idempotent *)

Lemma str_lstrip_suffix s : exists w, s = w ++ str_lstrip s.
Proof.
  induction s as [|c s [w IH]]; simpl.
  - exists []; reflexivity.
  - destruct (isspace c).
    + exists (c :: w). simpl. f_equal. exact IH.
    + exists []. reflexivity.
Qed.

Lemma str_lstrip_fixed s :
  str_lstrip s = s <->
  match s with [] => True | c :: _ => isspace c = false end.
Proof.
  destruct s as [|c s]; simpl; [easy|].
  destruct (isspace c) eqn:E; split; try easy.
  intros H. destruct (str_lstrip_suffix s) as [w Hw].
  apply (f_equal (@length N)) in H. rewrite Hw in H at 2.
  cbn [length] in H. rewrite length_app in H. lia.
Qed.

Lemma str_lstrip_idem s : str_lstrip (str_lstrip s) = str_lstrip s.
Proof.
  induction s as [|c s IH]; simpl; [reflexivity|].
  destruct (isspace c) eqn:E; [exact IH|]. simpl. rewrite E. reflexivity.
Qed.

Lemma str_rstrip_prefix s : exists w, s = str_rstrip s ++ w.
Proof.
  unfold str_rstrip. destruct (str_lstrip_suffix (rev s)) as [w Hw].
  exists (rev w). rewrite <- rev_app_distr, <- Hw, rev_involutive.
  reflexivity.
Qed.

Lemma str_rstrip_idem s : str_rstrip (str_rstrip s) = str_rstrip s.
Proof.
  unfold str_rstrip. rewrite rev_involutive, str_lstrip_idem. reflexivity.
Qed.

Lemma str_lstrip_rstrip s :
  str_lstrip s = s -> str_lstrip (str_rstrip s) = str_rstrip s.
Proof.
  intros Hs. apply str_lstrip_fixed. apply str_lstrip_fixed in Hs.
  destruct (str_rstrip_prefix s) as [w Hw].
  destruct (str_rstrip s) as [|c r]; [exact I|].
  rewrite Hw in Hs. exact Hs.
Qed.

Lemma str_strip_idem s : str_strip (str_strip s) = str_strip s.
Proof.
  unfold str_strip.
  rewrite (str_lstrip_rstrip (str_lstrip s) (str_lstrip_idem s)).
  apply str_rstrip_idem.
Qed.

End StrFacts.

Example py_ascii : py "a:b" = [97; 58; 98]%N.
Proof. reflexivity. Qed.

Example py_cjk : py "在@你" = [22312; 64; 20320]%N.
Proof. reflexivity. Qed.

Example split_all :
  str_split [58; 10]%N None (py "a:" ++ LF :: py "b:" ++ LF :: py "c")
  = [py "a"; py "b"; py "c"].
Proof. reflexivity. Qed.

Example split_once :
  str_split [58; 10]%N (Some 1%nat) (py "a:" ++ LF :: py "b:" ++ LF :: py "c")
  = [py "a"; py "b:" ++ LF :: py "c"].
Proof. reflexivity. Qed.

Example strip_both : str_strip (py "  Bob ") = py "Bob".
Proof. reflexivity. Qed.

Example splitext_mp3 :
  Dispatcher.splitext (py "data/temp/a.b/voice.MP3")
  = (py "data/temp/a.b/voice", py ".MP3").
Proof. reflexivity. Qed.

Example splitext_dotfile :
  Dispatcher.splitext (py "data/.hidden") = (py "data/.hidden", []).
Proof. reflexivity. Qed.

(* ===================================================================== *)
(** * Message normalisation                                               *)
(* ===================================================================== *)

Ltac unfold_convert :=
  unfold convert_message, try_except, convert_body, bind, lift, ret, raise,
    Normalizer.logger, modify.

Ltac case_res H :=
  match type of H with
  | context [match ?r with Ok _ => _ | Raise _ => _ end] =>
      let E := fresh "E" in destruct r eqn:E; simpl in H; try discriminate
  | context [and_then ?r _] =>
      let E := fresh "E" in destruct r eqn:E; simpl in H; try discriminate
  end.

Lemma frame_fields_inv data dflt from_user push_content raw_content :
  frame_fields data dflt = Ok (from_user, push_content, raw_content) ->
  exists fu ct,
    dict_get data (py "from_user_name") (PDict []) = Ok fu
    /\ dict_get fu (py "str") (PStr []) = Ok from_user
    /\ dict_get data (py "push_content") dflt = Ok push_content
    /\ dict_get data (py "content") (PDict []) = Ok ct
    /\ dict_get ct (py "str") (PStr []) = Ok raw_content.
Proof.
  unfold frame_fields. intros H.
  repeat case_res H. injection H as <- <- <-. eauto 10.
Qed.

(** On a frame that is a dict every [data.get] returns. *)
Lemma dict_get_total data k d v k' d' :
  dict_get data k d = Ok v -> exists v', dict_get data k' d' = Ok v'.
Proof. destruct data; simpl; try discriminate. eauto. Qed.

Lemma convert_message_returns format_value wxid now data logs :
  exists r logs',
    convert_message format_value wxid now data logs = (Ok r, logs').
Proof.
  unfold convert_message, try_except.
  destruct (convert_body format_value wxid now data logs) as [[r|e] l];
    [eauto|].
  unfold bind, Normalizer.logger, modify, ret. eauto.
Qed.

Lemma convert_message_catches format_value wxid now data logs e l :
  convert_body format_value wxid now data logs = (Raise e, l) ->
  convert_message format_value wxid now data logs
  = (Ok None, l ++ [Log ERROR (py "消息转换失败") [LExn e; LVal data]]).
Proof.
  intros H. unfold convert_message, try_except. rewrite H. reflexivity.
Qed.

Lemma convert_message_unmatched format_value wxid now data logs :
  no_rule_matches data = true ->
  convert_message format_value wxid now data logs
  = (Ok None,
     logs ++ [Log ERROR (py "消息转换失败")
                [LExn UnboundLocalError; LVal data]]).
Proof.
  unfold no_rule_matches. intros H.
  destruct (frame_fields data (PDict [])) as [[[from_user push] raw]|] eqn:Ef;
    [|discriminate].
  apply frame_fields_inv in Ef as (fu & ct & E1 & E2 & E3 & E4 & E5).
  destruct (py_in CHATROOM from_user) as [[]|] eqn:Eg; try discriminate.
  destruct (py_in AT_MARKER push) as [[]|] eqn:Ea; try discriminate.
  destruct (py_in COLON push) as [[]|] eqn:Eb; try discriminate.
  destruct (py_in COLON_LF raw) as [[]|] eqn:Ec; try discriminate.
  destruct (dict_get_total _ _ _ _ (py "msg_id") (PStr []) E1) as [mid Em].
  destruct (dict_get_total _ _ _ _ (py "create_time") (PInt now) E1)
    as [tm Et].
  apply convert_message_catches.
  unfold convert_body, bind, lift, raise.
  rewrite E1, E2, Eg, Em, Et, E3, E4, E5.
  unfold group_rules. rewrite Ea. simpl. rewrite Eb. simpl. rewrite Ec.
  reflexivity.
Qed.

(** C8. Normalisation never raises: [convert_message] returns on every
    frame; whatever exception its extraction raises is caught, the frame
    is dropped ([None]) and an error entry carrying the exception and the
    frame is logged; a group frame that matches none of the three rules
    is dropped that way. *)
Theorem c8_normalization_never_raises :
  forall format_value wxid now data logs,
    (exists r logs',
        convert_message format_value wxid now data logs = (Ok r, logs'))
    /\ (forall e l,
           convert_body format_value wxid now data logs = (Raise e, l) ->
           convert_message format_value wxid now data logs
           = (Ok None,
              l ++ [Log ERROR (py "消息转换失败") [LExn e; LVal data]]))
    /\ (no_rule_matches data = true ->
        convert_message format_value wxid now data logs
        = (Ok None,
           logs ++ [Log ERROR (py "消息转换失败")
                      [LExn UnboundLocalError; LVal data]])).
Proof.
  intros. split; [apply convert_message_returns|]. split.
  - intros e l. apply convert_message_catches.
  - apply convert_message_unmatched.
Qed.

(** ** Group frames *)

Lemma list_index_split_head sep s :
  sep <> [] ->
  list_index (str_split sep None s) 0 = Ok (before_first sep s).
Proof.
  destruct sep as [|c sep]; [congruence|]. intros _.
  unfold list_index. rewrite str_split_head. reflexivity.
Qed.

(** What [convert_body] does on a group frame once its fields are read. *)
Lemma convert_body_group format_value wxid now data logs from_user push raw :
  frame_fields data (PDict []) = Ok (from_user, push, raw) ->
  py_in CHATROOM from_user = Ok true ->
  exists msg_id create_time,
    convert_body format_value wxid now data logs
    = match group_rules push raw with
      | Raise e => (Raise e, logs)
      | Ok None => (Raise UnboundLocalError, logs)
      | Ok (Some nc) =>
          match (let? rs := py_split raw COLON_LF None in list_index rs 0) with
          | Raise e => (Raise e, logs)
          | Ok uid =>
              (Ok (Some {|
                 type := GROUP_MESSAGE;
                 self_id := wxid;
                 message_id := msg_id;
                 timestamp := create_time;
                 sender := {| user_id := PStr uid;
                              nickname := str_strip (fst nc) |};
                 message := [Plain (PStr (snd nc))];
                 message_str := str_strip (fst nc) ++ py ": " ++ snd nc;
                 session_id := from_user;
                 group_id := Some from_user;
                 raw_message := data |}),
               logs ++ [Log DEBUG (py "转换后的消息") []])
          end
      end.
Proof.
  intros Ef Eg.
  apply frame_fields_inv in Ef as (fu & ct & E1 & E2 & E3 & E4 & E5).
  destruct (dict_get_total _ _ _ _ (py "msg_id") (PStr []) E1) as [mid Em].
  destruct (dict_get_total _ _ _ _ (py "create_time") (PInt now) E1)
    as [tm Et].
  exists mid, tm.
  unfold convert_body, bind, lift, raise, ret.
  rewrite E1, E2, Eg, Em, Et, E3, E4, E5.
  destruct (group_rules push raw) as [[nc|]|e]; try reflexivity.
  destruct (py_split raw COLON_LF None) as [rs|e]; [|reflexivity].
  simpl. destruct (list_index rs 0); reflexivity.
Qed.

(** Rule (a) on two strings. *)
Lemma group_rules_mention push raw j :
  str_find AT_MARKER push = Some j ->
  group_rules (PStr push) (PStr raw)
  = let? r1 := list_index (str_split COLON_LF None raw) 1 in
    Ok (Some (str_strip (take j push), r1)).
Proof.
  intros Hj. unfold group_rules. simpl py_in. unfold str_contains.
  rewrite Hj. simpl.
  rewrite (list_index_split_head AT_MARKER push ltac:(discriminate)).
  unfold before_first. rewrite Hj. reflexivity.
Qed.

(** Rule (b) on a push string without the marker. *)
Lemma group_rules_colon push raw j :
  str_find AT_MARKER push = None ->
  str_find COLON push = Some j ->
  group_rules (PStr push) raw
  = Ok (Some (str_strip (take j push), drop (j + 1) push)).
Proof.
  intros Hm Hj. unfold group_rules. simpl py_in. unfold str_contains.
  rewrite Hm, Hj. simpl. rewrite (str_split_max1 _ _ _ Hj). reflexivity.
Qed.

(** C6 (amended). A group frame whose push string holds the mention
    marker and whose raw content holds the delimiter colon-newline exactly
    once is
    normalised to: the nickname that precedes the marker, trimmed; the
    text that follows the delimiter; the sender id that precedes it.
    When the raw content holds no delimiter the frame is dropped. *)
Theorem c6_group_mention :
  forall format_value wxid now data logs from_user push raw j,
    frame_fields data (PDict []) = Ok (from_user, PStr push, PStr raw) ->
    py_in CHATROOM from_user = Ok true ->
    str_find AT_MARKER push = Some j ->
    (forall i,
        str_find COLON_LF raw = Some i ->
        str_find COLON_LF (drop (i + 2) raw) = None ->
        exists abm logs',
          convert_message format_value wxid now data logs
          = (Ok (Some abm), logs')
          /\ type abm = GROUP_MESSAGE
          /\ nickname (sender abm) = str_strip (take j push)
          /\ message abm = [Plain (PStr (drop (i + 2) raw))]
          /\ user_id (sender abm) = PStr (take i raw))
    /\ (str_find COLON_LF raw = None ->
        convert_message format_value wxid now data logs
        = (Ok None,
           logs ++ [Log ERROR (py "消息转换失败")
                      [LExn IndexError; LVal data]])).
Proof.
  intros fv wxid now data logs from_user push raw j Ef Eg Hj.
  destruct (convert_body_group fv wxid now data logs _ _ _ Ef Eg)
    as (mid & tm & Hb).
  rewrite (group_rules_mention _ _ _ Hj) in Hb.
  split.
  - intros i Hi Hrest.
    pose proof (str_split_once 58%N [LF] raw i Hi Hrest) as Hs.
    change (58%N :: [LF]) with COLON_LF in Hs. simpl length in Hs.
    simpl py_split in Hb. rewrite Hs in Hb. simpl in Hb.
    unfold convert_message, try_except. rewrite Hb.
    eexists _, _. split; [reflexivity|]. simpl.
    rewrite str_strip_idem. auto.
  - intros Hnone.
    apply convert_message_catches. rewrite Hb.
    rewrite (str_split_not_found _ _ _ Hnone). reflexivity.
Qed.

(** C10. A group frame read by the push-string colon rule whose raw
    content holds no delimiter gets the whole raw content as its sender
    id. *)
Theorem c10_sender_id_is_whole_content :
  forall format_value wxid now data logs from_user push raw j,
    frame_fields data (PDict []) = Ok (from_user, PStr push, PStr raw) ->
    py_in CHATROOM from_user = Ok true ->
    str_find AT_MARKER push = None ->
    str_find COLON push = Some j ->
    str_find COLON_LF raw = None ->
    exists abm logs',
      convert_message format_value wxid now data logs
      = (Ok (Some abm), logs')
      /\ user_id (sender abm) = PStr raw
      /\ nickname (sender abm) = str_strip (take j push)
      /\ message abm = [Plain (PStr (drop (j + 1) push))].
Proof.
  intros fv wxid now data logs from_user push raw j Ef Eg Hm Hj Hnone.
  destruct (convert_body_group fv wxid now data logs _ _ _ Ef Eg)
    as (mid & tm & Hb).
  rewrite (group_rules_colon _ _ _ Hm Hj) in Hb.
  simpl py_split in Hb. rewrite (str_split_not_found _ _ _ Hnone) in Hb.
  simpl in Hb.
  unfold convert_message, try_except. rewrite Hb.
  eexists _, _. split; [reflexivity|]. simpl.
  rewrite str_strip_idem. auto.
Qed.

(** C6, as stated, fails: a mention whose raw content carries no
    delimiter is not normalised to a message, it is dropped. *)
Lemma c6_counterexample :
  str_contains AT_MARKER (py "Alice在群聊中@了你") = true
  /\ ~ (exists abm logs',
           convert_message no_format bot_wxid 0 mention_without_delimiter []
           = (Ok (Some abm), logs')).
Proof.
  split; [reflexivity|].
  intros (abm & l & H). vm_compute in H. discriminate.
Qed.

(** Scenario A through the theorem. *)
Lemma c6_witness :
  exists abm logs',
    convert_message no_format bot_wxid 0 scenario_A [] = (Ok (Some abm), logs')
    /\ type abm = GROUP_MESSAGE
    /\ nickname (sender abm) = py "Alice"
    /\ message abm = [Plain (PStr (py "hello"))]
    /\ user_id (sender abm) = PStr (py "alice_id").
Proof.
  exact (proj1 (c6_group_mention no_format bot_wxid 0 scenario_A []
                  (PStr (py "12345@chatroom"))
                  (py "Alice在群聊中@了你")
                  (py "alice_id:" ++ LF :: py "hello") 5%nat
                  eq_refl eq_refl eq_refl)
           8%nat eq_refl eq_refl).
Defined.

Lemma c10_witness :
  exists abm logs',
    convert_message no_format bot_wxid 0 colon_without_delimiter []
    = (Ok (Some abm), logs')
    /\ user_id (sender abm) = PStr (py "hi there")
    /\ nickname (sender abm) = py "Bob"
    /\ message abm = [Plain (PStr (py " hi there"))].
Proof.
  exact (c10_sender_id_is_whole_content no_format bot_wxid 0
           colon_without_delimiter []
           (PStr (py "12345@chatroom")) (py "Bob: hi there") (py "hi there")
           3%nat eq_refl eq_refl eq_refl eq_refl eq_refl).
Defined.

Lemma c8_witness :
  convert_message no_format bot_wxid 0 unmatched_frame []
  = (Ok None,
     [Log ERROR (py "消息转换失败")
        [LExn UnboundLocalError; LVal unmatched_frame]]).
Proof.
  exact (proj2 (proj2 (c8_normalization_never_raises
                         no_format bot_wxid 0 unmatched_frame []))
           eq_refl).
Defined.

(** Rule (a) reads the field between the first two delimiters. *)
Example mention_text_stops_at_second_delimiter :
  exists abm logs',
    convert_message no_format bot_wxid 0
      (group_frame (py "Alice在群聊中@了你")
         (py "alice_id:" ++ LF :: py "hello:" ++ LF :: py "world")) []
    = (Ok (Some abm), logs')
    /\ message abm = [Plain (PStr (py "hello"))].
Proof. eexists _, _. split; vm_compute; reflexivity. Qed.

(** Scenario B. *)
Example scenario_B :
  exists abm logs',
    convert_message no_format bot_wxid 0
      (group_frame (py "Bob: hi there") (py "bob_id:" ++ LF :: py "hi there"))
      []
    = (Ok (Some abm), logs')
    /\ nickname (sender abm) = py "Bob"
    /\ user_id (sender abm) = PStr (py "bob_id")
    /\ message abm = [Plain (PStr (py " hi there"))].
Proof. eexists _, _. repeat split; vm_compute; reflexivity. Qed.

(** ** Direct frames *)




(* ===================================================================== *)
(** * The login status calls                                              *)
(* ===================================================================== *)

Lemma eq_int_functional v a b :
  eq_int v a = true -> eq_int v b = true -> a = b.
Proof.
  destruct v as [| [] | z | f | | |]; cbn [eq_int]; try discriminate;
    try (intros Ha Hb; apply Z.eqb_eq in Ha, Hb; congruence).
  destruct f as [s| s | | s m e]; simpl; try discriminate.
  - intros Ha Hb; apply Z.eqb_eq in Ha, Hb; congruence.
  - destruct (0 <=? e).
    + intros Ha Hb; apply Z.eqb_eq in Ha, Hb; congruence.
    + intros Ha Hb. apply andb_true_iff in Ha as [_ Ha], Hb as [_ Hb].
      apply Z.eqb_eq in Ha, Hb; congruence.
Qed.

Lemma eq_int_other v a b : eq_int v a = true -> a <> b -> eq_int v b = false.
Proof.
  intros Ha Hne. destruct (eq_int v b) eqn:Hb; [|reflexivity].
  elim Hne. eapply eq_int_functional; eassumption.
Qed.

(** ** Which steps send a request *)

Lemma keeps_ret {A} (a : A) : keeps_requests (ret a).
Proof. intros c; reflexivity. Qed.

Lemma keeps_raise {A} e : keeps_requests (@raise _ A e).
Proof. intros c; reflexivity. Qed.

Lemma keeps_lift {A} (r : res A) : keeps_requests (lift r).
Proof. intros c; reflexivity. Qed.

Lemma keeps_logger l m a : keeps_requests (Session.logger l m a).
Proof. intros c; reflexivity. Qed.

Lemma keeps_set_login_status b :
  keeps_requests (Session.set_login_status b).
Proof. intros c; reflexivity. Qed.

Lemma keeps_bind {A B} (m : M Session.client A) (k : A -> M Session.client B) :
  keeps_requests m -> (forall a, keeps_requests (k a)) ->
  keeps_requests (bind m k).
Proof.
  intros Hm Hk c. unfold bind. specialize (Hm c).
  destruct (m c) as [[a|e] c1]; simpl in *; [|exact Hm].
  rewrite Hk. exact Hm.
Qed.

Lemma keeps_try_except {A} (body : M Session.client A) handler :
  keeps_requests body -> (forall e, keeps_requests (handler e)) ->
  keeps_requests (try_except body handler).
Proof.
  intros Hm Hk c. unfold try_except. specialize (Hm c).
  destruct (body c) as [[a|e] c1]; simpl in *; [exact Hm|].
  rewrite Hk. exact Hm.
Qed.

Lemma keeps_try_except_ValueError {A} (body : M Session.client A) handler :
  keeps_requests body -> (forall e, keeps_requests (handler e)) ->
  keeps_requests (Session.try_except_ValueError body handler).
Proof.
  intros Hm Hk. apply keeps_try_except; [exact Hm|].
  intros e. destruct (Session.is_ValueError e); [apply Hk|apply keeps_raise].
Qed.

Ltac keeps :=
  repeat first
    [ apply keeps_ret | apply keeps_raise | apply keeps_lift
    | apply keeps_logger | apply keeps_set_login_status
    | apply keeps_bind; [|intros ?]
    | apply keeps_try_except_ValueError; [|intros ?]
    | apply keeps_try_except; [|intros ?]
    | match goal with
      | |- keeps_requests (if ?b then _ else _) => destruct b
      end ].

(** A guarded request: one request is sent whatever happens next. *)
Lemma guarded_get_requests {A} backend ep
    (k : Z * res pyval -> M Session.client A) handler c :
  (forall a, keeps_requests (k a)) ->
  (forall e, keeps_requests (handler e)) ->
  Session.requests
    (snd (try_except (bind (Session.http_get backend ep) k) handler c))
  = Session.requests c ++ [ep].
Proof.
  intros Hk Hh. unfold try_except, bind, Session.http_get, modify, raise, ret.
  destruct (backend ep) as [|status body]; cbn.
  - rewrite Hh. reflexivity.
  - match goal with |- context [k ?a ?c1] =>
      pose proof (Hk a c1) as H1; destruct (k a c1) as [[b|e] c2]
    end; simpl in *; [exact H1|].
    rewrite Hh. exact H1.
Qed.

(** A handler that returns makes the whole [try] return. *)
Lemma try_except_returns {St A} (body : M St A) handler s :
  (forall e s', exists a s'', handler e s' = (Ok a, s'')) ->
  exists a s', try_except body handler s = (Ok a, s').
Proof.
  intros Hh. unfold try_except.
  destruct (body s) as [[a|e] s1]; [eauto|apply Hh].
Qed.

(** [check_online] answers on every backend, after exactly one request. *)
Lemma check_online_returns backend c :
  exists b c',
    Session.check_online backend c = (Ok b, c')
    /\ Session.requests c' = Session.requests c ++ [Session.GetLoginStatus].
Proof.
  assert (exists b c', Session.check_online backend c = (Ok b, c'))
    as (b & c' & Hb).
  { apply try_except_returns. intros e s'. eexists _, _. reflexivity. }
  exists b, c'. split; [exact Hb|].
  change c' with (snd (Ok b, c')). rewrite <- Hb.
  apply guarded_get_requests; intros; keeps.
Qed.

Ltac session_unfold :=
  unfold Session.try_except_ValueError, try_except, bind, lift, ret, raise,
    Session.http_get, Session.logger, Session.set_login_status, modify.

(** C5 (amended). On a scan-status answer that carries a code:
    with the success code, the states 0, 1 and 2 give false, false and
    true, every other state gives false, and no second request is made;
    with a failure code, the online state is asked for and its answer is
    the result. *)
Theorem c5_check_login_status :
  forall backend c kv code,
    backend Session.CheckLoginStatus
    = Session.Response 200 (Ok (PDict kv)) ->
    assoc (py "Code") kv = Some code ->
    (eq_int code 200 = true ->
     forall d,
       assoc (py "Data") kv = Some (PDict d) ->
       fst (Session.check_login_status backend c)
       = Ok (eq_int (default (PInt (-1)) (assoc (py "state") d)) 2)
       /\ Session.requests (snd (Session.check_login_status backend c))
          = Session.requests c ++ [Session.CheckLoginStatus])
    /\ (eq_int code 200 = false ->
        fst (Session.check_login_status backend c)
        = fst (Session.check_online backend
                 (requested Session.CheckLoginStatus c))
        /\ Session.requests (snd (Session.check_login_status backend c))
           = Session.requests c
             ++ [Session.CheckLoginStatus; Session.GetLoginStatus]).
Proof.
  intros backend c kv code Hb Hcode. split.
  - intros H200 d Hdata.
    unfold Session.check_login_status. session_unfold.
    rewrite Hb. cbn. rewrite Hcode. cbn. rewrite H200, Hdata. cbn.
    set (state := default (PInt (-1)) (assoc (py "state") d)).
    destruct (eq_int state 0) eqn:E0; cbn.
    { rewrite (eq_int_other _ _ 2 E0); [auto|lia]. }
    destruct (eq_int state 1) eqn:E1; cbn.
    { rewrite (eq_int_other _ _ 2 E1); [auto|lia]. }
    destruct (eq_int state 2) eqn:E2; cbn; auto.
  - intros H200.
    destruct (check_online_returns backend
                (requested Session.CheckLoginStatus c))
      as (b & c' & Hon & Hreq).
    unfold Session.check_login_status. session_unfold.
    rewrite Hb. cbn. rewrite Hcode. cbn. rewrite H200. cbn.
    fold (requested Session.CheckLoginStatus c). rewrite Hon.
    destruct b; cbn; rewrite Hreq; cbn; rewrite <- app_assoc; auto.
Qed.

(** C5, as stated, fails on an unknown state: the account is online, yet
    the check reports false and never asks. *)
Lemma c5_counterexample :
  fst (Session.check_online backend_state3_online fresh_client) = Ok true
  /\ fst (Session.check_login_status backend_state3_online fresh_client)
     = Ok false
  /\ Session.requests
       (snd (Session.check_login_status backend_state3_online fresh_client))
     = [Session.CheckLoginStatus].
Proof. repeat split; vm_compute; reflexivity. Qed.

(** A confirmed scan, through the theorem. *)
Lemma c5_witness_success :
  fst (Session.check_login_status backend_confirmed fresh_client) = Ok true
  /\ Session.requests
       (snd (Session.check_login_status backend_confirmed fresh_client))
     = [Session.CheckLoginStatus].
Proof.
  exact (proj1 (c5_check_login_status backend_confirmed fresh_client
                  _ (PInt 200) eq_refl eq_refl)
           eq_refl [(py "state", PInt 2)] eq_refl).
Defined.

(** A failure code with the account online: the fallback answers. *)
Example fallback_reports_online :
  fst (Session.check_login_status backend_failure_online fresh_client)
  = Ok true
  /\ Session.requests
       (snd (Session.check_login_status backend_failure_online fresh_client))
     = [Session.CheckLoginStatus; Session.GetLoginStatus].
Proof. split; vm_compute; reflexivity. Qed.

(* ===================================================================== *)
(** * The stream connection                                               *)
(* ===================================================================== *)

Import Transport.

Section TransportFacts.

Variables ws_url token : pystr.
Variable on_message_received : pyval -> res unit.

Lemma outer_loop_conns s :
  open_conns (Transport.outer_loop ws_url token s) = open_conns s.
Proof.
  unfold Transport.outer_loop. destruct (shutdown_event s); reflexivity.
Qed.

Lemma outer_loop_at s :
  at_ (Transport.outer_loop ws_url token s)
  = if shutdown_event s then Stopped else Connecting.
Proof.
  unfold Transport.outer_loop. destruct (shutdown_event s); reflexivity.
Qed.

Lemma outer_loop_inv s :
  open_conns s = [] -> conn_inv (Transport.outer_loop ws_url token s).
Proof.
  intros H. unfold conn_inv. rewrite outer_loop_at, outer_loop_conns.
  destruct (shutdown_event s); exact H.
Qed.

Lemma leave_conns c s : open_conns s = [c] -> open_conns (leave c s) = [].
Proof.
  intros H. unfold leave, close_conn, emit, cancel. simpl.
  replace (open_conns (match keepalive_task s with
                       | Sleeping => set_task Cancelled s
                       | _ => s end)) with (open_conns s)
    by (destruct (keepalive_task s); reflexivity).
  rewrite H. rewrite filter_cons_False by tauto. reflexivity.
Qed.

Lemma leave_not_open c s : ~ In c (open_conns (leave c s)).
Proof.
  unfold leave, close_conn, emit. simpl. intros Hin.
  apply list_elem_of_In, list_elem_of_filter in Hin. tauto.
Qed.

Lemma leave_shutdown c s : shutdown_event (leave c s) = shutdown_event s.
Proof.
  unfold leave, close_conn, emit, cancel. simpl.
  destruct (keepalive_task s); reflexivity.
Qed.

Lemma leave_task c s : keepalive_task (leave c s) <> Sleeping.
Proof.
  unfold leave, close_conn, emit, cancel. simpl.
  destruct (keepalive_task s) eqn:E; simpl; rewrite ?E; discriminate.
Qed.

Lemma leave_trace c s : trace (leave c s) = trace s ++ [Closed c].
Proof.
  unfold leave, close_conn, emit, cancel. simpl.
  destruct (keepalive_task s); reflexivity.
Qed.

Lemma on_error_inv e s :
  open_conns s = [] -> conn_inv (Transport.on_error ws_url token e s).
Proof.
  intros H. unfold Transport.on_error, Transport.logger.
  cbn [emit shutdown_event].
  destruct (shutdown_event s).
  - apply outer_loop_inv. exact H.
  - exact H.
Qed.

Lemma read_loop_inv c s :
  open_conns s = [c] -> conn_inv (Transport.read_loop ws_url token c s).
Proof.
  intros H. unfold Transport.read_loop. destruct (shutdown_event s).
  - apply outer_loop_inv, leave_conns, H.
  - exact H.
Qed.

Lemma read_body_conns r s :
  open_conns (snd (read_body on_message_received r s)) = open_conns s.
Proof.
  unfold read_body. destruct r as [|[v|t]|]; reflexivity.
Qed.

Lemma step_inv s ev :
  conn_inv s ->
  conn_inv (Transport.step ws_url token on_message_received s ev).
Proof.
  intros Hinv. unfold conn_inv in Hinv.
  destruct ev as [[|]|r|ok| |]; unfold Transport.step;
    destruct (at_ s) as [|c| |] eqn:Hat;
    try (unfold conn_inv; rewrite Hat; exact Hinv).
  - apply read_loop_inv. simpl. rewrite Hinv. reflexivity.
  - apply on_error_inv. exact Hinv.
  - pose proof (read_body_conns r s) as Hc.
    destruct (read_body on_message_received r s) as [[u|e] s1];
      simpl in Hc; rewrite Hinv in Hc.
    + apply read_loop_inv, Hc.
    + destruct e; try (apply on_error_inv, leave_conns, Hc).
      apply read_loop_inv, Hc.
  - unfold conn_inv.
    destruct (keepalive_task s); try (rewrite Hat; exact Hinv).
    destruct ok; cbn [Transport.logger emit shutdown_event].
    + destruct (shutdown_event s); simpl; rewrite Hat; exact Hinv.
    + simpl. rewrite Hat. exact Hinv.
  - apply outer_loop_inv. exact Hinv.
  - unfold conn_inv, set_shutdown. simpl. rewrite Hat. exact Hinv.
  - unfold conn_inv, set_shutdown. simpl. rewrite Hat. exact Hinv.
  - unfold conn_inv, set_shutdown. simpl. rewrite Hat. exact Hinv.
  - unfold conn_inv, set_shutdown. simpl. rewrite Hat. exact Hinv.
Qed.

Lemma run_inv evs :
  forall s,
    conn_inv s ->
    conn_inv (Transport.run ws_url token on_message_received s evs).
Proof.
  induction evs as [|ev evs IH]; intros s Hs; simpl; [exact Hs|].
  apply IH, step_inv, Hs.
Qed.

Lemma start_polling_inv shutdown :
  conn_inv (Transport.start_polling ws_url token shutdown).
Proof. apply outer_loop_inv. reflexivity. Qed.

Lemma conn_inv_at_most_one s :
  conn_inv s -> (length (open_conns s) <= 1)%nat.
Proof.
  unfold conn_inv. destruct (at_ s); intros ->; simpl; lia.
Qed.

End TransportFacts.

Example start_polling_after_shutdown :
  at_ (start_polling sample_url sample_token true) = Stopped
  /\ trace (start_polling sample_url sample_token true) = [].
Proof. split; reflexivity. Qed.

(** Thirty seconds without a frame: the loop waits again. *)
Example receive_timeout_keeps_reading :
  sample_step connected (RecvDone RecvTimeout) = connected.
Proof. reflexivity. Qed.

(** ** A malformed frame *)

(** C1 (amended). A frame that fails to parse ends the read loop: it is
    not dispatched, the connection is closed and the keepalive task
    cancelled, the failure is logged as a connection error and, unless
    shutdown was requested, the 5-second backoff is entered. *)
Theorem c1_malformed_frame_tears_down :
  forall ws_url token on_message_received s c text,
    at_ s = Reading c ->
    let s' := step ws_url token on_message_received s
                (RecvDone (RecvMessage (Malformed text))) in
    ~ In c (open_conns s')
    /\ keepalive_task s' <> Sleeping
    /\ trace s'
       = trace s
         ++ [Closed c;
             Logged (Log ERROR (py "WebSocket连接错误")
                       [LExn (ValueError text)])]
         ++ (if shutdown_event s then [] else [Sleep 5])
    /\ at_ s' = (if shutdown_event s then Stopped else Backoff).
Proof.
  intros ws_url token h s c text Hat. unfold step. rewrite Hat.
  cbn [read_body json_loads].
  unfold on_error, logger. cbn [emit shutdown_event].
  rewrite leave_shutdown.
  pose proof (leave_not_open c s) as Hopen.
  pose proof (leave_task c s) as Htask.
  pose proof (leave_trace c s) as Htrace.
  destruct (shutdown_event s) eqn:Hsd.
  - unfold outer_loop. cbn [shutdown_event emit].
    rewrite leave_shutdown, Hsd.
    cbn -[leave]. rewrite Htrace, <- app_assoc. auto.
  - cbn -[leave]. rewrite Htrace, <- !app_assoc. auto.
Qed.

(** C1, as stated, fails: after a malformed frame the client is not
    reading on the same connection, it sleeps before a reconnect. *)
Lemma c1_counterexample :
  at_ connected = Reading 0
  /\ ~ (let s' := sample_step connected
                    (RecvDone (RecvMessage (Malformed (py "not json")))) in
        at_ s' = Reading 0
        /\ open_conns s' = [0%nat]
        /\ has_sleep (trace s') = false).
Proof.
  split; [reflexivity|]. intros (H & _). vm_compute in H. discriminate.
Qed.

Lemma c1_witness :
  let s' := sample_step connected
              (RecvDone (RecvMessage (Malformed (py "not json")))) in
  ~ In 0%nat (open_conns s')
  /\ keepalive_task s' <> Sleeping
  /\ trace s'
     = trace connected
       ++ [Closed 0;
           Logged (Log ERROR (py "WebSocket连接错误")
                     [LExn (ValueError (py "not json"))])]
       ++ [Sleep 5]
  /\ at_ s' = Backoff.
Proof.
  exact (c1_malformed_frame_tears_down sample_url sample_token accept_all
           connected 0%nat (py "not json") eq_refl).
Defined.

(** ** A failed heartbeat *)




(** ** Shutdown and the reconnect loop *)

Lemma terminate_observable ws_close a :
  observable (terminate ws_close a) = (None, set_shutdown (client a)).
Proof. reflexivity. Qed.

Lemma terminate_iter ws_close a n :
  observable (Nat.iter (S n) (terminate ws_close) a)
  = observable (terminate ws_close a).
Proof.
  induction n as [|n IH]; [reflexivity|].
  assert (client (Nat.iter (S n) (terminate ws_close) a)
          = set_shutdown (client a)) as Hc.
  { apply (f_equal snd) in IH. exact IH. }
  change (Nat.iter (S (S n)) (terminate ws_close) a)
    with (terminate ws_close (Nat.iter (S n) (terminate ws_close) a)).
  rewrite (terminate_observable ws_close
             (Nat.iter (S n) (terminate ws_close) a)).
  rewrite Hc. reflexivity.
Qed.

(** C9. Calling [terminate] any number of times, at least once, leaves
    the adapter as one call does: the shutdown flag set, [ws] cleared.
    And whatever the events, the reconnect loop holds at most one open
    connection, and none while it connects. *)
Theorem c9_shutdown_idempotent_single_connection :
  forall ws_close a n ws_url token on_message_received shutdown evs,
    (observable (Nat.iter (S n) (terminate ws_close) a)
     = observable (terminate ws_close a)
     /\ shutdown_event (client (terminate ws_close a)) = true
     /\ ws (terminate ws_close a) = None)
    /\ (let s := run ws_url token on_message_received
                   (start_polling ws_url token shutdown) evs in
        (length (open_conns s) <= 1)%nat
        /\ (at_ s = Connecting -> open_conns s = [])).
Proof.
  intros ws_close a n ws_url token h shutdown evs. split.
  - split; [apply terminate_iter|]. split; reflexivity.
  - cbn zeta.
    pose proof (run_inv ws_url token h evs _
                  (start_polling_inv ws_url token shutdown)) as Hinv.
    split; [apply conn_inv_at_most_one, Hinv|].
    intros Hat. unfold conn_inv in Hinv. rewrite Hat in Hinv. exact Hinv.
Qed.

Lemma c9_witness :
  let s := run sample_url sample_token accept_all
             (start_polling sample_url sample_token false)
             [ConnectDone true; RecvDone RecvClosed; BackoffDone] in
  at_ s = Connecting /\ open_conns s = [].
Proof.
  cbn zeta. split; [reflexivity|].
  exact (proj2 (proj2 (c9_shutdown_idempotent_single_connection
                         (fun _ => Ok tt) sample_adapter 0
                         sample_url sample_token accept_all false
                         [ConnectDone true; RecvDone RecvClosed; BackoffDone]))
           eq_refl).
Defined.

(* ===================================================================== *)
(** * Outbound dispatch                                                   *)
(* ===================================================================== *)

Import Dispatcher.

(** ** The voice format code *)

(** C3, on the code. An MP3 recording is sent, and the call carries the
    format code 1 where the branch selected 2; a WAV recording is never
    converted, the reading of the missing [.silk] file fails and an error
    text is sent in place of the voice call. *)
Theorem c3_voice_format_as_sent :
  (let w := snd (sample_send [Record_ (Ok (py "data/temp/a.mp3"))]
                   (py "wxid_friend") (world_with (py "data/temp/a.mp3"))) in
   urls w = [py "http://host:8848/message/SendVoice?key=k"]
   /\ voice_formats w = [PInt 1])
  /\ (let w := snd (sample_send [Record_ (Ok (py "data/temp/a.wav"))]
                      (py "wxid_friend") (world_with (py "data/temp/a.wav"))) in
      urls w = [py "http://host:8848/message/SendTextMessage?key=k"]
      /\ voice_formats w = []).
Proof. split; split; vm_compute; reflexivity. Qed.

(** ** Cleaning up the temporary files *)

Lemma path_exists_delete f p q :
  path_exists f p = false -> path_exists (delete q f) p = false.
Proof.
  unfold path_exists. destruct p as [|x p]; [reflexivity|]. cbn iota.
  intros H. destruct (decide (q = x :: p)) as [->|Hne].
  - rewrite lookup_delete_eq. reflexivity.
  - rewrite lookup_delete_ne by exact Hne. exact H.
Qed.

Lemma path_exists_deleted f p : path_exists (delete p f) p = false.
Proof.
  unfold path_exists. destruct p as [|x p]; [reflexivity|]. cbn iota.
  rewrite lookup_delete_eq. reflexivity.
Qed.

(** [cleanup] returns, removes every path it is given, brings no file
    back and calls nothing. *)
Lemma cleanup_spec paths :
  forall w,
    fst (cleanup paths w) = Ok tt
    /\ calls (snd (cleanup paths w)) = calls w
    /\ (forall p, path_exists (fs w) p = false ->
                  path_exists (fs (snd (cleanup paths w))) p = false)
    /\ (forall p, In p paths ->
                  path_exists (fs (snd (cleanup paths w))) p = false).
Proof.
  induction paths as [|f rest IH]; intros w.
  - simpl. repeat split; auto. intros p [].
  - cbn [cleanup]. unfold bind, get.
    destruct (negb (pystr_eqb f []) && path_exists (fs w) f) eqn:Ex.
    + unfold modify.
      destruct (IH (set_fs (delete f (fs w)) w)) as (H1 & H2 & H3 & H4).
      repeat split; auto.
      * intros p Hp. apply H3. simpl. apply path_exists_delete, Hp.
      * intros p [<-|Hin]; [|apply H4, Hin].
        apply H3. simpl. apply path_exists_deleted.
    + unfold ret. destruct (IH w) as (H1 & H2 & H3 & H4).
      repeat split; auto.
      intros p [<-|Hin]; [|apply H4, Hin].
      apply H3. apply andb_false_iff in Ex as [Ex|Ex]; [|exact Ex].
      apply negb_false_iff, pystr_eqb_eq in Ex. subst f. reflexivity.
Qed.


Lemma try_finally_cleanup_calls {A} (body : M world A) paths w :
  calls (snd (try_finally body (cleanup paths) w)) = calls (snd (body w)).
Proof.
  unfold try_finally. destruct (body w) as [r w1].
  destruct (cleanup_spec paths w1) as (_ & H2 & _).
  destruct (cleanup paths w1) as [[[]|e] w2]; simpl in *; auto.
Qed.



(* ===================================================================== *)
(** * More on message normalisation                                       *)
(* ===================================================================== *)

(** Rule (c) on a push value that holds neither the marker nor a colon. *)
Lemma group_rules_raw push raw i :
  py_in AT_MARKER push = Ok false ->
  py_in COLON push = Ok false ->
  str_find COLON_LF raw = Some i ->
  group_rules push (PStr raw)
  = Ok (Some (str_strip (take i raw), drop (i + 2) raw)).
Proof.
  intros Ha Hb Hi. unfold group_rules. rewrite Ha. cbn [and_then].
  rewrite Hb. cbn [and_then py_in]. unfold str_contains. rewrite Hi.
  cbn [and_then py_split]. rewrite (str_split_max1 _ _ _ Hi). reflexivity.
Qed.

(** X1. A group frame whose push value holds neither the mention marker
    nor a colon, and whose raw content holds the delimiter, is read by
    the third rule: nickname and sender id are what precedes the first
    delimiter (the nickname trimmed), the text is all that follows it. *)
Theorem group_frame_read_from_raw_content :
  forall format_value wxid now data logs from_user push raw i,
    frame_fields data (PDict []) = Ok (from_user, push, PStr raw) ->
    py_in CHATROOM from_user = Ok true ->
    py_in AT_MARKER push = Ok false ->
    py_in COLON push = Ok false ->
    str_find COLON_LF raw = Some i ->
    exists abm logs',
      convert_message format_value wxid now data logs
      = (Ok (Some abm), logs')
      /\ nickname (sender abm) = str_strip (take i raw)
      /\ user_id (sender abm) = PStr (take i raw)
      /\ message abm = [Normalizer.Plain (PStr (drop (i + 2) raw))].
Proof.
  intros fv wxid now data logs from_user push raw i Ef Eg Ha Hb Hi.
  destruct (convert_body_group fv wxid now data logs _ _ _ Ef Eg)
    as (mid & tm & Hb').
  rewrite (group_rules_raw _ _ _ Ha Hb Hi) in Hb'.
  cbn [py_split and_then] in Hb'.
  rewrite (list_index_split_head COLON_LF raw ltac:(discriminate)) in Hb'.
  unfold before_first in Hb'. rewrite Hi in Hb'. cbn [fst snd] in Hb'.
  unfold convert_message, try_except. rewrite Hb'.
  eexists _, _. split; [reflexivity|]. cbn [sender nickname user_id message].
  rewrite str_strip_idem. auto.
Qed.

Lemma group_frame_read_from_raw_content_witness :
  exists abm logs',
    convert_message no_format bot_wxid 0
      (group_frame (py "joined") (py "dave_id:" ++ LF :: py "a:" ++ LF :: py "b"))
      []
    = (Ok (Some abm), logs')
    /\ nickname (sender abm) = py "dave_id"
    /\ user_id (sender abm) = PStr (py "dave_id")
    /\ message abm = [Normalizer.Plain (PStr (py "a:" ++ LF :: py "b"))].
Proof.
  exact (group_frame_read_from_raw_content no_format bot_wxid 0
           (group_frame (py "joined")
              (py "dave_id:" ++ LF :: py "a:" ++ LF :: py "b"))
           [] (PStr (py "12345@chatroom")) (PStr (py "joined"))
           (py "dave_id:" ++ LF :: py "a:" ++ LF :: py "b") 7%nat
           eq_refl eq_refl eq_refl eq_refl eq_refl).
Defined.

(** ** What every produced message looks like *)

(** The head of a computation that returned is a step that returned. *)
Ltac head_res H x :=
  match type of H with
  | (match ?r with Ok _ => _ | Raise _ => _ end) = _ =>
      let E := fresh "E" x in
      destruct r as [x|] eqn:E; cbn beta iota in H; [|discriminate H]
  end.

Lemma convert_message_some_inv format_value wxid now data logs abm logs' :
  convert_message format_value wxid now data logs = (Ok (Some abm), logs') ->
  convert_body format_value wxid now data logs = (Ok (Some abm), logs').
Proof.
  unfold convert_message, try_except.
  destruct (convert_body format_value wxid now data logs) as [[r|e] l];
    [auto|].
  unfold bind, Normalizer.logger, modify, ret. discriminate.
Qed.

(** How a message comes out of [convert_body]. *)
Lemma convert_body_some_inv format_value wxid now data logs abm logs' :
  convert_body format_value wxid now data logs = (Ok (Some abm), logs') ->
  exists fu from_user msg_id create_time,
    dict_get data (py "from_user_name") (PDict []) = Ok fu
    /\ dict_get fu (py "str") (PStr []) = Ok from_user
    /\ dict_get data (py "msg_id") (PStr []) = Ok msg_id
    /\ dict_get data (py "create_time") (PInt now) = Ok create_time
    /\ logs' = logs ++ [Log DEBUG (py "转换后的消息") []]
    /\ ((py_in CHATROOM from_user = Ok true
         /\ exists nick text uid,
             abm = {| type := GROUP_MESSAGE;
                      self_id := wxid;
                      message_id := msg_id;
                      timestamp := create_time;
                      sender := {| user_id := PStr uid;
                                   nickname := str_strip nick |};
                      message := [Normalizer.Plain (PStr text)];
                      message_str := str_strip nick ++ py ": " ++ text;
                      session_id := from_user;
                      group_id := Some from_user;
                      raw_message := data |})
        \/ (py_in CHATROOM from_user = Ok false
            /\ eq_str from_user wxid = false
            /\ exists nick content,
                abm = {| type := FRIEND_MESSAGE;
                         self_id := wxid;
                         message_id := msg_id;
                         timestamp := create_time;
                         sender := {| user_id := from_user;
                                      nickname := str_strip nick |};
                         message := [Normalizer.Plain content];
                         message_str :=
                           str_strip nick ++ py ": "
                           ++ fstr format_value content;
                         session_id := from_user;
                         group_id := None;
                         raw_message := data |})).
Proof.
  intros H. unfold convert_body, bind, lift, ret, raise in H.
  cbn beta iota in H.
  head_res H fu. head_res H from_user. head_res H is_group.
  head_res H msg_id. head_res H create_time.
  exists fu, from_user, msg_id, create_time.
  do 4 (split; [first [reflexivity | assumption]|]).
  destruct is_group.
  - head_res H push. head_res H ct. head_res H raw. head_res H bound.
    destruct bound as [nc|]; cbn beta iota in H; [|discriminate H].
    head_res H rs. head_res H uid.
    unfold Normalizer.logger, modify in H. cbn in H.
    injection H as <- <-. split; [reflexivity|]. left.
    split; [assumption|]. eexists _, _, _. reflexivity.
  - destruct (eq_str from_user wxid) eqn:Ew; [discriminate H|].
    head_res H push. head_res H ps. head_res H p0. head_res H ct.
    head_res H content.
    unfold Normalizer.logger, modify in H. cbn in H.
    injection H as <- <-. split; [reflexivity|]. right.
    do 2 (split; [first [reflexivity | assumption]|]).
    eexists _, _. reflexivity.
Qed.



(** ** The nickname *)

Lemma str_strip_trimmed s : trimmed (str_strip s).
Proof.
  split.
  - apply str_lstrip_fixed. unfold str_strip.
    apply str_lstrip_rstrip, str_lstrip_idem.
  - apply str_lstrip_fixed. unfold str_strip, str_rstrip.
    rewrite rev_involutive. apply str_lstrip_idem.
Qed.

(** X3. The nickname of every produced message neither starts nor ends
    with white space. *)
Theorem produced_nickname_trimmed :
  forall format_value wxid now data logs abm logs',
    convert_message format_value wxid now data logs = (Ok (Some abm), logs') ->
    trimmed (nickname (sender abm)).
Proof.
  intros fv wxid now data logs abm logs' H.
  apply convert_message_some_inv, convert_body_some_inv in H
    as (fu & from_user & mid & tm & _ & _ & _ & _ & _ & Hcase).
  destruct Hcase as [(_ & nick & text & uid & ->)
                    |(_ & _ & nick & content & ->)]; cbn;
    apply str_strip_trimmed.
Qed.

Lemma produced_nickname_trimmed_witness :
  trimmed (nickname (sender scenario_C_message)).
Proof.
  exact (produced_nickname_trimmed no_format bot_wxid 0 scenario_C []
           scenario_C_message [converted_entry] eq_refl).
Defined.

(** ** Dropped frames *)

(** An exception of [convert_body] leaves the log as it was. *)
Lemma convert_body_raise_log format_value wxid now data logs e l :
  convert_body format_value wxid now data logs = (Raise e, l) -> l = logs.
Proof.
  intros H. unfold convert_body, bind, lift, ret, raise in H.
  cbn beta iota in H.
  repeat match type of H with
         | (match ?r with Ok _ => _ | Raise _ => _ end) = _ =>
             destruct r; cbn beta iota in H;
             [|injection H as _ <-; reflexivity]
         end.
  match type of H with (if ?b then _ else _) _ = _ => destruct b end.
  - repeat match type of H with
           | (match ?r with Ok _ => _ | Raise _ => _ end) = _ =>
               destruct r; cbn beta iota in H;
               [|injection H as _ <-; reflexivity]
           end.
    match type of H with
    | context [match ?o with Some _ => _ | None => _ end] => destruct o
    end; cbn beta iota in H; [|injection H as _ <-; reflexivity].
    repeat match type of H with
           | (match ?r with Ok _ => _ | Raise _ => _ end) = _ =>
               destruct r; cbn beta iota in H;
               [|injection H as _ <-; reflexivity]
           end.
    discriminate H.
  - match type of H with (if ?b then _ else _) _ = _ => destruct b end;
      [discriminate H|].
    repeat match type of H with
           | (match ?r with Ok _ => _ | Raise _ => _ end) = _ =>
               destruct r; cbn beta iota in H;
               [|injection H as _ <-; reflexivity]
           end.
    discriminate H.
Qed.

(** The only silent way out of [convert_body] is the self-echo. *)
Lemma convert_body_none_inv format_value wxid now data logs l :
  convert_body format_value wxid now data logs = (Ok None, l) ->
  l = logs
  /\ exists fu from_user,
      dict_get data (py "from_user_name") (PDict []) = Ok fu
      /\ dict_get fu (py "str") (PStr []) = Ok from_user
      /\ py_in CHATROOM from_user = Ok false
      /\ eq_str from_user wxid = true.
Proof.
  intros H. unfold convert_body, bind, lift, ret, raise in H.
  cbn beta iota in H.
  head_res H fu. head_res H from_user. head_res H is_group.
  head_res H msg_id. head_res H create_time.
  destruct is_group.
  - head_res H push. head_res H ct. head_res H raw. head_res H bound.
    destruct bound as [nc|]; cbn beta iota in H; [|discriminate H].
    head_res H rs. head_res H uid.
    unfold Normalizer.logger, modify in H. cbn in H. discriminate H.
  - destruct (eq_str from_user wxid) eqn:Ew.
    + injection H as <-. split; [reflexivity|]. eauto 10.
    + head_res H push. head_res H ps. head_res H p0. head_res H ct.
      head_res H content.
      unfold Normalizer.logger, modify in H. cbn in H. discriminate H.
Qed.

(** X4. A frame is dropped in one of two ways only: silently, when it is
    a direct frame from the adapter's own identity; or by an exception,
    and then exactly one error entry naming the exception and the frame
    is added to the log. *)
Theorem dropped_frame_is_self_echo_or_logged :
  forall format_value wxid now data logs logs',
    convert_message format_value wxid now data logs = (Ok None, logs') ->
    (logs' = logs
     /\ exists fu from_user,
         dict_get data (py "from_user_name") (PDict []) = Ok fu
         /\ dict_get fu (py "str") (PStr []) = Ok from_user
         /\ py_in CHATROOM from_user = Ok false
         /\ eq_str from_user wxid = true)
    \/ (exists e,
           logs' = logs ++ [Log ERROR (py "消息转换失败")
                              [LExn e; LVal data]]).
Proof.
  intros fv wxid now data logs logs' H.
  unfold convert_message, try_except in H.
  destruct (convert_body fv wxid now data logs) as [[[abm|]|e] l] eqn:Hb.
  - discriminate H.
  - injection H as <-. left. eapply convert_body_none_inv, Hb.
  - apply convert_body_raise_log in Hb as ->.
    unfold bind, Normalizer.logger, modify, ret in H.
    injection H as <-. right. eauto.
Qed.

Lemma dropped_frame_witness :
  (([] : list log_entry) = [] /\ exists fu from_user,
       dict_get (direct_frame bot_wxid (py "me: hi") (py "hi"))
         (py "from_user_name") (PDict []) = Ok fu
       /\ dict_get fu (py "str") (PStr []) = Ok from_user
       /\ py_in CHATROOM from_user = Ok false
       /\ eq_str from_user bot_wxid = true)
  \/ (exists e,
         [] = [] ++ [Log ERROR (py "消息转换失败")
                       [LExn e;
                        LVal (direct_frame bot_wxid (py "me: hi") (py "hi"))]]).
Proof.
  exact (dropped_frame_is_self_echo_or_logged no_format bot_wxid 0
           (direct_frame bot_wxid (py "me: hi") (py "hi")) [] [] eq_refl).
Defined.

(** ** Frames with missing keys *)

(** X5. A frame object without sender, push text and content is not
    dropped: it is normalised as a direct message from the empty sender,
    with empty nickname and empty text, stamped with the frame's time or
    the current one. *)
Theorem frame_without_keys_is_a_direct_message :
  forall format_value wxid now kv logs,
    wxid <> [] ->
    assoc (py "from_user_name") kv = None ->
    assoc (py "push_content") kv = None ->
    assoc (py "content") kv = None ->
    exists abm,
      convert_message format_value wxid now (PDict kv) logs
      = (Ok (Some abm), logs ++ [converted_entry])
      /\ type abm = FRIEND_MESSAGE
      /\ sender abm = {| user_id := PStr []; nickname := [] |}
      /\ message abm = [Normalizer.Plain (PStr [])]
      /\ timestamp abm = default (PInt now) (assoc (py "create_time") kv).
Proof.
  intros fv wxid now kv logs Hw Hf Hp Hc.
  unfold_convert. cbn [dict_get]. rewrite Hf, Hp, Hc. cbn.
  destruct wxid as [|c w]; [congruence|]. cbn.
  eexists. split; [reflexivity|]. cbn. auto.
Qed.

Lemma frame_without_keys_witness :
  exists abm,
    convert_message no_format bot_wxid 5 (PDict []) []
    = (Ok (Some abm), [] ++ [converted_entry])
    /\ type abm = FRIEND_MESSAGE
    /\ sender abm = {| user_id := PStr []; nickname := [] |}
    /\ message abm = [Normalizer.Plain (PStr [])]
    /\ timestamp abm = default (PInt 5) (assoc (py "create_time") []).
Proof.
  exact (frame_without_keys_is_a_direct_message no_format bot_wxid 5 [] []
           ltac:(discriminate) eq_refl eq_refl eq_refl).
Defined.

(* ===================================================================== *)
(** * The inbound glue                                                    *)
(* ===================================================================== *)

Lemma convert_message_total format_value wxid now data logs :
  exists r logs',
    convert_message format_value wxid now data logs = (Ok r, logs').
Proof.
  unfold convert_message, try_except.
  destruct (convert_body format_value wxid now data logs) as [[r|e] l];
    [eauto|].
  unfold bind, Normalizer.logger, modify, ret. eauto.
Qed.

Lemma is_text_message_non_object format_value wxid now redbag_enabled
    redbag_interval data s :
  (forall kv, data <> PDict kv) ->
  Adapter.is_text_message format_value wxid now redbag_enabled
    redbag_interval data s
  = (Raise AttributeError, s).
Proof.
  intros Hno. unfold Adapter.is_text_message, bind, lift.
  destruct data; try reflexivity. elim (Hno d). reflexivity.
Qed.

(** X6. [is_text_message] raises exactly on a frame that is not an
    object, with [AttributeError] and before it has logged or done
    anything; on every frame object it returns. *)
Theorem is_text_message_raises_on_non_objects :
  forall format_value wxid now redbag_enabled redbag_interval data s,
    ((forall kv, data <> PDict kv) ->
     Adapter.is_text_message format_value wxid now redbag_enabled
       redbag_interval data s
     = (Raise AttributeError, s))
    /\ (forall kv,
           data = PDict kv ->
           exists r s',
             Adapter.is_text_message format_value wxid now redbag_enabled
               redbag_interval data s
             = (Ok r, s')).
Proof.
  intros fv wxid now en iv data s. split.
  - apply is_text_message_non_object.
  - intros kv ->. unfold Adapter.is_text_message, bind, lift.
    cbn [dict_get].
    destruct (eq_int _ 49).
    + destruct en; [|unfold ret; eauto].
      destruct (0 <=? iv); unfold Adapter.perform, modify, ret; eauto.
    + unfold Adapter.with_logs.
      destruct (convert_message_total fv wxid now (PDict kv) (Adapter.logs s))
        as (r & l & ->). eauto.
Qed.

Lemma is_text_message_raises_witness :
  Adapter.is_text_message no_format bot_wxid 0 true 3 (PList [PInt 1])
    {| Adapter.logs := []; Adapter.effects := [] |}
  = (Raise AttributeError, {| Adapter.logs := []; Adapter.effects := [] |}).
Proof.
  exact (proj1 (is_text_message_raises_on_non_objects no_format bot_wxid 0
                  true 3 (PList [PInt 1])
                  {| Adapter.logs := []; Adapter.effects := [] |})
           ltac:(discriminate)).
Defined.




(** X8. A frame that is normalised to a message with a string text
    commits exactly one event: its text is the message text alone (not
    the "nickname: text" of the message), its session is the message's
    channel.  A frame that is dropped commits none and leaves the notice
    that it is ignored. *)
Theorem converted_frame_commits_one_event :
  forall format_value wxid now redbag_enabled redbag_interval plain_text
         data s msg_type r logs',
    dict_get data (py "msg_type") (PStr []) = Ok msg_type ->
    eq_int msg_type 49 = false ->
    convert_message format_value wxid now data (Adapter.logs s)
    = (Ok r, logs') ->
    (forall abm text,
        r = Some abm ->
        message abm = [Normalizer.Plain (PStr text)] ->
        plain_text (PStr text) = Ok text ->
        Adapter.on_received format_value wxid now redbag_enabled
          redbag_interval plain_text data s
        = (Ok tt,
           {| Adapter.logs := logs';
              Adapter.effects :=
                Adapter.effects s
                ++ [Adapter.Committed text abm (session_id abm)] |}))
    /\ (r = None ->
        Adapter.on_received format_value wxid now redbag_enabled
          redbag_interval plain_text data s
        = (Ok tt,
           {| Adapter.logs :=
                logs' ++ [Log DEBUG (py "消息转换结果为None，忽略处理") []];
              Adapter.effects := Adapter.effects s |})).
Proof.
  intros fv wxid now en iv pt data s mt r logs' Hmt H49 Hc.
  assert (Adapter.is_text_message fv wxid now en iv data s
          = (Ok r, {| Adapter.logs := logs';
                      Adapter.effects := Adapter.effects s |})) as Hi.
  { unfold Adapter.is_text_message, bind, lift. rewrite Hmt. cbn beta iota.
    rewrite H49. unfold Adapter.with_logs. rewrite Hc. reflexivity. }
  split.
  - intros abm text -> Hm Hp.
    unfold Adapter.on_received, bind at 1. rewrite Hi.
    unfold Adapter.handle_msg, bind, lift. rewrite Hm.
    cbn [Adapter.components_text and_then]. rewrite Hp. reflexivity.
  - intros ->. unfold Adapter.on_received, bind. rewrite Hi. reflexivity.
Qed.

Lemma converted_frame_witness :
  Adapter.on_received no_format bot_wxid 0 false 0
    (fun v => match v with PStr t => Ok t | _ => Raise TypeError end)
    scenario_C {| Adapter.logs := []; Adapter.effects := [] |}
  = (Ok tt,
     {| Adapter.logs := [converted_entry];
        Adapter.effects :=
          [] ++ [Adapter.Committed (py "yo") scenario_C_message
                   (session_id scenario_C_message)] |}).
Proof.
  exact (proj1 (converted_frame_commits_one_event no_format bot_wxid 0
                  false 0
                  (fun v => match v with
                            | PStr t => Ok t
                            | _ => Raise TypeError
                            end)
                  scenario_C {| Adapter.logs := []; Adapter.effects := [] |}
                  (PInt 1) (Some scenario_C_message) [converted_entry]
                  eq_refl eq_refl eq_refl)
           scenario_C_message (py "yo") eq_refl eq_refl eq_refl).
Defined.

(* ===================================================================== *)
(** * More on the stream connection                                       *)
(* ===================================================================== *)

(** ** Handling a well-formed frame *)

(** The general case of a handler that raises. *)
Lemma step_handler_raises ws_url token on_message_received s c v e :
  at_ s = Reading c ->
  shutdown_event s = false ->
  on_message_received v = Raise e ->
  e <> TimeoutError ->
  let s' := step ws_url token on_message_received s
              (RecvDone (RecvMessage (Json v))) in
  at_ s' = Backoff
  /\ ~ In c (open_conns s')
  /\ trace s'
     = trace s
       ++ [Logged (Log DEBUG (py "格式化后的消息") [LVal v]); Dispatch v;
           Closed c;
           Logged (Log ERROR (py "WebSocket连接错误") [LExn e]);
           Sleep 5].
Proof.
  intros Hat Hsd Hh Hne. cbn zeta.
  unfold step. rewrite Hat. cbn [read_body json_loads]. rewrite Hh.
  assert (on_error ws_url token e
            (leave c
               (emit (Dispatch v)
                  (Transport.logger DEBUG "格式化后的消息" [LVal v] s)))
          = goto Backoff
              (emit (Sleep 5)
                 (Transport.logger ERROR "WebSocket连接错误" [LExn e]
                    (leave c
                       (emit (Dispatch v)
                          (Transport.logger DEBUG "格式化后的消息"
                             [LVal v] s))))))
    as Herr.
  { unfold on_error. cbn [shutdown_event emit Transport.logger].
    rewrite leave_shutdown. cbn [shutdown_event emit Transport.logger].
    rewrite Hsd. reflexivity. }
  destruct e; try congruence; cbn beta iota; rewrite Herr; cbn -[leave];
    (split; [reflexivity|]); (split; [apply leave_not_open|]);
    rewrite leave_trace; cbn; rewrite <- !app_assoc; reflexivity.
Qed.

(** X9. What happens to a well-formed frame depends on its handler.
    When the handler returns, or raises a timeout, the message counts as
    dispatched and, shutdown not being requested, the client goes on
    reading the same connection.  When it raises anything else, the
    connection is closed, the error is logged and, shutdown not being
    requested, the 5-second backoff is entered. *)
Theorem handler_exception_tears_down :
  forall ws_url token on_message_received s c v,
    at_ s = Reading c ->
    shutdown_event s = false ->
    let s' := step ws_url token on_message_received s
                (RecvDone (RecvMessage (Json v))) in
    let seen := [Logged (Log DEBUG (py "格式化后的消息") [LVal v]);
                 Dispatch v] in
    ((on_message_received v = Ok tt
      \/ on_message_received v = Raise TimeoutError) ->
     at_ s' = Reading c
     /\ open_conns s' = open_conns s
     /\ keepalive_task s' = keepalive_task s
     /\ trace s' = trace s ++ seen)
    /\ (forall e,
           on_message_received v = Raise e ->
           e <> TimeoutError ->
           at_ s' = Backoff
           /\ ~ In c (open_conns s')
           /\ trace s'
              = trace s ++ seen
                ++ [Closed c;
                    Logged (Log ERROR (py "WebSocket连接错误") [LExn e]);
                    Sleep 5]).
Proof.
  intros ws_url token h s c v Hat Hsd. cbn zeta.
  unfold step. rewrite Hat. cbn [read_body json_loads]. split.
  - intros [Hh|Hh]; rewrite Hh; cbn beta iota; unfold read_loop;
      cbn [shutdown_event emit Transport.logger]; rewrite Hsd; cbn;
      rewrite <- app_assoc; auto.
  - intros e Hh Hne.
    pose proof (step_handler_raises ws_url token h s c v e Hat Hsd Hh Hne)
      as H.
    cbn zeta in H. unfold step in H. rewrite Hat in H.
    cbn [read_body json_loads] in H. exact H.
Qed.

Lemma handler_exception_witness :
  let s' := sample_step connected (RecvDone (RecvMessage (Json (PInt 1)))) in
  at_ s' = Reading 0
  /\ open_conns s' = open_conns connected
  /\ keepalive_task s' = keepalive_task connected
  /\ trace s'
     = trace connected
       ++ [Logged (Log DEBUG (py "格式化后的消息") [LVal (PInt 1)]);
           Dispatch (PInt 1)].
Proof.
  exact (proj1 (handler_exception_tears_down sample_url sample_token
                  accept_all connected 0%nat (PInt 1) eq_refl eq_refl)
           (or_introl eq_refl)).
Defined.

(** X10. With [on_received] as the handler of the stream, a frame that
    parses to something other than an object (a list, a string, a
    number) costs the connection: [AttributeError] leaves the handler,
    the connection is closed and the 5-second backoff is entered. *)
Theorem non_object_frame_tears_down :
  forall ws_url token format_value wxid now redbag_enabled redbag_interval
         plain_text s c data,
    at_ s = Reading c ->
    shutdown_event s = false ->
    (forall kv, data <> PDict kv) ->
    let s' := step ws_url token
                (received_outcome format_value wxid now redbag_enabled
                   redbag_interval plain_text)
                s (RecvDone (RecvMessage (Json data))) in
    at_ s' = Backoff
    /\ ~ In c (open_conns s')
    /\ trace s'
       = trace s
         ++ [Logged (Log DEBUG (py "格式化后的消息") [LVal data]);
             Dispatch data;
             Closed c;
             Logged (Log ERROR (py "WebSocket连接错误")
                       [LExn AttributeError]);
             Sleep 5].
Proof.
  intros ws_url token fv wxid now en iv pt s c data Hat Hsd Hno.
  apply step_handler_raises; try assumption; [|discriminate].
  unfold received_outcome, Adapter.on_received, bind.
  rewrite (is_text_message_non_object fv wxid now en iv data _ Hno).
  reflexivity.
Qed.

Lemma non_object_frame_witness :
  let s' := step sample_url sample_token
              (received_outcome no_format bot_wxid 0 false 0
                 (fun _ => Ok []))
              connected (RecvDone (RecvMessage (Json (PList [])))) in
  at_ s' = Backoff
  /\ ~ In 0%nat (open_conns s')
  /\ trace s'
     = trace connected
       ++ [Logged (Log DEBUG (py "格式化后的消息") [LVal (PList [])]);
           Dispatch (PList []);
           Closed 0;
           Logged (Log ERROR (py "WebSocket连接错误")
                     [LExn AttributeError]);
           Sleep 5].
Proof.
  exact (non_object_frame_tears_down sample_url sample_token no_format
           bot_wxid 0 false 0 (fun _ => Ok []) connected 0%nat (PList [])
           eq_refl eq_refl ltac:(discriminate)).
Defined.

(** ** The trace of a run *)

Lemma bracketed_app t1 : forall cur t2,
  bracketed cur (t1 ++ t2)
  = match bracketed cur t1 with
    | Some c => bracketed c t2
    | None => None
    end.
Proof.
  induction t1 as [|a t1 IH]; intros cur t2; [reflexivity|].
  destruct a, cur as [c'|]; cbn; try apply IH; try reflexivity;
    destruct (Nat.eqb _ _); try apply IH; reflexivity.
Qed.

Ltac trace_cases :=
  repeat match goal with
         | |- context [filter _ [_]] => rewrite filter_cons_False by tauto
         | |- context [filter _ []] => rewrite filter_nil
         | |- context [bracketed _ (_ ++ _)] => rewrite bracketed_app
         | H : bracketed None ?t = _ |- context [bracketed None ?t] =>
             rewrite H
         | |- context [Nat.eqb ?c ?c] => rewrite Nat.eqb_refl
         | |- _ /\ _ => split
         | |- _ => progress cbn -[filter]
         end.

Lemma step_trace_inv ws_url token on_message_received s ev :
  trace_inv s -> trace_inv (step ws_url token on_message_received s ev).
Proof.
  destruct s as [sd p k oc n t]. unfold trace_inv, conn_inv, current_conn.
  cbn. intros (H1 & H2 & H3).
  destruct ev as [[|]|[|[v|txt]|]|[|]| |]; destruct p as [|c| |];
    cbn; try (repeat split; assumption).
  all: try subst oc.
  all: try (destruct (on_message_received v) as [[]|[]]).
  all: destruct sd, k; trace_cases; try congruence; try reflexivity.
  all: try (intros _; discriminate).
  all: try (apply H3; reflexivity).
Qed.

Lemma run_trace_inv ws_url token on_message_received evs :
  forall s,
    trace_inv s ->
    trace_inv (Transport.run ws_url token on_message_received s evs).
Proof.
  induction evs as [|ev evs IH]; intros s Hs; [exact Hs|].
  apply IH, step_trace_inv, Hs.
Qed.

Lemma start_polling_trace_inv ws_url token shutdown :
  trace_inv (start_polling ws_url token shutdown).
Proof. destruct shutdown; repeat split; cbn; congruence. Qed.

(** X11. Whatever the events, the trace of the reconnect loop is well
    bracketed: a connection is opened only after the one before it was
    closed, closed only while it is the open one, pinged and read for
    dispatch only while it is open; and what the trace leaves open is
    the connection the loop is reading. *)
Theorem trace_is_well_bracketed :
  forall ws_url token on_message_received shutdown evs,
    let s := Transport.run ws_url token on_message_received
               (start_polling ws_url token shutdown) evs in
    bracketed None (trace s) = Some (current_conn s).
Proof.
  intros ws_url token h shutdown evs.
  apply (run_trace_inv ws_url token h evs _
           (start_polling_trace_inv ws_url token shutdown)).
Qed.

(** X12. The keepalive task never outlives its connection: whenever it
    is still sleeping, the loop is reading a connection, and that
    connection is the one open. *)
Theorem keepalive_never_outlives_connection :
  forall ws_url token on_message_received shutdown evs,
    let s := Transport.run ws_url token on_message_received
               (start_polling ws_url token shutdown) evs in
    keepalive_task s = Sleeping ->
    exists c, at_ s = Reading c /\ open_conns s = [c].
Proof.
  intros ws_url token h shutdown evs s Hk.
  destruct (run_trace_inv ws_url token h evs _
              (start_polling_trace_inv ws_url token shutdown))
    as (H1 & _ & H3).
  fold s in H1, H3. unfold conn_inv, current_conn in *.
  destruct (at_ s) as [|c| |]; try (elim H3; [reflexivity|exact Hk]).
  exists c. auto.
Qed.

Lemma keepalive_never_outlives_witness :
  exists c, at_ connected = Reading c /\ open_conns connected = [c].
Proof.
  exact (keepalive_never_outlives_connection sample_url sample_token
           accept_all false [ConnectDone true] eq_refl).
Defined.

(** ** After shutdown *)

Lemma attempts_app t1 t2 : attempts (t1 ++ t2) = attempts t1 ++ attempts t2.
Proof. apply omap_app. Qed.

Lemma step_after_shutdown ws_url token on_message_received s ev :
  shutdown_event s = true ->
  shutdown_event (step ws_url token on_message_received s ev) = true
  /\ attempts (trace (step ws_url token on_message_received s ev))
     = attempts (trace s).
Proof.
  destruct s as [sd p k oc n t]. cbn. intros ->.
  destruct ev as [[|]|[|[v|txt]|]|[|]| |]; destruct p as [|c| |];
    cbn; try (split; reflexivity).
  all: try (destruct (on_message_received v) as [[]|[]]).
  all: destruct k; cbn; rewrite ?attempts_app; cbn; rewrite ?app_nil_r;
    split; reflexivity.
Qed.

Lemma step_stopped ws_url token on_message_received s ev :
  at_ s = Stopped ->
  at_ (step ws_url token on_message_received s ev) = Stopped
  /\ trace (step ws_url token on_message_received s ev) = trace s.
Proof.
  destruct s as [sd p k oc n t]. cbn. intros ->.
  destruct ev as [[|]|r|ok| |]; cbn; split; reflexivity.
Qed.

(** X13. Shutdown is cooperative and final.  Once the flag is set, the
    first event that resumes the reconnect loop stops it with no
    connection left open; from then on, and whatever the events, it
    stays set, and no connection attempt and no backoff is ever added to
    the trace; a stopped loop does nothing more. *)
Theorem shutdown_stops_the_loop :
  forall ws_url token on_message_received s evs,
    shutdown_event s = true ->
    let run := Transport.run ws_url token on_message_received in
    (shutdown_event (run s evs) = true
     /\ attempts (trace (run s evs)) = attempts (trace s))
    /\ (forall ev,
           conn_inv s ->
           resumes s ev = true ->
           at_ (step ws_url token on_message_received s ev) = Stopped
           /\ open_conns (step ws_url token on_message_received s ev) = [])
    /\ (at_ s = Stopped ->
        at_ (run s evs) = Stopped /\ trace (run s evs) = trace s).
Proof.
  intros ws_url token h s evs Hsd. cbn zeta. split; [|split].
  - revert s Hsd. induction evs as [|ev evs IH]; intros s Hsd;
      [split; [exact Hsd|reflexivity]|].
    destruct (step_after_shutdown ws_url token h s ev Hsd) as (H1 & H2).
    destruct (IH _ H1) as (H3 & H4).
    split; [exact H3|]. cbn. unfold Transport.run in H4. rewrite H4.
    exact H2.
  - intros ev Hinv Hres.
    destruct s as [sd p k oc n t]. cbn in Hsd. subst sd.
    unfold conn_inv in Hinv. cbn in Hinv.
    destruct ev as [[|]|[|[v|txt]|]|[|]| |]; destruct p as [|c| |];
      try discriminate Hres; cbn -[filter]; subst oc.
    all: try (destruct (h v) as [[]|[]]).
    all: destruct k; cbn -[filter]; rewrite ?filter_cons_False by tauto;
      rewrite ?filter_nil; split; reflexivity.
  - clear Hsd. revert s. induction evs as [|ev evs IH]; intros s Hat;
      [split; [exact Hat|reflexivity]|].
    destruct (step_stopped ws_url token h s ev Hat) as (H1 & H2).
    destruct (IH _ H1) as (H3 & H4).
    split; [exact H3|]. cbn. unfold Transport.run in H4. rewrite H4.
    exact H2.
Qed.

Lemma shutdown_stops_witness :
  let s := sample_step connected ShutdownSet in
  at_ (sample_step s (RecvDone RecvTimeout)) = Stopped
  /\ open_conns (sample_step s (RecvDone RecvTimeout)) = [].
Proof.
  exact (proj1 (proj2 (shutdown_stops_the_loop sample_url sample_token
                         accept_all (sample_step connected ShutdownSet) []
                         eq_refl))
           (RecvDone RecvTimeout) eq_refl eq_refl).
Defined.

(** ** What is dispatched *)

Lemma dispatched_app t1 t2 :
  dispatched (t1 ++ t2) = dispatched t1 ++ dispatched t2.
Proof. apply omap_app. Qed.

Lemma step_dispatched ws_url token on_message_received s ev :
  exists d,
    dispatched (trace (step ws_url token on_message_received s ev))
    = dispatched (trace s) ++ d
    /\ sublist d (json_frames [ev]).
Proof.
  destruct s as [sd p k oc n t].
  destruct ev as [[|]|[|[v|txt]|]|[|]| |]; destruct p as [|c| |]; cbn;
    try (exists []; rewrite app_nil_r; split;
         [reflexivity|apply sublist_nil_l]).
  all: try (destruct (on_message_received v) as [[]|[]]).
  all: destruct sd, k; cbn; rewrite ?dispatched_app; cbn;
    rewrite ?app_nil_r, <- ?app_assoc; cbn;
    first [ exists []; rewrite app_nil_r; split;
            [reflexivity|apply sublist_nil_l]
          | eexists [_]; split; [reflexivity|reflexivity] ].
Qed.

(** X14. The handler is given only frames that were received and
    parsed, each at most once and in the order of their arrival. *)
Theorem dispatch_follows_arrival :
  forall ws_url token on_message_received evs s,
    exists d,
      dispatched (trace (Transport.run ws_url token on_message_received
                           s evs))
      = dispatched (trace s) ++ d
      /\ sublist d (json_frames evs).
Proof.
  intros ws_url token h evs. induction evs as [|ev evs IH]; intros s.
  - exists []. rewrite app_nil_r. split; [reflexivity|constructor].
  - destruct (step_dispatched ws_url token h s ev) as (d1 & E1 & S1).
    destruct (IH (step ws_url token h s ev)) as (d2 & E2 & S2).
    exists (d1 ++ d2). split.
    + cbn. unfold Transport.run in E2. rewrite E2, E1, app_assoc.
      reflexivity.
    + change (json_frames (ev :: evs))
        with (json_frames ([ev] ++ evs)).
      unfold json_frames in *. rewrite omap_app.
      apply sublist_app; assumption.
Qed.

(* ===================================================================== *)
(** * More on the login status calls                                      *)
(* ===================================================================== *)

(** Take the innermost scrutinee the computation in [H] is stuck on. *)
Ltac stuck_in H :=
  match type of H with
  | context [match ?x with _ => _ end] =>
      lazymatch x with
      | context [match _ with _ => _ end] => fail
      | _ => let E := fresh "E" in destruct x eqn:E
      end
  | context [if ?x then _ else _] =>
      lazymatch x with
      | context [match _ with _ => _ end] => fail
      | _ => let E := fresh "E" in destruct x eqn:E
      end
  end.

Ltac session_unfold_in H :=
  unfold Session.try_except_ValueError, try_except, bind, lift, ret, raise,
    Session.http_get, Session.logger, Session.set_login_status, modify in H.

Lemma subscript_ok d k v :
  subscript d k = Ok v -> exists kv, d = PDict kv /\ assoc k kv = Some v.
Proof.
  destruct d; try discriminate. cbn.
  destruct (assoc k d) eqn:E; [|discriminate].
  intros [= ->]. eauto.
Qed.

Lemma subscript_dict kv k v :
  subscript (PDict kv) k = Ok v -> assoc k kv = Some v.
Proof.
  cbn. destruct (assoc k kv); [|discriminate]. intros [= ->]. reflexivity.
Qed.

Ltac subscripts :=
  repeat match goal with
         | E : subscript (PDict _) _ = Ok _ |- _ => apply subscript_dict in E
         | E : subscript ?a _ = Ok _ |- _ =>
             is_var a; destruct a; try discriminate E
         end.

Lemma negb_eqb_200 z : negb (z =? 200) = false -> z = 200.
Proof. intros H. apply negb_false_iff, Z.eqb_eq in H. exact H. Qed.

Lemma check_online_true_inv backend c :
  fst (Session.check_online backend c) = Ok true ->
  exists kv code d st,
    backend Session.GetLoginStatus = Session.Response 200 (Ok (PDict kv))
    /\ assoc (py "Code") kv = Some code
    /\ eq_int code 200 = true
    /\ assoc (py "Data") kv = Some (PDict d)
    /\ assoc (py "loginState") d = Some st
    /\ eq_int st 1 = true.
Proof.
  intros H. unfold Session.check_online in H. session_unfold_in H.
  cbn in H.
  repeat (stuck_in H; cbn in H; try discriminate H).
  subst.
  match goal with E : negb (_ =? 200) = false |- _ =>
    apply negb_eqb_200 in E; subst end.
  match goal with E : negb (eq_int _ 200) = false |- _ =>
    apply negb_false_iff in E end.
  subscripts. eauto 12.
Qed.

Lemma check_online_true_intro backend c kv code d st :
  backend Session.GetLoginStatus = Session.Response 200 (Ok (PDict kv)) ->
  assoc (py "Code") kv = Some code ->
  eq_int code 200 = true ->
  assoc (py "Data") kv = Some (PDict d) ->
  assoc (py "loginState") d = Some st ->
  eq_int st 1 = true ->
  fst (Session.check_online backend c) = Ok true
  /\ Session.login_status (snd (Session.check_online backend c)) = true.
Proof.
  intros Hb Hc H200 Hd Hs H1.
  unfold Session.check_online. session_unfold.
  rewrite Hb. cbn. rewrite Hc. cbn. rewrite H200, Hd. cbn.
  rewrite Hs. cbn. rewrite H1. cbn. auto.
Qed.

(** [check_online] never clears the flag. *)
Lemma check_online_false_keeps backend c :
  fst (Session.check_online backend c) = Ok false ->
  Session.login_status (snd (Session.check_online backend c))
  = Session.login_status c.
Proof.
  unfold Session.check_online. session_unfold. cbn.
  repeat (match goal with
          | |- context [match ?x with _ => _ end] =>
              lazymatch x with
              | context [match _ with _ => _ end] => fail
              | _ => destruct x eqn:?
              end
          | |- context [if ?x then _ else _] =>
              lazymatch x with
              | context [match _ with _ => _ end] => fail
              | _ => destruct x eqn:?
              end
          end; cbn);
    try reflexivity; discriminate.
Qed.

(** X15. [check_online] answers true exactly when the status endpoint
    answers 200 with an object whose [Code] is 200 and whose [Data] is an
    object with [loginState] 1.  It then sets [login_status]; on every
    other answer, failed request and undecodable body included, it
    answers false and leaves [login_status] as it was. *)
Theorem check_online_true_exactly_when_online :
  forall backend c,
    (fst (Session.check_online backend c) = Ok true
     <-> exists kv code d st,
          backend Session.GetLoginStatus
          = Session.Response 200 (Ok (PDict kv))
          /\ assoc (py "Code") kv = Some code
          /\ eq_int code 200 = true
          /\ assoc (py "Data") kv = Some (PDict d)
          /\ assoc (py "loginState") d = Some st
          /\ eq_int st 1 = true)
    /\ (fst (Session.check_online backend c) = Ok true
        \/ fst (Session.check_online backend c) = Ok false)
    /\ Session.login_status (snd (Session.check_online backend c))
       = match fst (Session.check_online backend c) with
         | Ok true => true
         | _ => Session.login_status c
         end.
Proof.
  intros backend c.
  destruct (check_online_returns backend c) as (b & c' & Hr & _).
  split; [|split].
  - split.
    + apply check_online_true_inv.
    + intros (kv & code & d & st & H1 & H2 & H3 & H4 & H5 & H6).
      eapply check_online_true_intro; eassumption.
  - rewrite Hr. destruct b; auto.
  - destruct b.
    + assert (fst (Session.check_online backend c) = Ok true) as Ht
        by (rewrite Hr; reflexivity).
      rewrite Ht.
      apply check_online_true_inv in Ht
        as (kv & code & d & st & H1 & H2 & H3 & H4 & H5 & H6).
      eapply check_online_true_intro; eassumption.
    + assert (fst (Session.check_online backend c) = Ok false) as Hf
        by (rewrite Hr; reflexivity).
      rewrite Hf. apply check_online_false_keeps, Hf.
Qed.

Lemma check_online_witness :
  fst (Session.check_online backend_state3_online fresh_client) = Ok true.
Proof.
  exact (proj2 (proj1 (check_online_true_exactly_when_online
                         backend_state3_online fresh_client))
           (ex_intro _ _ (ex_intro _ (PInt 200)
              (ex_intro _ _ (ex_intro _ (PInt 1)
                 (conj eq_refl (conj eq_refl (conj eq_refl
                    (conj eq_refl (conj eq_refl eq_refl)))))))))).
Defined.

(** ** The scan check *)

Lemma check_login_status_true_inv backend c :
  fst (Session.check_login_status backend c) = Ok true ->
  exists kv code,
    backend Session.CheckLoginStatus = Session.Response 200 (Ok (PDict kv))
    /\ assoc (py "Code") kv = Some code
    /\ ((eq_int code 200 = true
         /\ exists d st,
             assoc (py "Data") kv = Some (PDict d)
             /\ assoc (py "state") d = Some st
             /\ eq_int st 2 = true)
        \/ (eq_int code 200 = false
            /\ fst (Session.check_online backend
                      (requested Session.CheckLoginStatus c)) = Ok true)).
Proof.
  intros H. unfold Session.check_login_status in H. session_unfold_in H.
  cbn -[Session.check_online] in H.
  repeat (first
            [ match type of H with
              | context [Session.check_online backend ?s] =>
                  let b := fresh "b" in
                  let c' := fresh "c'" in
                  let Hon := fresh "Hon" in
                  destruct (check_online_returns backend s)
                    as (b & c' & Hon & _);
                  rewrite Hon in H
              end
            | stuck_in H ];
          cbn -[Session.check_online] in H; try discriminate H).
  all: subst.
  all: match goal with E : negb (_ =? 200) = false |- _ =>
         apply negb_eqb_200 in E; subst end.
  all: subscripts.
  all: try match goal with E : negb (eq_int _ 200) = false |- _ =>
             apply negb_false_iff in E end.
  all: try match goal with E : negb (eq_int _ 200) = true |- _ =>
             apply negb_true_iff in E end.
  all: eexists _, _; split; [reflexivity|]; split; [eassumption|].
  all: first [ right; split; [assumption|]; unfold requested;
               match goal with Hon : Session.check_online _ _ = _ |- _ =>
                 rewrite Hon end; reflexivity
             | left; split; [assumption|] ].
  all: match goal with
       | E : dict_get ?a (py "state") _ = Ok ?st |- _ =>
           destruct a as [| | | | | |d']; try discriminate E;
           cbn in E; destruct (assoc (py "state") d') as [st'|] eqn:Est;
           cbn in E; injection E as <-
       end.
  all: try discriminate.
  all: eauto.
Qed.

Lemma check_login_status_true_intro backend c kv code :
  backend Session.CheckLoginStatus = Session.Response 200 (Ok (PDict kv)) ->
  assoc (py "Code") kv = Some code ->
  (eq_int code 200 = true
   /\ exists d st,
       assoc (py "Data") kv = Some (PDict d)
       /\ assoc (py "state") d = Some st
       /\ eq_int st 2 = true)
  \/ (eq_int code 200 = false
      /\ fst (Session.check_online backend
                (requested Session.CheckLoginStatus c)) = Ok true) ->
  fst (Session.check_login_status backend c) = Ok true.
Proof.
  intros Hb Hcode [(H200 & d & st & Hd & Hs & H2)|(H200 & Hon)].
  - unfold Session.check_login_status. session_unfold.
    rewrite Hb. cbn. rewrite Hcode. cbn. rewrite H200, Hd. cbn.
    rewrite Hs. cbn.
    rewrite (eq_int_other _ _ 0 H2), (eq_int_other _ _ 1 H2), H2 by lia.
    reflexivity.
  - destruct (check_online_returns backend
                (requested Session.CheckLoginStatus c))
      as (b & c' & Hr & _).
    rewrite Hr in Hon. injection Hon as ->.
    unfold Session.check_login_status. session_unfold.
    rewrite Hb. cbn -[Session.check_online]. rewrite Hcode.
    cbn -[Session.check_online]. rewrite H200.
    cbn -[Session.check_online].
    fold (requested Session.CheckLoginStatus c). rewrite Hr. reflexivity.
Qed.

(** The scan check sends its own request, and at most the online check
    after it. *)
Lemma check_login_status_requests backend c :
  Session.requests (snd (Session.check_login_status backend c))
  = Session.requests c ++ [Session.CheckLoginStatus]
  \/ Session.requests (snd (Session.check_login_status backend c))
     = Session.requests c
       ++ [Session.CheckLoginStatus; Session.GetLoginStatus].
Proof.
  unfold Session.check_login_status. session_unfold.
  cbn -[Session.check_online].
  repeat (first
            [ match goal with
              | |- context [Session.check_online backend ?s] =>
                  let b := fresh "b" in
                  let c' := fresh "c'" in
                  let Hon := fresh "Hon" in
                  let Hreq := fresh "Hreq" in
                  destruct (check_online_returns backend s)
                    as (b & c' & Hon & Hreq);
                  rewrite Hon
              end
            | match goal with
              | |- context [match ?x with _ => _ end] =>
                  lazymatch x with
                  | context [match _ with _ => _ end] => fail
                  | _ => destruct x eqn:?
                  end
              | |- context [if ?x then _ else _] =>
                  lazymatch x with
                  | context [match _ with _ => _ end] => fail
                  | _ => destruct x eqn:?
                  end
              end ];
          cbn -[Session.check_online]).
  all: try (left; reflexivity).
  all: right; cbn in *;
    match goal with Hreq : Session.requests _ = _ |- _ => rewrite Hreq end;
    rewrite <- app_assoc; reflexivity.
Qed.

(** X16. The scan check answers true in exactly two cases: the answer
    carries the success code and the confirmed state 2, or it carries a
    failure code and the online check, asked next, answers true.  It
    never raises, and it sends its own request followed by at most the
    online check. *)
Theorem scan_check_true_exactly_when_confirmed_or_online :
  forall backend c,
    (fst (Session.check_login_status backend c) = Ok true
     <-> exists kv code,
          backend Session.CheckLoginStatus
          = Session.Response 200 (Ok (PDict kv))
          /\ assoc (py "Code") kv = Some code
          /\ ((eq_int code 200 = true
               /\ exists d st,
                   assoc (py "Data") kv = Some (PDict d)
                   /\ assoc (py "state") d = Some st
                   /\ eq_int st 2 = true)
              \/ (eq_int code 200 = false
                  /\ fst (Session.check_online backend
                            (requested Session.CheckLoginStatus c))
                     = Ok true)))
    /\ (exists b, fst (Session.check_login_status backend c) = Ok b)
    /\ (Session.requests (snd (Session.check_login_status backend c))
        = Session.requests c ++ [Session.CheckLoginStatus]
        \/ Session.requests (snd (Session.check_login_status backend c))
           = Session.requests c
             ++ [Session.CheckLoginStatus; Session.GetLoginStatus]).
Proof.
  intros backend c. split; [|split].
  - split.
    + apply check_login_status_true_inv.
    + intros (kv & code & Hb & Hc & Hcase).
      eapply check_login_status_true_intro; eassumption.
  - assert (exists b c', Session.check_login_status backend c = (Ok b, c'))
      as (b & c' & ->).
    { apply try_except_returns. intros e s'. eexists _, _. reflexivity. }
    eauto.
  - apply check_login_status_requests.
Qed.

Lemma scan_check_witness :
  fst (Session.check_login_status backend_failure_online fresh_client)
  = Ok true.
Proof.
  exact (proj2 (proj1 (scan_check_true_exactly_when_confirmed_or_online
                         backend_failure_online fresh_client))
           (ex_intro _ _ (ex_intro _ (PInt 300)
              (conj eq_refl (conj eq_refl
                 (or_intror (conj eq_refl eq_refl))))))).
Defined.

Lemma check_online_full backend s :
  exists b c',
    Session.check_online backend s = (Ok b, c')
    /\ Session.requests c' = Session.requests s ++ [Session.GetLoginStatus]
    /\ Session.login_status c' = (b || Session.login_status s)%bool.
Proof.
  destruct (check_online_returns backend s) as (b & c' & Hr & Hreq).
  exists b, c'. split; [exact Hr|]. split; [exact Hreq|].
  destruct b.
  - assert (fst (Session.check_online backend s) = Ok true) as Ht
      by (rewrite Hr; reflexivity).
    apply check_online_true_inv in Ht
      as (kv & code & d & st & H1 & H2 & H3 & H4 & H5 & H6).
    destruct (check_online_true_intro backend s kv code d st H1 H2 H3 H4 H5 H6)
      as (_ & Hl).
    rewrite Hr in Hl. exact Hl.
  - assert (fst (Session.check_online backend s) = Ok false) as Hf
      by (rewrite Hr; reflexivity).
    apply check_online_false_keeps in Hf. rewrite Hr in Hf. exact Hf.
Qed.

Lemma check_login_status_keeps :
  forall backend c,
    (fst (Session.check_login_status backend c) = Ok false ->
     Session.login_status (snd (Session.check_login_status backend c))
     = Session.login_status c)
    /\ (Session.requests (snd (Session.check_login_status backend c))
        = Session.requests c ++ [Session.CheckLoginStatus] ->
        Session.login_status (snd (Session.check_login_status backend c))
        = Session.login_status c).
Proof.
  intros backend c.
  unfold Session.check_login_status. session_unfold.
  cbn -[Session.check_online].
  repeat (first
            [ match goal with
              | |- context [Session.check_online backend ?s] =>
                  let b := fresh "b" in
                  let c' := fresh "c'" in
                  let Hon := fresh "Hon" in
                  let Hreq := fresh "Hreq" in
                  let Hls := fresh "Hls" in
                  destruct (check_online_full backend s)
                    as (b & c' & Hon & Hreq & Hls);
                  rewrite Hon
              end
            | match goal with
              | |- context [match ?x with _ => _ end] =>
                  lazymatch x with
                  | context [match _ with _ => _ end] => fail
                  | _ => destruct x eqn:?
                  end
              | |- context [if ?x then _ else _] =>
                  lazymatch x with
                  | context [match _ with _ => _ end] => fail
                  | _ => destruct x eqn:?
                  end
              end ];
          cbn -[Session.check_online]).
  all: split; intros Hh; try reflexivity; try discriminate Hh.
  all: cbn in *; try (rewrite Hls; reflexivity).
  all: rewrite Hreq, <- app_assoc in Hh; apply app_inv_head in Hh;
    discriminate Hh.
Qed.

(** X17. The scan check itself never touches [login_status]: the flag
    changes only when the fallback online check found the account
    online.  So after an answer of false, and after any check that sent
    only its own request (a confirmed scan included), the flag is as it
    was. *)
Theorem scan_check_leaves_login_status :
  forall backend c,
    (fst (Session.check_login_status backend c) = Ok false ->
     Session.login_status (snd (Session.check_login_status backend c))
     = Session.login_status c)
    /\ (Session.requests (snd (Session.check_login_status backend c))
        = Session.requests c ++ [Session.CheckLoginStatus] ->
        Session.login_status (snd (Session.check_login_status backend c))
        = Session.login_status c).
Proof. exact check_login_status_keeps. Qed.

Lemma scan_check_leaves_witness :
  Session.login_status
    (snd (Session.check_login_status backend_confirmed fresh_client))
  = Session.login_status fresh_client.
Proof.
  exact (proj2 (scan_check_leaves_login_status backend_confirmed
                  fresh_client) eq_refl).
Defined.

(* ===================================================================== *)
(** * Logging in and out                                                  *)
(* ===================================================================== *)

(** ** The answers do not depend on the client *)

Lemma check_online_answer backend c :
  fst (Session.check_online backend c) = Ok (online_answer backend).
Proof.
  unfold online_answer.
  destruct (check_online_returns backend c) as (b & c' & Hr & _).
  destruct (check_online_returns backend fresh_client) as (b0 & c0 & Hr0 & _).
  rewrite Hr, Hr0. cbn. destruct b, b0; try reflexivity.
  - assert (fst (Session.check_online backend c) = Ok true) as Ht
      by (rewrite Hr; reflexivity).
    apply check_online_true_inv in Ht
      as (kv & code & d & st & H1 & H2 & H3 & H4 & H5 & H6).
    destruct (check_online_true_intro backend fresh_client kv code d st
                H1 H2 H3 H4 H5 H6) as (Hc & _).
    rewrite Hr0 in Hc. discriminate Hc.
  - assert (fst (Session.check_online backend fresh_client) = Ok true) as Ht
      by (rewrite Hr0; reflexivity).
    apply check_online_true_inv in Ht
      as (kv & code & d & st & H1 & H2 & H3 & H4 & H5 & H6).
    destruct (check_online_true_intro backend c kv code d st
                H1 H2 H3 H4 H5 H6) as (Hc & _).
    rewrite Hr in Hc. discriminate Hc.
Qed.

Lemma check_login_status_returns backend c :
  exists b c', Session.check_login_status backend c = (Ok b, c').
Proof.
  apply try_except_returns. intros e s'. eexists _, _. reflexivity.
Qed.

Lemma check_login_status_transfer backend c c0 :
  fst (Session.check_login_status backend c) = Ok true ->
  fst (Session.check_login_status backend c0) = Ok true.
Proof.
  intros Ht. apply check_login_status_true_inv in Ht
    as (kv & code & Hb & Hc & Hcase).
  eapply check_login_status_true_intro; try eassumption.
  destruct Hcase as [Hl|(H200 & Hon)]; [left; exact Hl|right].
  split; [exact H200|].
  rewrite check_online_answer in Hon. rewrite check_online_answer.
  exact Hon.
Qed.

Lemma check_login_status_answer backend c :
  fst (Session.check_login_status backend c) = Ok (poll_answer backend).
Proof.
  unfold poll_answer.
  destruct (check_login_status_returns backend c) as (b & c' & Hr).
  destruct (check_login_status_returns backend fresh_client)
    as (b0 & c0 & Hr0).
  rewrite Hr, Hr0. cbn. destruct b, b0; try reflexivity.
  - assert (fst (Session.check_login_status backend c) = Ok true) as Ht
      by (rewrite Hr; reflexivity).
    apply (check_login_status_transfer backend c fresh_client) in Ht.
    rewrite Hr0 in Ht. discriminate Ht.
  - assert (fst (Session.check_login_status backend fresh_client) = Ok true)
      as Ht by (rewrite Hr0; reflexivity).
    apply (check_login_status_transfer backend fresh_client c) in Ht.
    rewrite Hr in Ht. discriminate Ht.
Qed.

(** ** The rounds of the polling loop *)

Section Rounds.

Variable poll : nat -> Session.endpoint -> Session.http_result.
Variable elapsed : nat -> Z.
Variable shutdown : nat -> bool.

(** The scan check of round [k], run inside the login state. *)
Lemma on_client_poll k s :
  exists c',
    Login.on_client (Session.check_login_status (poll k)) s
    = (Ok (poll_answer (poll k)),
       {| Login.client := c'; Login.posts := Login.posts s;
          Login.qr_code_data := Login.qr_code_data s;
          Login.sleeps := Login.sleeps s |})
    /\ (poll_answer (poll k) = false ->
        Session.login_status c' = Session.login_status (Login.client s)).
Proof.
  unfold Login.on_client.
  pose proof (check_login_status_answer (poll k) (Login.client s)) as Ha.
  pose proof (proj1 (check_login_status_keeps (poll k) (Login.client s)))
    as Hk.
  destruct (Session.check_login_status (poll k) (Login.client s))
    as [r c'].
  cbn in Ha, Hk. subst r. exists c'. split; [reflexivity|].
  intros Hf. apply Hk. rewrite Hf. reflexivity.
Qed.

(** A round in which time is left, nothing is confirmed and nobody
    shuts down sleeps five seconds and hands over to the next. *)
Lemma poll_loop_quiet_round fuel k s :
  elapsed k <= 300 ->
  poll_answer (poll k) = false ->
  shutdown k = false ->
  exists s1,
    Login.poll_loop poll elapsed shutdown (S fuel) k s
    = Login.poll_loop poll elapsed shutdown fuel (S k) s1
    /\ Login.sleeps s1 = Login.sleeps s ++ [5]
    /\ Login.posts s1 = Login.posts s
    /\ Login.qr_code_data s1 = Login.qr_code_data s
    /\ Session.login_status (Login.client s1)
       = Session.login_status (Login.client s).
Proof.
  intros He Hp Hs. cbn [Login.poll_loop].
  unfold Login.login_timeout.
  destruct (300 <? elapsed k) eqn:Hlt; [apply Z.ltb_lt in Hlt; lia|].
  destruct (on_client_poll k s) as (c' & Hc & Hl).
  unfold bind at 1. rewrite Hc, Hp, Hs.
  unfold bind at 1. unfold Login.sleep, modify.
  eexists. split; [reflexivity|]. cbn. auto.
Qed.

Lemma poll_loop_quiet n : forall fuel k s,
  (forall j, (k <= j < k + n)%nat ->
             elapsed j <= 300
             /\ poll_answer (poll j) = false
             /\ shutdown j = false) ->
  exists s1,
    Login.poll_loop poll elapsed shutdown (n + fuel) k s
    = Login.poll_loop poll elapsed shutdown fuel (k + n) s1
    /\ Login.sleeps s1 = Login.sleeps s ++ replicate n 5
    /\ Login.posts s1 = Login.posts s
    /\ Login.qr_code_data s1 = Login.qr_code_data s
    /\ Session.login_status (Login.client s1)
       = Session.login_status (Login.client s).
Proof.
  induction n as [|n IH]; intros fuel k s Hq.
  - exists s. rewrite Nat.add_0_r, app_nil_r. auto.
  - destruct (Hq k ltac:(lia)) as (He & Hp & Hs).
    destruct (poll_loop_quiet_round (n + fuel) k s He Hp Hs)
      as (s1 & E1 & A1 & B1 & C1 & D1).
    destruct (IH fuel (S k) s1) as (s2 & E2 & A2 & B2 & C2 & D2).
    { intros j Hj. apply Hq. lia. }
    exists s2. split.
    + cbn [Nat.add]. rewrite E1, E2. f_equal. lia.
    + rewrite A2, A1, B2, B1, C2, C1, D2, D1, <- app_assoc.
      auto.
Qed.

(** The three ways in which a round ends the loop. *)
Lemma poll_loop_last_round fuel k s :
  exists s',
    Login.poll_loop poll elapsed shutdown (S fuel) k s
    = (if 300 <? elapsed k then (Ok (Some false), s')
       else if poll_answer (poll k) then (Ok (Some true), s')
       else if shutdown k then (Ok (Some false), s')
       else Login.poll_loop poll elapsed shutdown fuel (S k) s')
    /\ Login.posts s' = Login.posts s
    /\ Login.qr_code_data s' = Login.qr_code_data s
    /\ (((300 <? elapsed k) = true \/ poll_answer (poll k) = true
         \/ shutdown k = true) ->
        Login.sleeps s' = Login.sleeps s)
    /\ Session.login_status (Login.client s')
       = (if 300 <? elapsed k then Session.login_status (Login.client s)
          else if poll_answer (poll k) then true
          else Session.login_status (Login.client s)).
Proof.
  cbn [Login.poll_loop]. unfold Login.login_timeout.
  destruct (300 <? elapsed k) eqn:Hlt.
  - eexists. split; [reflexivity|]. cbn. auto.
  - destruct (on_client_poll k s) as (c' & Hc & Hl).
    unfold bind at 1. rewrite Hc.
    destruct (poll_answer (poll k)) eqn:Hp.
    + eexists. split; [reflexivity|]. cbn. auto.
    + destruct (shutdown k) eqn:Hs.
      * eexists. split; [reflexivity|]. cbn. auto.
      * unfold bind at 1. unfold Login.sleep, modify.
        eexists. split; [reflexivity|]. cbn.
        repeat split; auto. intros [H|[H|H]]; discriminate H.
Qed.

End Rounds.

(** ** The way into the loop *)

Ltac stuck_goal :=
  match goal with
  | |- context [match ?x with _ => _ end] =>
      lazymatch x with
      | context [match _ with _ => _ end] => fail
      | _ => let E := fresh "E" in destruct x eqn:E
      end
  | |- context [if ?x then _ else _] =>
      lazymatch x with
      | context [match _ with _ => _ end] => fail
      | _ => let E := fresh "E" in destruct x eqn:E
      end
  end.

Ltac login_unfold :=
  unfold Login.check_and_login, Session.try_except_ValueError, try_except,
    bind, lift, ret, raise, Login.http_post, Login.logger,
    Login.set_login_status, Login.set_qr_code_data, Login.on_client,
    Session.logger, Session.set_login_status, modify.

Section Prelude.

Variable first_check : Session.endpoint -> Session.http_result.
Variable qr_answer : Session.http_result.
Variable poll : nat -> Session.endpoint -> Session.http_result.
Variable elapsed : nat -> Z.
Variable shutdown : nat -> bool.

Lemma check_and_login_online fuel s :
  online_answer first_check = true ->
  exists c',
    Login.check_and_login first_check qr_answer poll elapsed shutdown
      fuel s
    = (Ok (Some true),
       {| Login.client := c'; Login.posts := Login.posts s;
          Login.qr_code_data := Login.qr_code_data s;
          Login.sleeps := Login.sleeps s |})
    /\ Session.login_status c' = true
    /\ Session.requests c'
       = Session.requests (Login.client s) ++ [Session.GetLoginStatus].
Proof.
  intros Ho.
  destruct (check_online_full first_check (Login.client s))
    as (b & c' & Hon & Hreq & Hls).
  pose proof (check_online_answer first_check (Login.client s)) as Ha.
  rewrite Hon, Ho in Ha. injection Ha as ->.
  login_unfold. rewrite Hon. cbn.
  eexists. split; [reflexivity|]. cbn. auto.
Qed.

Lemma check_and_login_refused fuel s :
  online_answer first_check = false ->
  qr_code_of qr_answer = None ->
  exists c',
    Login.check_and_login first_check qr_answer poll elapsed shutdown
      fuel s
    = (Ok (Some false),
       {| Login.client := c';
          Login.posts := Login.posts s ++ [py "/login/GetLoginQrCodeNewX"];
          Login.qr_code_data := Login.qr_code_data s;
          Login.sleeps := Login.sleeps s |})
    /\ Session.login_status c' = Session.login_status (Login.client s)
    /\ Session.requests c'
       = Session.requests (Login.client s) ++ [Session.GetLoginStatus].
Proof.
  intros Ho Hqr.
  destruct (check_online_full first_check (Login.client s))
    as (b & c' & Hon & Hreq & Hls).
  pose proof (check_online_answer first_check (Login.client s)) as Ha.
  rewrite Hon, Ho in Ha. injection Ha as ->. cbn in Hls.
  login_unfold. rewrite Hon. cbn -[Login.poll_loop].
  repeat (stuck_goal; cbn -[Login.poll_loop]).
  all: try (eexists; split; [reflexivity|]; cbn; auto; fail).
  all: exfalso; subst.
  all: repeat match goal with
              | E : negb (_ =? 200) = false |- _ =>
                  apply negb_eqb_200 in E; subst
              | E : negb (eq_int _ 200) = false |- _ =>
                  apply negb_false_iff in E
              end.
  all: subscripts.
  all: cbn in Hqr.
  all: repeat match goal with
              | E : assoc _ _ = Some _ |- _ => rewrite E in Hqr
              | E : eq_int _ 200 = true |- _ => rewrite E in Hqr
              end.
  all: discriminate Hqr.
Qed.

End Prelude.

Lemma qr_code_of_some answer url :
  qr_code_of answer = Some url ->
  exists kv code d,
    answer = Session.Response 200 (Ok (PDict kv))
    /\ assoc (py "Code") kv = Some code
    /\ eq_int code 200 = true
    /\ assoc (py "Data") kv = Some (PDict d)
    /\ assoc (py "QrCodeUrl") d = Some url.
Proof.
  unfold qr_code_of. intros H.
  destruct answer as [|status [json|e]]; try discriminate H.
  - destruct status as [|p|p]; try discriminate H.
    repeat (destruct p as [p|p|]; try discriminate H).
    destruct json as [| | | | | |kv]; try discriminate H.
    destruct (assoc (py "Code") kv) as [code|] eqn:Ec; [|discriminate H].
    destruct (assoc (py "Data") kv) as [[| | | | | |d]|] eqn:Ed;
      try discriminate H.
    destruct (eq_int code 200) eqn:E2; [|discriminate H].
    eauto 10.
  - destruct status as [|p|p]; try discriminate H.
    repeat (destruct p as [p|p|]; try discriminate H).
Qed.

Section Polling.

Variable first_check : Session.endpoint -> Session.http_result.
Variable qr_answer : Session.http_result.
Variable poll : nat -> Session.endpoint -> Session.http_result.
Variable elapsed : nat -> Z.
Variable shutdown : nat -> bool.

Lemma poll_loop_returns fuel : forall k s,
  exists r s', Login.poll_loop poll elapsed shutdown fuel k s = (Ok r, s').
Proof.
  induction fuel as [|fuel IH]; intros k s; [cbn; unfold ret; eauto|].
  destruct (poll_loop_last_round poll elapsed shutdown fuel k s)
    as (s' & E & _).
  rewrite E.
  destruct (300 <? elapsed k); [eauto|].
  destruct (poll_answer (poll k)); [eauto|].
  destruct (shutdown k); [eauto|]. apply IH.
Qed.

(** Offline and with a QR code issued, [check_and_login] is its loop. *)
Lemma check_and_login_polls fuel s url :
  online_answer first_check = false ->
  qr_code_of qr_answer = Some url ->
  exists s0,
    Login.check_and_login first_check qr_answer poll elapsed shutdown
      fuel s
    = Login.poll_loop poll elapsed shutdown fuel 0 s0
    /\ Login.posts s0
       = Login.posts s ++ [py "/login/GetLoginQrCodeNewX"]
    /\ Login.qr_code_data s0 = Some url
    /\ Login.sleeps s0 = Login.sleeps s
    /\ Session.login_status (Login.client s0)
       = Session.login_status (Login.client s).
Proof.
  intros Ho Hqr.
  apply qr_code_of_some in Hqr as (kv & code & d & -> & Hc & H2 & Hd & Hu).
  destruct (check_online_full first_check (Login.client s))
    as (b & c' & Hon & Hreq & Hls).
  pose proof (check_online_answer first_check (Login.client s)) as Ha.
  rewrite Hon, Ho in Ha. injection Ha as ->. cbn in Hls.
  login_unfold. rewrite Hon. cbn -[Login.poll_loop].
  rewrite Hc. cbn -[Login.poll_loop]. rewrite H2, Hd.
  cbn -[Login.poll_loop]. rewrite Hu. cbn -[Login.poll_loop].
  match goal with
  | |- context [Login.poll_loop poll elapsed shutdown fuel 0%nat ?s0] =>
      destruct (poll_loop_returns fuel 0%nat s0) as (r & s' & Hr);
      exists s0; rewrite Hr
  end.
  split; [reflexivity|]. cbn. auto.
Qed.

End Polling.

(** ** [check_and_login] *)

(** X18. When the account is already online, [check_and_login] answers
    true and sets [login_status] after the single online check: no QR
    code is requested, nothing is polled and nothing sleeps. *)
Theorem login_when_already_online :
  forall first_check qr_answer poll elapsed shutdown fuel s,
    online_answer first_check = true ->
    let r := Login.check_and_login first_check qr_answer poll elapsed
               shutdown fuel s in
    fst r = Ok (Some true)
    /\ Session.login_status (Login.client (snd r)) = true
    /\ Session.requests (Login.client (snd r))
       = Session.requests (Login.client s) ++ [Session.GetLoginStatus]
    /\ Login.posts (snd r) = Login.posts s
    /\ Login.qr_code_data (snd r) = Login.qr_code_data s
    /\ Login.sleeps (snd r) = Login.sleeps s.
Proof.
  intros first_check qr_answer poll elapsed shutdown fuel s Ho. cbn zeta.
  destruct (check_and_login_online first_check qr_answer poll elapsed
              shutdown fuel s Ho) as (c' & -> & Hl & Hr).
  cbn. repeat split; assumption || reflexivity.
Qed.

Lemma login_when_already_online_witness :
  let r := Login.check_and_login backend_state3_online Session.NetError
             (fun _ => backend_idle) (fun _ => 0) (fun _ => false)
             0 fresh_login in
  fst r = Ok (Some true)
  /\ Session.login_status (Login.client (snd r)) = true
  /\ Session.requests (Login.client (snd r))
     = Session.requests (Login.client fresh_login)
       ++ [Session.GetLoginStatus]
  /\ Login.posts (snd r) = Login.posts fresh_login
  /\ Login.qr_code_data (snd r) = Login.qr_code_data fresh_login
  /\ Login.sleeps (snd r) = Login.sleeps fresh_login.
Proof.
  exact (login_when_already_online backend_state3_online Session.NetError
           (fun _ => backend_idle) (fun _ => 0) (fun _ => false)
           0 fresh_login eq_refl).
Defined.

(** X19. When the account is offline and the answer to the QR request
    carries no QR code (the request fails, the status is not 200, the
    body does not decode, [Code] is missing or not 200, [Data] or its
    [QrCodeUrl] is missing), [check_and_login] answers false after that
    one request: nothing is polled, nothing sleeps, and [login_status]
    and the stored QR code are as they were. *)
Theorem login_refused_without_qr_code :
  forall first_check qr_answer poll elapsed shutdown fuel s,
    online_answer first_check = false ->
    qr_code_of qr_answer = None ->
    let r := Login.check_and_login first_check qr_answer poll elapsed
               shutdown fuel s in
    fst r = Ok (Some false)
    /\ Session.login_status (Login.client (snd r))
       = Session.login_status (Login.client s)
    /\ Session.requests (Login.client (snd r))
       = Session.requests (Login.client s) ++ [Session.GetLoginStatus]
    /\ Login.posts (snd r)
       = Login.posts s ++ [py "/login/GetLoginQrCodeNewX"]
    /\ Login.qr_code_data (snd r) = Login.qr_code_data s
    /\ Login.sleeps (snd r) = Login.sleeps s.
Proof.
  intros first_check qr_answer poll elapsed shutdown fuel s Ho Hqr.
  cbn zeta.
  destruct (check_and_login_refused first_check qr_answer poll elapsed
              shutdown fuel s Ho Hqr) as (c' & -> & Hl & Hr).
  cbn. repeat split; assumption || reflexivity.
Qed.

Lemma login_refused_witness :
  let r := Login.check_and_login backend_idle (Session.Response 500 (Ok PNone))
             (fun _ => backend_confirmed) (fun _ => 0) (fun _ => false)
             10 fresh_login in
  fst r = Ok (Some false)
  /\ Session.login_status (Login.client (snd r))
     = Session.login_status (Login.client fresh_login)
  /\ Session.requests (Login.client (snd r))
     = Session.requests (Login.client fresh_login)
       ++ [Session.GetLoginStatus]
  /\ Login.posts (snd r)
     = Login.posts fresh_login ++ [py "/login/GetLoginQrCodeNewX"]
  /\ Login.qr_code_data (snd r) = Login.qr_code_data fresh_login
  /\ Login.sleeps (snd r) = Login.sleeps fresh_login.
Proof.
  exact (login_refused_without_qr_code backend_idle
           (Session.Response 500 (Ok PNone))
           (fun _ => backend_confirmed) (fun _ => 0) (fun _ => false)
           10 fresh_login eq_refl eq_refl).
Defined.

(** X20. Offline, with a QR code issued, and after [k] rounds in which
    time was left, nothing was confirmed and no shutdown was seen, the
    round [k] that ends the loop decides: a timeout (more than 300
    seconds) gives false even if the scan is confirmed by then; else a
    confirmed scan gives true and sets [login_status], even if shutdown
    was requested; else the shutdown gives false.  The loop has slept
    [k] times five seconds, the QR code was requested once and is
    stored. *)
Theorem login_decided_at_round :
  forall first_check qr_answer poll elapsed shutdown fuel s url k,
    online_answer first_check = false ->
    qr_code_of qr_answer = Some url ->
    (forall j, (j < k)%nat ->
               elapsed j <= 300
               /\ poll_answer (poll j) = false
               /\ shutdown j = false) ->
    (k < fuel)%nat ->
    (300 < elapsed k \/ poll_answer (poll k) = true \/ shutdown k = true) ->
    let r := Login.check_and_login first_check qr_answer poll elapsed
               shutdown fuel s in
    fst r = Ok (Some (if 300 <? elapsed k then false
                      else poll_answer (poll k)))
    /\ Session.login_status (Login.client (snd r))
       = (if 300 <? elapsed k then Session.login_status (Login.client s)
          else if poll_answer (poll k) then true
          else Session.login_status (Login.client s))
    /\ Login.sleeps (snd r) = Login.sleeps s ++ replicate k 5
    /\ Login.posts (snd r)
       = Login.posts s ++ [py "/login/GetLoginQrCodeNewX"]
    /\ Login.qr_code_data (snd r) = Some url.
Proof.
  intros first_check qr_answer poll elapsed shutdown fuel s url k
    Ho Hqr Hquiet Hk Hend. cbn zeta.
  destruct (check_and_login_polls first_check qr_answer poll elapsed
              shutdown fuel s url Ho Hqr)
    as (s0 & -> & P0 & Q0 & S0 & L0).
  replace fuel with (k + S (fuel - S k))%nat by lia.
  destruct (poll_loop_quiet poll elapsed shutdown k (S (fuel - S k)) 0 s0)
    as (s1 & -> & S1 & P1 & Q1 & L1).
  { intros j Hj. apply Hquiet. lia. }
  destruct (poll_loop_last_round poll elapsed shutdown (fuel - S k) k s1)
    as (s2 & E2 & P2 & Q2 & S2 & L2).
  cbn [Nat.add]. rewrite E2.
  assert (Login.sleeps s2 = Login.sleeps s1) as S2'.
  { apply S2. destruct Hend as [H|[H|H]]; auto.
    left. apply Z.ltb_lt. exact H. }
  destruct (300 <? elapsed k) eqn:Hlt;
    [|destruct (poll_answer (poll k)) eqn:Hp;
      [|destruct (shutdown k) eqn:Hs]]; cbn;
    rewrite ?L2, ?S2', ?P2, ?Q2, ?L1, ?S1, ?P1, ?Q1, ?L0, ?S0, ?P0, ?Q0;
    auto.
  exfalso. destruct Hend as [H|[H|H]]; try discriminate.
  apply Z.ltb_lt in H. congruence.
Qed.

Lemma login_decided_witness :
  let r := Login.check_and_login backend_idle qr_issued poll_confirmed_at_2
             (fun k => 5 * Z.of_nat k) (fun _ => false) 5 fresh_login in
  fst r = Ok (Some true)
  /\ Session.login_status (Login.client (snd r)) = true
  /\ Login.sleeps (snd r) = [5; 5]
  /\ Login.posts (snd r) = [py "/login/GetLoginQrCodeNewX"]
  /\ Login.qr_code_data (snd r) = Some (PStr (py "http://qr")).
Proof.
  exact (login_decided_at_round backend_idle qr_issued poll_confirmed_at_2
           (fun k => 5 * Z.of_nat k) (fun _ => false) 5 fresh_login
           (PStr (py "http://qr")) 2%nat eq_refl eq_refl
           ltac:(intros [|[|j]] Hj; [repeat split; (reflexivity || lia)
                                    |repeat split; (reflexivity || lia)
                                    |lia])
           ltac:(lia) (or_intror (or_introl eq_refl))).
Defined.

Lemma poll_loop_true_inv poll elapsed shutdown fuel : forall k s s',
  Login.poll_loop poll elapsed shutdown fuel k s = (Ok (Some true), s') ->
  exists j,
    (k <= j < k + fuel)%nat
    /\ poll_answer (poll j) = true
    /\ elapsed j <= 300
    /\ Session.login_status (Login.client s') = true.
Proof.
  induction fuel as [|fuel IH]; intros k s s' H; [discriminate H|].
  destruct (poll_loop_last_round poll elapsed shutdown fuel k s)
    as (s1 & E & _ & _ & _ & L).
  rewrite E in H.
  destruct (300 <? elapsed k) eqn:Hlt; [discriminate H|].
  apply Z.ltb_ge in Hlt.
  destruct (poll_answer (poll k)) eqn:Hp.
  - injection H as <-. exists k. repeat split; auto; lia.
  - destruct (shutdown k); [discriminate H|].
    apply IH in H as (j & Hj & H1 & H2 & H3).
    exists j. repeat split; auto; lia.
Qed.

(** X21. [check_and_login] answers true only with [login_status] set,
    and only for one of two reasons: the account was online at the
    first check, or a QR code was issued and some round within the time
    bound found the scan confirmed. *)
Theorem login_true_only_when_online_or_confirmed :
  forall first_check qr_answer poll elapsed shutdown fuel s,
    let r := Login.check_and_login first_check qr_answer poll elapsed
               shutdown fuel s in
    fst r = Ok (Some true) ->
    Session.login_status (Login.client (snd r)) = true
    /\ (online_answer first_check = true
        \/ exists url k,
            qr_code_of qr_answer = Some url
            /\ (k < fuel)%nat
            /\ poll_answer (poll k) = true
            /\ elapsed k <= 300).
Proof.
  intros first_check qr_answer poll elapsed shutdown fuel s r H.
  subst r. destruct (online_answer first_check) eqn:Ho.
  - destruct (check_and_login_online first_check qr_answer poll elapsed
                shutdown fuel s Ho) as (c' & E & Hl & _).
    rewrite E. cbn. auto.
  - destruct (qr_code_of qr_answer) as [url|] eqn:Hqr.
    + destruct (check_and_login_polls first_check qr_answer poll elapsed
                  shutdown fuel s url Ho Hqr) as (s0 & E & _).
      rewrite E in H |- *.
      destruct (Login.poll_loop poll elapsed shutdown fuel 0 s0)
        as [r s'] eqn:Hpl.
      cbn in H. subst r.
      apply poll_loop_true_inv in Hpl as (j & Hj & H1 & H2 & H3).
      cbn. split; [exact H3|]. right. exists url, j.
      repeat split; auto; lia.
    + destruct (check_and_login_refused first_check qr_answer poll elapsed
                  shutdown fuel s Ho Hqr) as (c' & E & _).
      rewrite E in H. discriminate H.
Qed.

Lemma login_true_only_witness :
  Session.login_status
    (Login.client
       (snd (Login.check_and_login backend_idle qr_issued
               poll_confirmed_at_2 (fun k => 5 * Z.of_nat k)
               (fun _ => false) 5 fresh_login)))
  = true
  /\ (online_answer backend_idle = true
      \/ exists url k,
          qr_code_of qr_issued = Some url
          /\ (k < 5)%nat
          /\ poll_answer (poll_confirmed_at_2 k) = true
          /\ 5 * Z.of_nat k <= 300).
Proof.
  exact (login_true_only_when_online_or_confirmed backend_idle qr_issued
           poll_confirmed_at_2 (fun k => 5 * Z.of_nat k) (fun _ => false)
           5 fresh_login eq_refl).
Defined.

(** ** [logout] *)

Ltac logout_unfold :=
  unfold Login.logout, try_except, bind, lift, ret, raise, Login.http_post,
    Login.logger, Login.set_login_status, Login.on_client,
    Session.logger, Session.set_login_status, modify.

(** X22. [logout] answers true exactly when the answer to its request
    decodes to an object whose [Code] is 0, whatever the HTTP status; it
    then clears [login_status].  On every other answer, a failed request
    included, it answers false and leaves [login_status] as it was. *)
Theorem logout_true_exactly_on_code_0 :
  forall answer s,
    let r := Login.logout answer s in
    (fst r = Ok true
     <-> exists status kv code,
          answer = Session.Response status (Ok (PDict kv))
          /\ assoc (py "Code") kv = Some code
          /\ eq_int code 0 = true)
    /\ (fst r = Ok true \/ fst r = Ok false)
    /\ Session.login_status (Login.client (snd r))
       = match fst r with
         | Ok true => false
         | _ => Session.login_status (Login.client s)
         end
    /\ Login.posts (snd r) = Login.posts s ++ [py "/login/Logout"].
Proof.
  intros answer s. cbn zeta. logout_unfold. cbn.
  destruct answer as [|status [json|e]]; cbn.
  - repeat split; auto; try discriminate.
    intros (st & kv & code & H & _). discriminate H.
  - destruct json as [| | | | | |kv]; cbn;
      try (repeat split; auto; try discriminate;
           intros (st & kv & code & H & _); discriminate H).
    destruct (assoc (py "Code") kv) as [code|] eqn:Ec; cbn.
    + destruct (eq_int code 0) eqn:E0; cbn.
      * repeat split; auto. intros _. eauto 10.
      * repeat split; auto; try discriminate.
        intros (st & kv' & code' & H & Hc & H0).
        injection H as _ <-. congruence.
    + repeat split; auto; try discriminate.
      intros (st & kv' & code' & H & Hc & H0).
      injection H as _ <-. congruence.
  - repeat split; auto; try discriminate.
    intros (st & kv & code & H & _). discriminate H.
Qed.

Lemma logout_witness :
  fst (Login.logout
         (Session.Response 500 (Ok (PDict [(py "Code", PInt 0)])))
         fresh_login)
  = Ok true.
Proof.
  exact (proj2 (proj1 (logout_true_exactly_on_code_0
                         (Session.Response 500
                            (Ok (PDict [(py "Code", PInt 0)])))
                         fresh_login))
           (ex_intro _ 500 (ex_intro _ _ (ex_intro _ (PInt 0)
              (conj eq_refl (conj eq_refl eq_refl)))))).
Defined.

(* ===================================================================== *)
(** * More on [find], [split] and [join]                                  *)
(* ===================================================================== *)

Section SplitFacts.

Implicit Types s sep : pystr.






(** ** One-character separators *)




End SplitFacts.

(* ===================================================================== *)
(** * Outbound: recipients                                                *)
(* ===================================================================== *)



Lemma dict_get_dict d k dflt v :
  dict_get d k dflt = Ok v -> exists kv, d = PDict kv.
Proof. destruct d; try discriminate. eauto. Qed.

(** X24. Replying to a produced message never fails to compute a
    recipient: it is the frame's [to_wxid] when that is truthy, else the
    session of the message; when both are falsy, so is the recipient
    (and the dispatch sends nothing). *)
Theorem reply_goes_back_to_the_session :
  forall format_value wxid now data logs abm logs',
    convert_message format_value wxid now data logs = (Ok (Some abm), logs') ->
    exists t r,
      dict_get data (py "to_wxid") PNone = Ok t
      /\ Adapter.reply_target (raw_message abm) = Ok r
      /\ (Adapter.truthy t = true -> r = t)
      /\ (Adapter.truthy t = false ->
          Adapter.truthy (session_id abm) = true -> r = session_id abm)
      /\ (Adapter.truthy t = false ->
          Adapter.truthy (session_id abm) = false ->
          Adapter.truthy r = false).
Proof.
  intros fv wxid now data logs abm logs' H.
  apply convert_message_some_inv, convert_body_some_inv in H
    as (fu & from_user & mid & tm & E1 & E2 & E3 & E4 & -> & Hcase).
  assert (raw_message abm = data /\ session_id abm = from_user) as [Hr Hs].
  { destruct Hcase as [(_ & ? & ? & ? & ->)|(_ & _ & ? & ? & ->)];
      split; reflexivity. }
  rewrite Hr, Hs. clear Hcase Hr Hs E3 E4.
  destruct (dict_get_dict _ _ _ _ E1) as [kv ->].
  destruct (dict_get_dict _ _ _ _ E2) as [kf ->].
  unfold Adapter.reply_target.
  cbn [dict_get and_then] in *.
  injection E1 as E1. injection E2 as E2.
  exists (default PNone (assoc (py "to_wxid") kv)).
  destruct (Adapter.truthy (default PNone (assoc (py "to_wxid") kv))) eqn:Ht.
  - eexists. split; [reflexivity|]. split; [reflexivity|].
    repeat split; intros; congruence.
  - rewrite E1. cbn [dict_get and_then].
    eexists. split; [reflexivity|]. split; [reflexivity|].
    subst from_user.
    destruct (assoc (py "str") kf) as [v|]; cbn [default].
    + repeat split; intros; congruence.
    + repeat split; intros; try reflexivity; try discriminate.
Qed.

(** Scenario C, which holds no [to_wxid]: the reply goes to the sender. *)
Lemma reply_goes_back_witness :
  exists t r,
    dict_get scenario_C (py "to_wxid") PNone = Ok t
    /\ Adapter.reply_target (raw_message scenario_C_message) = Ok r
    /\ (Adapter.truthy t = true -> r = t)
    /\ (Adapter.truthy t = false ->
        Adapter.truthy (session_id scenario_C_message) = true ->
        r = session_id scenario_C_message)
    /\ (Adapter.truthy t = false ->
        Adapter.truthy (session_id scenario_C_message) = false ->
        Adapter.truthy r = false).
Proof.
  exact (reply_goes_back_to_the_session no_format bot_wxid 0 scenario_C []
           scenario_C_message [converted_entry] eq_refl).
Defined.

(* ===================================================================== *)
(** * Outbound: the parts of a chain                                      *)
(* ===================================================================== *)

Section Parts.

Variable base_url : pystr.
Variable token : pystr.
Variable net : nat -> res unit.
Variable b64encode : list N -> pystr.
Variable lower : pystr -> pystr.
Variable uuid4 : nat -> pystr.
Variable describe : exn -> pystr.

Local Abbreviation send_comp :=
  (Dispatcher.send_comp base_url token net b64encode lower uuid4 describe).
Local Abbreviation send_with_client :=
  (Dispatcher.send_with_client base_url token net b64encode lower uuid4
     describe).
Local Abbreviation post_text := (Dispatcher.post_text base_url token net).
Local Abbreviation post_voice := (Dispatcher.post_voice base_url token net).
Local Abbreviation post_image := (Dispatcher.post_image base_url token net).


Lemma post_voice_run to data fmt w :
  calls (snd (post_voice to data fmt w))
  = calls w ++ [voice_call base_url token to data]
  /\ fs (snd (post_voice to data fmt w)) = fs w
  /\ uuids (snd (post_voice to data fmt w)) = uuids w
  /\ fst (post_voice to data fmt w) = net (length (calls w)).
Proof.
  unfold Dispatcher.post_voice, bind, Dispatcher.http_post,
    Dispatcher.logger, modify, voice_call.
  destruct (net (length (calls w))) as [[]|e]; cbn; auto.
Qed.

Lemma post_image_run to img w :
  calls (snd (post_image to img w))
  = calls w ++ [image_call base_url token to img]
  /\ fs (snd (post_image to img w)) = fs w
  /\ uuids (snd (post_image to img w)) = uuids w
  /\ fst (post_image to img w) = net (length (calls w)).
Proof.
  unfold Dispatcher.post_image, bind, Dispatcher.http_post,
    Dispatcher.logger, modify, image_call.
  destruct (net (length (calls w))) as [[]|e]; cbn; auto.
Qed.

(** The loop stops at the first part that raises. *)
Lemma for_each_abort {A} (f : A -> M world unit) pre x post w w1 e w2 :
  Dispatcher.for_each f pre w = (Ok tt, w1) ->
  f x w1 = (Raise e, w2) ->
  Dispatcher.for_each f (pre ++ x :: post) w = (Raise e, w2).
Proof.
  revert w. induction pre as [|y pre IH]; intros w Hpre Hx.
  - cbn in Hpre. injection Hpre as <-. cbn. unfold bind. rewrite Hx.
    reflexivity.
  - cbn in Hpre |- *. unfold bind in Hpre |- *.
    destruct (f y w) as [[[]|e'] w'] eqn:Ey; [|discriminate].
    apply IH; assumption.
Qed.


(** X26. A sticker part ends the dispatch with [AttributeError]: the
    parts before it are sent, it makes no call, and no part after it
    is looked at. *)
Theorem sticker_part_aborts_the_dispatch :
  forall to chain pre md5 md5_len cdnurl post w w1,
    to <> [] ->
    chain = pre ++ Dispatcher.Emoji md5 md5_len cdnurl :: post ->
    Dispatcher.for_each
      (send_comp to (Dispatcher.at_ids chain) (Dispatcher.at_names chain))
      pre w = (Ok tt, w1) ->
    send_with_client chain to w = (Raise AttributeError, w1).
Proof.
  intros to chain pre md5 md5_len cdnurl post w w1 Hto Hchain Hpre.
  unfold Dispatcher.send_with_client.
  destruct to as [|c to]; [congruence|].
  rewrite Hchain at 3.
  apply (for_each_abort _ pre _ post w w1 AttributeError w1 Hpre).
  reflexivity.
Qed.

(** X27. An image part whose file is missing raises
    [FileNotFoundError] and calls nothing; one whose file is there
    makes one image call with the encoded bytes of the file and leaves
    the file in place. *)
Theorem image_part_sends_the_file :
  forall to ats names path w,
    let r := send_comp to ats names (Dispatcher.Image (Ok path)) w in
    (fs w !! path = None -> r = (Raise FileNotFoundError, w))
    /\ (forall bytes,
          fs w !! path = Some bytes ->
          fst r = net (length (calls w))
          /\ calls (snd r)
             = calls w ++ [image_call base_url token to (b64encode bytes)]
          /\ fs (snd r) = fs w).
Proof.
  intros to ats names path w. cbn zeta. cbn [Dispatcher.send_comp].
  unfold bind, lift, Dispatcher.read_file. cbn beta iota. split.
  - intros ->. reflexivity.
  - intros bytes ->.
    destruct (post_image_run to (b64encode bytes) w) as (H1 & H2 & _ & H4).
    auto.
Qed.

End Parts.


(** A chain with a sticker in the middle: the text after it is not
    sent. *)
Lemma sticker_part_witness :
  urls (snd (sample_send emoji_chain (py "wxid_friend") empty_world))
  = [py "http://host:8848/message/SendTextMessage?key=k"]
  /\ fst (sample_send emoji_chain (py "wxid_friend") empty_world)
     = Raise AttributeError.
Proof.
  pose proof (sticker_part_aborts_the_dispatch sample_base_url sample_token
                net_up plain_b64 ascii_lower sample_uuid4 no_describe
                (py "wxid_friend") emoji_chain [Dispatcher.Plain (py "hi")]
                (py "md5") (py "3") (py "http://cdn/e")
                [Dispatcher.Plain (py "after")] empty_world _
                ltac:(vm_compute; discriminate) eq_refl eq_refl) as H.
  unfold sample_send. rewrite H. split; reflexivity.
Defined.

(** An image that is there, and one that is not. *)
Lemma image_part_witness :
  (let r := Dispatcher.send_comp sample_base_url sample_token net_up
              plain_b64 ascii_lower sample_uuid4 no_describe
              (py "wxid_friend") [] [] (Dispatcher.Image (Ok (py "a.png")))
              (world_with (py "a.png")) in
   fst r = Ok tt
   /\ calls (snd r)
      = [image_call sample_base_url sample_token (py "wxid_friend")
           [1; 2; 3]%N]
   /\ fs (snd r) = fs (world_with (py "a.png")))
  /\ Dispatcher.send_comp sample_base_url sample_token net_up
       plain_b64 ascii_lower sample_uuid4 no_describe
       (py "wxid_friend") [] [] (Dispatcher.Image (Ok (py "b.png")))
       (world_with (py "a.png"))
     = (Raise FileNotFoundError, world_with (py "a.png")).
Proof.
  split.
  - exact (proj2 (image_part_sends_the_file sample_base_url sample_token
                    net_up plain_b64 ascii_lower sample_uuid4 no_describe
                    (py "wxid_friend") [] [] (py "a.png")
                    (world_with (py "a.png")))
             [1; 2; 3]%N eq_refl).
  - exact (proj1 (image_part_sends_the_file sample_base_url sample_token
                    net_up plain_b64 ascii_lower sample_uuid4 no_describe
                    (py "wxid_friend") [] [] (py "b.png")
                    (world_with (py "a.png")))
             eq_refl).
Defined.

(* ===================================================================== *)
(** * Outbound: voice parts and the files                                 *)
(* ===================================================================== *)


Lemma try_finally_cleanup_fst {A} (body : M world A) paths w :
  fst (try_finally body (cleanup paths) w) = fst (body w).
Proof.
  unfold try_finally. destruct (body w) as [r w1].
  destruct (cleanup_spec paths w1) as (H1 & _).
  destruct (cleanup paths w1) as [[[]|e] w2]; simpl in *;
    [reflexivity|discriminate].
Qed.


Section Voice.

Variable base_url : pystr.
Variable token : pystr.
Variable net : nat -> res unit.
Variable b64encode : list N -> pystr.
Variable lower : pystr -> pystr.
Variable uuid4 : nat -> pystr.
Variable describe : exn -> pystr.

Local Abbreviation send_comp :=
  (Dispatcher.send_comp base_url token net b64encode lower uuid4 describe).
Local Abbreviation send_with_client :=
  (Dispatcher.send_with_client base_url token net b64encode lower uuid4
     describe).

Lemma send_record_unfold to ats names path w :
  send_comp to ats names (Record_ (Ok path)) w
  = try_finally
      (record_block base_url token net b64encode lower describe to path
         (silk_path_of uuid4 (uuids w)))
      (cleanup [path; silk_path_of uuid4 (uuids w)])
      (drawn w).
Proof. reflexivity. Qed.

Ltac run_block :=
  unfold record_block, try_except, Dispatcher.post_voice,
    Dispatcher.post_text, Dispatcher.http_post, bind, ret, raise,
    read_file, Dispatcher.logger, modify, drawn; cbn.


(** X28. An [.mp3] recording that is there is sent by one voice call
    with the encoded bytes of the file behind the [audio/mpeg] prefix.
    When that call fails, a second call sends the error text to the
    same recipient, and the part ends as that second call ends. *)
Theorem mp3_part_sends_the_recording :
  forall to ats names path bytes w,
    lower (snd (splitext path)) = py ".mp3" ->
    fs w !! path = Some bytes ->
    let r := send_comp to ats names (Record_ (Ok path)) w in
    let voice :=
      voice_call base_url token to
        (py "data:audio/mpeg;base64," ++ b64encode bytes) in
    match net (length (calls w)) with
    | Ok _ => fst r = Ok tt /\ calls (snd r) = calls w ++ [voice]
    | Raise e =>
        fst r = net (S (length (calls w)))
        /\ calls (snd r)
           = calls w
             ++ [voice;
                 text_call base_url token to
                   (py "语音处理错误: " ++ Dispatcher.str_exn describe e)
                   [[]]]
    end.
Proof.
  intros to ats names path bytes w Hext Hfs. cbn zeta.
  rewrite send_record_unfold, try_finally_cleanup_fst,
    try_finally_cleanup_calls.
  run_block. rewrite Hext, pystr_eqb_refl. cbn. rewrite Hfs. cbn.
  destruct (net (length (calls w))) as [[]|e] eqn:En; cbn.
  - split; reflexivity.
  - rewrite length_app. cbn [length]. rewrite Nat.add_1_r.
    destruct (net (S (length (calls w)))) as [[]|e']; cbn;
      rewrite <- app_assoc; split; reflexivity.
Qed.

(** X29. A [.wav] recording is never read: the voice data are the
    bytes of the temporary [.silk] file named by the fresh draw.  When
    that file is not there, no voice call is made and the
    [FileNotFoundError] is reported by one text call. *)
Theorem wav_part_reads_the_silk_file :
  forall to ats names path w,
    lower (snd (splitext path)) = py ".wav" ->
    let silk := silk_path_of uuid4 (uuids w) in
    let r := send_comp to ats names (Record_ (Ok path)) w in
    match fs w !! silk with
    | Some bytes =>
        exists rest,
          calls (snd r)
          = calls w
            ++ voice_call base_url token to
                 (py "data:audio/wav;base64," ++ b64encode bytes) :: rest
    | None =>
        fst r = net (length (calls w))
        /\ calls (snd r)
           = calls w
             ++ [text_call base_url token to
                   (py "语音处理错误: " ++ describe FileNotFoundError) [[]]]
    end.
Proof.
  intros to ats names path w Hext. cbn zeta.
  rewrite send_record_unfold, try_finally_cleanup_fst,
    try_finally_cleanup_calls.
  run_block. rewrite Hext.
  change (pystr_eqb (py ".wav") (py ".mp3")) with false.
  rewrite pystr_eqb_refl. unfold silk_path_of. cbn.
  destruct (fs w !! _) as [bytes|]; cbn.
  - destruct (net (length (calls w))) as [[]|e]; cbn.
    + eexists. reflexivity.
    + rewrite length_app. cbn [length].
      destruct (net (length (calls w) + 1)) as [[]|e']; cbn;
        rewrite <- app_assoc; eexists; reflexivity.
  - destruct (net (length (calls w))) as [[]|e]; cbn; split; reflexivity.
Qed.




End Voice.

(** A recording sent while the backend answers. *)
Lemma mp3_part_witness :
  ascii_lower (snd (splitext (py "data/temp/a.MP3"))) = py ".mp3"
  /\ (let r := Dispatcher.send_comp sample_base_url sample_token net_up
                 plain_b64 ascii_lower sample_uuid4 no_describe
                 (py "wxid_friend") [] []
                 (Record_ (Ok (py "data/temp/a.MP3")))
                 (world_with (py "data/temp/a.MP3")) in
      fst r = Ok tt
      /\ calls (snd r)
         = [voice_call sample_base_url sample_token (py "wxid_friend")
              (py "data:audio/mpeg;base64," ++ [1; 2; 3]%N)]).
Proof.
  split; [vm_compute; reflexivity|].
  exact (mp3_part_sends_the_recording sample_base_url sample_token net_up
           plain_b64 ascii_lower sample_uuid4 no_describe
           (py "wxid_friend") [] [] (py "data/temp/a.MP3") [1; 2; 3]%N
           (world_with (py "data/temp/a.MP3")) eq_refl eq_refl).
Defined.

(** A [.wav] recording with no [.silk] file beside it. *)
Lemma wav_part_witness :
  ascii_lower (snd (splitext (py "data/temp/a.wav"))) = py ".wav"
  /\ (let r := Dispatcher.send_comp sample_base_url sample_token net_up
                 plain_b64 ascii_lower sample_uuid4 no_describe
                 (py "wxid_friend") [] []
                 (Record_ (Ok (py "data/temp/a.wav")))
                 (world_with (py "data/temp/a.wav")) in
      fst r = Ok tt
      /\ calls (snd r)
         = [text_call sample_base_url sample_token (py "wxid_friend")
              (py "语音处理错误: ") [[]]]).
Proof.
  split; [vm_compute; reflexivity|].
  exact (wav_part_reads_the_silk_file sample_base_url sample_token net_up
           plain_b64 ascii_lower sample_uuid4 no_describe
           (py "wxid_friend") [] [] (py "data/temp/a.wav")
           (world_with (py "data/temp/a.wav")) eq_refl).
Defined.
